(** * Assessment pipeline: response extraction, agents, synthesis, notification channel

    A shallow embedding of the orchestration core of the assessment generator:
    - [deployment/utils/json_parser.py]  (response extractor),
    - [agents/dependency_analyzer_agent.py], [agents/problem_creator_agent.py],
      [deployment/agents/qa_validator_agent.py]  (specialized agents),
    - [orchestrator.py]  (synthesis, problem creation, validate-and-improve,
      final result),
    - [deployment/utils/a2a_protocol.py]  (notification channel),
    - [deployment/agents/code_analyzer_agent.py], [agents/pr_analyzer_agent.py]
      (further analyzers),
    - [deployment/utils/github_mcp.py]  (repository addresses).

    Python values are embedded as follows.
    - A [str] is the list of its Unicode code points ([list N]).
    - A value decoded from JSON, and every dict, list, number or string the
      pipeline passes around, is a [json] term; a dict keeps insertion order,
      so it is an association list with unique keys.
    - A statement that may raise returns a [result]; the stateful agent calls
      thread a [world] that records every text-completion call.
    Interpreter resource limits (recursion depth, the integer digit limit) are
    outside the model. *)

From Stdlib Require Import ZArith NArith Strings.String Strings.Ascii List Bool Lia.
From Stdlib Require Import Numbers.DecimalString.
From stdpp Require Import base option list gmap.

Local Open Scope N_scope.

(** ** Python strings *)

Abbreviation pystr := (list N) (only parsing).

(** A source literal as a Python string (ASCII text only). *)
Definition py (s : string) : pystr :=
  map N_of_ascii (list_ascii_of_string s).

(** The same, reading every apostrophe as a double quote: JSON text is written
    with apostrophes in the examples below. *)
Definition js (s : string) : pystr :=
  map (fun c => if c =? 39 then 34 else c) (py s).

(** [str.isspace] on one code point; the regex class [\s] on [str] patterns
    is the same set. *)
Definition isspace (c : N) : bool :=
  ((9 <=? c) && (c <=? 13)) || ((28 <=? c) && (c <=? 32))
  || (c =? 133) || (c =? 160) || (c =? 5760)
  || ((8192 <=? c) && (c <=? 8202))
  || (c =? 8232) || (c =? 8233) || (c =? 8239) || (c =? 8287) || (c =? 12288).

Fixpoint lstrip (s : pystr) : pystr :=
  match s with
  | c :: r => if isspace c then lstrip r else s
  | [] => []
  end.

Definition rstrip (s : pystr) : pystr := rev (lstrip (rev s)).

(** [s.strip()] *)
Definition strip (s : pystr) : pystr := rstrip (lstrip s).

(** [s.startswith(p)] *)
Fixpoint startswith (p s : pystr) : bool :=
  match p, s with
  | [], _ => true
  | a :: p', b :: s' => (a =? b) && startswith p' s'
  | _ :: _, [] => false
  end.

(** [s.find(p)]: index of the first occurrence, [None] for Python's -1. *)
Fixpoint find (p s : pystr) : option nat :=
  if startswith p s then Some 0%nat
  else match s with
       | [] => None
       | _ :: r => S <$> find p r
       end.

(** [p in s] *)
Definition contains (p s : pystr) : bool := bool_decide (is_Some (find p s)).

(** ASCII-only test, used by [str_lower]. *)
Definition isascii (s : pystr) : bool := forallb (fun c => c <? 128) s.

(** ** Exceptions *)

Inductive exn :=
| JSONDecodeError
| AttributeError
| TypeError
| KeyError
| InvocationError.

Inductive result (A : Type) :=
| Ok (a : A)
| Raise (e : exn).
Arguments Ok {A} a.
Arguments Raise {A} e.

Definition rbind {A B} (m : result A) (k : A -> result B) : result B :=
  match m with
  | Ok a => k a
  | Raise e => Raise e
  end.

Notation "'let!' x ':=' m 'in' k" := (rbind m (fun x => k))
  (at level 10, x pattern, m at level 100, k at level 200).

(** [try: m except JSONDecodeError: h] *)
Definition try_except_JSONDecodeError {A} (m : result A) (h : result A) : result A :=
  match m with
  | Raise JSONDecodeError => h
  | _ => m
  end.

(** ** Python floats

    A finite double is [(-1)^neg * m * 2^e]; decimal literals are rounded to
    the nearest double, ties to even, as [float(str)] does. *)

Inductive pyfloat :=
| PyFinite (neg : bool) (m : N) (e : Z)
| PyInf (neg : bool)
| PyNaN.

Definition pow2 (k : Z) : Z := Z.pow 2 k.

(** Nearest double to [(-1)^neg * digits * 10^exp10]. *)
Definition float_of_decimal (neg : bool) (digits : N) (exp10 : Z) : pyfloat :=
  if digits =? 0 then PyFinite neg 0 0
  else
    let num := (Z.of_N digits * Z.pow 10 (Z.max exp10 0))%Z in
    let den := Z.pow 10 (Z.max (- exp10) 0) in
    let l := (Z.log2 num - Z.log2 den)%Z in
    let ge_pow k :=
      (if 0 <=? k then den * pow2 k <=? num else den <=? num * pow2 (- k))%Z in
    let k := (if ge_pow l then l else l - 1)%Z in
    let e := Z.max (k - 52) (-1074) in
    let n := (num * pow2 (Z.max (- e) 0))%Z in
    let d := (den * pow2 (Z.max e 0))%Z in
    let q := (n / d)%Z in
    let r := (n mod d)%Z in
    let q' := (if (d <? 2 * r) || ((d =? 2 * r) && Z.odd q) then q + 1 else q)%Z in
    let '(m, e') := (if q' =? pow2 53 then (pow2 52, e + 1) else (q', e))%Z in
    if (971 <? e')%Z then PyInf neg
    else if (m =? 0)%Z then PyFinite neg 0 0
    else PyFinite neg (Z.to_N m) e'.

Definition float_is_zero (f : pyfloat) : bool :=
  match f with
  | PyFinite _ m _ => m =? 0
  | _ => false
  end.

(** [f >= t] for a float [f] and an int [t]; Python compares them exactly. *)
Definition float_ge_int (f : pyfloat) (t : Z) : bool :=
  match f with
  | PyNaN => false
  | PyInf neg => negb neg
  | PyFinite neg m e =>
      let v := (if neg then - Z.of_N m else Z.of_N m)%Z in
      (if 0 <=? e then t <=? v * pow2 e else t * pow2 (- e) <=? v)%Z
  end.

(** ** Decoded values *)

#[warnings="-register-all"]
Inductive json :=
| JNull
| JBool (b : bool)
| JInt (z : Z)
| JFloat (f : pyfloat)
| JStr (s : pystr)
| JArr (items : list json)
| JObj (fields : list (pystr * json)).

Abbreviation pydict := (list (pystr * json)) (only parsing).

(** [k in d] and [d.get(k)] on an insertion-ordered dict. *)
Fixpoint dict_get (d : pydict) (k : pystr) : option json :=
  match d with
  | [] => None
  | (k', v) :: r => if bool_decide (k' = k) then Some v else dict_get r k
  end.

(** [d[k] = v]: an existing key keeps its position. *)
Fixpoint dict_set (d : pydict) (k : pystr) (v : json) : pydict :=
  match d with
  | [] => [(k, v)]
  | (k', v') :: r =>
      if bool_decide (k' = k) then (k', v) :: r else (k', v') :: dict_set r k v
  end.

(** [dict(pairs)] and dict displays: later pairs overwrite earlier ones. *)
Definition dict_of_pairs (pairs : pydict) : pydict :=
  fold_left (fun d kv => dict_set d kv.1 kv.2) pairs [].

(** [list(d.keys())] *)
Definition dict_keys (d : pydict) : list pystr := map fst d.

(** Truth value of an object, as tested by [if v:], [and], [not]. *)
Definition py_truthy (v : json) : bool :=
  match v with
  | JNull => false
  | JBool b => b
  | JInt z => negb (z =? 0)%Z
  | JFloat f => negb (float_is_zero f)
  | JStr s => negb (bool_decide (s = []))
  | JArr l => negb (bool_decide (l = []))
  | JObj d => negb (bool_decide (d = []))
  end.

(** [v.get(k, default)]: only dicts have a [get] attribute. *)
Definition py_get (v : json) (k : pystr) (fallback : json) : result json :=
  match v with
  | JObj d => Ok (default fallback (dict_get d k))
  | _ => Raise AttributeError
  end.

(** [len(v)] *)
Definition py_len (v : json) : result nat :=
  match v with
  | JStr s => Ok (length s)
  | JArr l => Ok (length l)
  | JObj d => Ok (length d)
  | _ => Raise TypeError
  end.

(** [v[:n]]: strings and lists slice; a dict is not subscriptable by a slice
    (TypeError, KeyError from Python 3.12 on), other values not at all. *)
Definition py_slice_to (n : nat) (v : json) : result json :=
  match v with
  | JStr s => Ok (JStr (take n s))
  | JArr l => Ok (JArr (take n l))
  | JObj _ => Raise TypeError
  | _ => Raise TypeError
  end.

(** The items a [for] loop over [v] visits: characters of a string, items of a
    list, keys of a dict. *)
Definition py_iter (v : json) : result (list json) :=
  match v with
  | JStr s => Ok (map (fun c => JStr [c]) s)
  | JArr l => Ok l
  | JObj d => Ok (map (fun kv => JStr kv.1) d)
  | _ => Raise TypeError
  end.

(** [v >= t] for an int [t]: defined on numbers (a bool is an int). *)
Definition py_ge_int (v : json) (t : Z) : result bool :=
  match v with
  | JInt z => Ok (t <=? z)%Z
  | JBool b => Ok (t <=? (if b then 1 else 0))%Z
  | JFloat f => Ok (float_ge_int f t)
  | _ => Raise TypeError
  end.

(** [list(v.keys())] for a dict [v]. *)
Definition py_keys (v : json) : list pystr :=
  match v with
  | JObj d => dict_keys d
  | _ => []
  end.

(** [v[k]] for a string key. *)
Definition py_index (v : json) (k : pystr) : result json :=
  match v with
  | JObj d => match dict_get d k with Some x => Ok x | None => Raise KeyError end
  | _ => Raise TypeError
  end.

(** [map] in the exception monad: stops at the first exception. *)
Fixpoint rmap {A B} (f : A -> result B) (l : list A) : result (list B) :=
  match l with
  | [] => Ok []
  | x :: r => let! y := f x in let! ys := rmap f r in Ok (y :: ys)
  end.

(** ** [json.loads]

    The decoder of Python's [json] package with its default settings
    ([strict=True], no hooks), transcribed from the scanner: whitespace is
    space, tab, line feed and carriage return; [NaN], [Infinity] and
    [-Infinity] are accepted; a repeated key keeps its first position and its
    last value.  [None] stands for [JSONDecodeError]. *)

Definition json_ws (c : N) : bool :=
  (c =? 32) || (c =? 9) || (c =? 10) || (c =? 13).

Fixpoint skip_ws (s : pystr) : pystr :=
  match s with
  | c :: r => if json_ws c then skip_ws r else s
  | [] => []
  end.

Definition is_digit (c : N) : bool := (48 <=? c) && (c <=? 57).

Definition hex_digit (c : N) : option N :=
  if is_digit c then Some (c - 48)
  else if (97 <=? c) && (c <=? 102) then Some (c - 87)
  else if (65 <=? c) && (c <=? 70) then Some (c - 55)
  else None.

Definition hex4 (a b c d : N) : option N :=
  a' ← hex_digit a; b' ← hex_digit b; c' ← hex_digit c; d' ← hex_digit d;
  Some (((a' * 16 + b') * 16 + c') * 16 + d').

(** The [BACKSLASH] table of one-character escapes. *)
Definition backslash (e : N) : option N :=
  if (e =? 34) || (e =? 92) || (e =? 47) then Some e
  else if e =? 98 then Some 8
  else if e =? 102 then Some 12
  else if e =? 110 then Some 10
  else if e =? 114 then Some 13
  else if e =? 116 then Some 9
  else None.

Definition is_high_surrogate (u : N) : bool := (55296 <=? u) && (u <=? 56319).
Definition is_low_surrogate (u : N) : bool := (56320 <=? u) && (u <=? 57343).
Definition join_surrogates (hi lo : N) : N :=
  65536 + ((hi - 55296) * 1024 + (lo - 56320)).

(** [scanstring]: [s] starts just after the opening quote; the result is the
    decoded string and the text after the closing quote. *)
Fixpoint scanstring (s acc : pystr) : option (pystr * pystr) :=
  match s with
  | [] => None
  | c :: r =>
      if c =? 34 then Some (rev acc, r)
      else if c =? 92 then
        match r with
        | [] => None
        | e :: r1 =>
            if e =? 117 then
              match r1 with
              | a :: b :: c2 :: d :: r2 =>
                  match hex4 a b c2 d with
                  | None => None
                  | Some u =>
                      match r2 with
                      | x :: y :: a' :: b' :: c' :: d' :: r3 =>
                          if is_high_surrogate u && (x =? 92) && (y =? 117) then
                            match hex4 a' b' c' d' with
                            | None => None
                            | Some u2 =>
                                if is_low_surrogate u2
                                then scanstring r3 (join_surrogates u u2 :: acc)
                                else scanstring r2 (u :: acc)
                            end
                          else scanstring r2 (u :: acc)
                      | _ => scanstring r2 (u :: acc)
                      end
                  end
              | _ => None
              end
            else
              match backslash e with
              | Some ch => scanstring r1 (ch :: acc)
              | None => None
              end
        end
      else if c <? 32 then None
      else scanstring r (c :: acc)
  end.

(** Longest prefix of decimal digits, and the rest. *)
Fixpoint span_digits (s : pystr) : pystr * pystr :=
  match s with
  | c :: r =>
      if is_digit c then let '(ds, r') := span_digits r in (c :: ds, r')
      else ([], s)
  | [] => ([], [])
  end.

Definition digits_value (ds : pystr) : N :=
  fold_left (fun a c => a * 10 + (c - 48)) ds 0.

(** [NUMBER_RE.match]: integer part, optional fraction, optional exponent; a
    literal with neither fraction nor exponent is an [int], any other a
    [float]. *)
Definition match_number (s : pystr) : option (json * pystr) :=
  let '(neg, s1) :=
    match s with
    | c :: r => if c =? 45 then (true, r) else (false, s)
    | [] => (false, s)
    end in
  match s1 with
  | [] => None
  | c :: r =>
      let int_part :=
        if c =? 48 then Some ([c], r)
        else if is_digit c then let '(ds, r') := span_digits r in Some (c :: ds, r')
        else None in
      match int_part with
      | None => None
      | Some (ids, s2) =>
          let '(frac, s3) :=
            match s2 with
            | d :: r2 =>
                if d =? 46 then
                  match span_digits r2 with
                  | ([], _) => ([], s2)
                  | (fs, r3) => (fs, r3)
                  end
                else ([], s2)
            | [] => ([], s2)
            end in
          let '(exp, s4) :=
            match s3 with
            | e :: r3 =>
                if (e =? 101) || (e =? 69) then
                  let '(eneg, r4) :=
                    match r3 with
                    | x :: r' =>
                        if x =? 45 then (true, r')
                        else if x =? 43 then (false, r')
                        else (false, r3)
                    | [] => (false, r3)
                    end in
                  match span_digits r4 with
                  | ([], _) => (None, s3)
                  | (es, r5) =>
                      let v := Z.of_N (digits_value es) in
                      (Some (if eneg then (- v)%Z else v), r5)
                  end
                else (None, s3)
            | [] => (None, s3)
            end in
          match frac, exp with
          | [], None =>
              let v := Z.of_N (digits_value ids) in
              Some (JInt (if neg then (- v)%Z else v), s4)
          | _, _ =>
              let e10 := (default 0%Z exp - Z.of_nat (length frac))%Z in
              Some (JFloat (float_of_decimal neg (digits_value (ids ++ frac)) e10), s4)
          end
      end
  end.

(** [scan_once] with the object and array loops; [fuel] bounds the nesting of
    calls, and [json_loads] supplies enough of it. *)
Fixpoint scan_once (fuel : nat) (s : pystr) : option (json * pystr) :=
  match fuel with
  | O => None
  | S fuel' =>
      match s with
      | [] => None
      | c :: r =>
          if c =? 34 then
            '(str, r') ← scanstring r []; Some (JStr str, r')
          else if c =? 123 then
            match skip_ws r with
            | x :: r2 =>
                if x =? 125 then Some (JObj [], r2)
                else scan_members fuel' (skip_ws r) []
            | [] => None
            end
          else if c =? 91 then
            match skip_ws r with
            | x :: r2 =>
                if x =? 93 then Some (JArr [], r2)
                else scan_items fuel' (skip_ws r) []
            | [] => None
            end
          else if startswith (py "null") s then Some (JNull, drop 4 s)
          else if startswith (py "true") s then Some (JBool true, drop 4 s)
          else if startswith (py "false") s then Some (JBool false, drop 5 s)
          else
            match match_number s with
            | Some nr => Some nr
            | None =>
                if startswith (py "NaN") s then Some (JFloat PyNaN, drop 3 s)
                else if startswith (py "Infinity") s
                then Some (JFloat (PyInf false), drop 8 s)
                else if startswith (py "-Infinity") s
                then Some (JFloat (PyInf true), drop 9 s)
                else None
            end
      end
  end
with scan_members (fuel : nat) (s : pystr) (acc : pydict) : option (json * pystr) :=
  match fuel with
  | O => None
  | S fuel' =>
      match s with
      | q :: r =>
          if q =? 34 then
            '(key, r1) ← scanstring r [];
            match skip_ws r1 with
            | col :: r2 =>
                if col =? 58 then
                  '(v, r3) ← scan_once fuel' (skip_ws r2);
                  let acc' := dict_set acc key v in
                  match skip_ws r3 with
                  | x :: r4 =>
                      if x =? 125 then Some (JObj acc', r4)
                      else if x =? 44 then scan_members fuel' (skip_ws r4) acc'
                      else None
                  | [] => None
                  end
                else None
            | [] => None
            end
          else None
      | [] => None
      end
  end
with scan_items (fuel : nat) (s : pystr) (acc : list json) : option (json * pystr) :=
  match fuel with
  | O => None
  | S fuel' =>
      '(v, r1) ← scan_once fuel' s;
      match skip_ws r1 with
      | x :: r2 =>
          if x =? 93 then Some (JArr (rev (v :: acc)), r2)
          else if x =? 44 then scan_items fuel' (skip_ws r2) (v :: acc)
          else None
      | [] => None
      end
  end.

(** [JSONDecoder.decode]: one value, surrounded by optional whitespace, and
    nothing else. *)
Definition json_decode (s : pystr) : option json :=
  '(v, r) ← scan_once (2 * length s + 2) (skip_ws s);
  match skip_ws r with
  | [] => Some v
  | _ :: _ => None
  end.

(** [json.loads(s)] *)
Definition json_loads (s : pystr) : result json :=
  match json_decode s with
  | Some v => Ok v
  | None => Raise JSONDecodeError
  end.

(** ** The response extractor ([json_parser.py]) *)

Definition fence : pystr := py "```".
Definition json_fence : pystr := py "```json".

(** The lazy group [(.*?)] followed by [\s*```]: the shortest prefix of [s]
    after which optional whitespace and a closing fence follow. *)
Fixpoint lazy_until_fence (s : pystr) : option pystr :=
  if startswith fence (lstrip s) then Some []
  else match s with
       | [] => None
       | c :: r => (c ::.) <$> lazy_until_fence r
       end.

(** [re.search(opening + r'\s*(.*?)\s*```', s, re.DOTALL)], returning
    [match.group(1)]: the search succeeds, if at all, at the first occurrence
    of [opening], with the greedy [\s*] taking all whitespace after it. *)
Definition search_fenced (opening s : pystr) : option pystr :=
  match find opening s with
  | None => None
  | Some i => lazy_until_fence (lstrip (drop (i + length opening) s))
  end.

(** Step 1 of [extract_json_from_response]: the stripped response, or the
    stripped content of its first fenced block. *)
Definition strip_code_block (response : pystr) : pystr :=
  let json_str := strip response in
  if contains json_fence json_str then
    match search_fenced json_fence json_str with
    | Some group1 => strip group1
    | None => json_str
    end
  else if contains fence json_str then
    match search_fenced fence json_str with
    | Some group1 => strip group1
    | None => json_str
    end
  else json_str.

(** Fix 1: drop the text before the first opening brace, if there is one. *)
Definition from_first_brace (json_str : pystr) : pystr :=
  match find (py "{") json_str with
  | Some start_idx => drop start_idx json_str
  | None => json_str
  end.

(** Fix 2, the brace-counting loop: [i] is the index of the next character,
    and the result is the final [last_valid_pos]. *)
Fixpoint brace_loop (s : pystr) (i : nat) (brace_count : Z) (last_valid_pos : nat)
  : nat :=
  match s with
  | [] => last_valid_pos
  | char :: r =>
      if char =? 123 then brace_loop r (S i) (brace_count + 1)%Z last_valid_pos
      else if char =? 125 then
        let brace_count := (brace_count - 1)%Z in
        brace_loop r (S i) brace_count
          (if (brace_count =? 0)%Z then (i + 1)%nat else last_valid_pos)
      else brace_loop r (S i) brace_count last_valid_pos
  end.

Definition last_valid_pos (json_str : pystr) : nat := brace_loop json_str 0 0 0.

Definition truncate_at_last_valid (json_str : pystr) : pystr :=
  let p := last_valid_pos json_str in
  if bool_decide (0 < p)%nat && bool_decide (p < length json_str)%nat
  then take p json_str
  else json_str.

(** [extract_json_from_response(response)].  Python's [None] is [JNull]; the
    value of a successful parse is returned whatever its type. *)
Definition extract_json_from_response (response : pystr) : result json :=
  let json_str := strip_code_block response in
  try_except_JSONDecodeError (json_loads json_str)
    (let json_str := truncate_at_last_valid (from_first_brace json_str) in
     try_except_JSONDecodeError (json_loads json_str) (Ok JNull)).


(** ** Rendering values as text *)

(** [int.__repr__] *)
Definition py_int (z : Z) : pystr :=
  py (DecimalString.NilZero.string_of_int (Z.to_int z)).

(** [sep.join(parts)] on strings. *)
Fixpoint join (sep : pystr) (parts : list pystr) : pystr :=
  match parts with
  | [] => []
  | [p] => p
  | p :: r => p ++ sep ++ join sep r
  end.

Definition hex_char (d : N) : N := if d <? 10 then 48 + d else 87 + d.

(** The escape [\uXXXX] of a 16-bit code unit. *)
Definition u_escape (n : N) : pystr :=
  [92; 117; hex_char (n / 4096 mod 16); hex_char (n / 256 mod 16);
   hex_char (n / 16 mod 16); hex_char (n mod 16)].

(** [py_encode_basestring_ascii]: one character. *)
Definition encode_char (c : N) : pystr :=
  if c =? 34 then [92; 34]
  else if c =? 92 then [92; 92]
  else if c =? 10 then [92; 110]
  else if c =? 13 then [92; 114]
  else if c =? 9 then [92; 116]
  else if c =? 12 then [92; 102]
  else if c =? 8 then [92; 98]
  else if (32 <=? c) && (c <=? 126) then [c]
  else if c <? 65536 then u_escape c
  else
    let n := c - 65536 in
    u_escape (55296 + n / 1024 mod 1024) ++ u_escape (56320 + n mod 1024).

Definition encode_basestring_ascii (s : pystr) : pystr :=
  [34] ++ flat_map encode_char s ++ [34].

Section Rendering.

(** Python's [repr] builtin.  It is used for floats (by [json.dumps] and by
    string formatting) and for lists and dicts (by string formatting); its
    output there is left open. *)
Variable py_repr : json -> pystr.

(** [json.dumps(v, indent=indent)] with the default [ensure_ascii=True],
    at nesting depth [level]. *)
Fixpoint json_dumps_level (indent : option nat) (level : nat) (v : json)
  {struct v} : pystr :=
  let newline n :=
    match indent with
    | Some k => 10 :: repeat 32 (k * n)%nat
    | None => []
    end in
  let item_separator :=
    match indent with
    | Some _ => py ","
    | None => py ", "
    end in
  match v with
  | JNull => py "null"
  | JBool true => py "true"
  | JBool false => py "false"
  | JInt z => py_int z
  | JFloat PyNaN => py "NaN"
  | JFloat (PyInf false) => py "Infinity"
  | JFloat (PyInf true) => py "-Infinity"
  | JFloat f => py_repr (JFloat f)
  | JStr s => encode_basestring_ascii s
  | JArr [] => py "[]"
  | JArr l =>
      py "[" ++ newline (S level)
      ++ join (item_separator ++ newline (S level))
           (map (json_dumps_level indent (S level)) l)
      ++ newline level ++ py "]"
  | JObj [] => py "{}"
  | JObj d =>
      py "{" ++ newline (S level)
      ++ join (item_separator ++ newline (S level))
           (map (fun kv => let '(k, x) := kv in
                           encode_basestring_ascii k ++ py ": "
                           ++ json_dumps_level indent (S level) x) d)
      ++ newline level ++ py "}"
  end.

Definition json_dumps (indent : option nat) (v : json) : pystr :=
  json_dumps_level indent 0 v.

(** [str(v)], the text an f-string substitutes for [{v}]. *)
Definition py_str (v : json) : pystr :=
  match v with
  | JStr s => s
  | JNull => py "None"
  | JBool true => py "True"
  | JBool false => py "False"
  | JInt z => py_int z
  | _ => py_repr v
  end.

End Rendering.

(** ** Text-completion calls and the state they leave

    Logging, timing and the notices sent on the notification channel never
    influence a return value; of the agents' effects only the
    text-completion calls are recorded.  Where the source evaluates an
    expression just to log, print or notify it, the model evaluates it too,
    since it may raise. *)

(** Fixed prompt wordings with holes; the wording between the holes is not
    modelled. *)
Inductive template :=
| ValidationTemplate
| RefinementTemplate
| CreationTemplate.

Inductive prompt :=
| Text (text : pystr)
| Template (t : template) (holes : list pystr).

Record call := Call { agent : pystr; request : prompt }.

Abbreviation world := (list call) (only parsing).

Inductive outcome (A : Type) :=
| Returns (a : A) (w : world)
| Raises (e : exn) (w : world).
Arguments Returns {A} a w.
Arguments Raises {A} e w.

Definition M (A : Type) : Type := world -> outcome A.

Definition sret {A} (a : A) : M A := fun w => Returns a w.

Definition sbind {A B} (m : M A) (k : A -> M B) : M B :=
  fun w =>
    match m w with
    | Returns a w' => k a w'
    | Raises e w' => Raises e w'
    end.

Notation "'do!' x ':=' m 'in' k" := (sbind m (fun x => k))
  (at level 10, x pattern, m at level 100, k at level 200).

(** The value a computation returned, if it did. *)
Definition returned {A} (o : outcome A) : option A :=
  match o with
  | Returns a _ => Some a
  | Raises _ _ => None
  end.

(** The calls recorded when a computation stopped, normally or not. *)
Definition world_of {A} (o : outcome A) : world :=
  match o with
  | Returns _ w => w
  | Raises _ w => w
  end.

Definition lift {A} (r : result A) : M A :=
  fun w =>
    match r with
    | Ok a => Returns a w
    | Raise e => Raises e w
    end.

(** [if conversation_id:] *)
Definition has_conversation (conversation_id : option pystr) : bool :=
  match conversation_id with
  | Some (_ :: _) => true
  | _ => false
  end.

(** [', '.join(a + b)]: the sum is a list or a string, its items strings;
    every other combination ends in a TypeError, from [+] or from [join]. *)
Definition py_join_sum (sep : pystr) (a b : json) : result pystr :=
  let! items :=
    match a, b with
    | JArr l1, JArr l2 => Ok (l1 ++ l2)
    | JStr s1, JStr s2 => py_iter (JStr (s1 ++ s2))
    | _, _ => Raise TypeError
    end in
  let! parts :=
    rmap (fun x => match x with JStr s => Ok s | _ => Raise TypeError end) items in
  Ok (join sep parts).

(** [{**d, k: v}] *)
Definition py_dict_with (d : json) (k : pystr) (v : json) : result json :=
  match d with
  | JObj fields => Ok (JObj (dict_set fields k v))
  | _ => Raise TypeError
  end.

(** The test [analysis and not analysis.get('parse_failed')] shared by every
    agent. *)
Definition decoded_ok (analysis : json) : result bool :=
  if py_truthy analysis then
    let! parse_failed := py_get analysis (py "parse_failed") JNull in
    Ok (negb (py_truthy parse_failed))
  else Ok false.

(** [analysis.get('error', 'Unknown parsing error') if analysis
     else 'Failed to extract JSON'] *)
Definition error_message (analysis : json) : result json :=
  if py_truthy analysis
  then py_get analysis (py "error") (JStr (py "Unknown parsing error"))
  else Ok (JStr (py "Failed to extract JSON")).

Definition join_lines (lines : list pystr) : pystr := join [10] lines.

Section Pipeline.

Variable py_repr : json -> pystr.

(** [str.lower] outside ASCII (the Unicode case mapping). *)
Variable unicode_lower : pystr -> pystr.

(** The text-completion client: agent name, prompt and the number of
    earlier calls of the run give the generated text, or the call fails. *)
Variable generate : pystr -> prompt -> nat -> result pystr.

Let dumps := json_dumps py_repr.
Let str := py_str py_repr.

(** [s.lower()] *)
Definition str_lower (s : pystr) : pystr :=
  if isascii s
  then map (fun c => if (65 <=? c) && (c <=? 90) then c + 32 else c) s
  else unicode_lower s.

(** [BaseGeminiAgent.run]: one text-completion call; a failure of the
    client propagates. *)
Definition run (name : pystr) (p : prompt) : M pystr :=
  fun w =>
    let w' := w ++ [Call name p] in
    match generate name p (length w) with
    | Ok text => Returns text w'
    | Raise e => Raises e w'
    end.

(** *** Dependency analyzer ([dependency_analyzer_agent.py]) *)

(** The prompt wording of [analyze], around its four substitutions. *)
Definition dependency_prompt_text (name language deps_summary readme : pystr) : pystr :=
  join_lines
    [ py "Analyze this tech stack and dependencies:";
      [];
      py "Repository: " ++ name;
      py "Primary Language: " ++ language;
      [];
      py "Dependencies:";
      deps_summary;
      [];
      py "README (for context):";
      readme;
      [];
      py "Analyze the technology stack, dependency health, and identify integration opportunities for coding challenges.";
      py "Return ONLY valid JSON matching the specified format." ].

Definition dependency_prompt (repo_data : json) : result pystr :=
  let! dependencies := py_get repo_data (py "dependencies") (JArr []) in
  let deps_summary := take 2000 (dumps (Some 2%nat) dependencies) in
  let! repository := py_get repo_data (py "repository") (JObj []) in
  let! name := py_get repository (py "name") (JStr (py "Unknown")) in
  let! repository := py_get repo_data (py "repository") (JObj []) in
  let! language := py_get repository (py "language") (JStr (py "Unknown")) in
  let! readme := py_get repo_data (py "readme") (JStr (py "No README")) in
  let! readme_excerpt := py_slice_to 500 readme in
  Ok (dependency_prompt_text (str name) (str language) deps_summary
        (str readme_excerpt)).

Definition dependency_default (error_msg : json) : json :=
  JObj
    [ (py "tech_stack",
       JObj [ (py "frameworks", JArr []); (py "libraries", JArr []);
              (py "runtime", JStr (py "Unknown")); (py "build_tools", JArr []) ]);
      (py "dependency_health",
       JObj [ (py "outdated", JArr []); (py "vulnerable", JArr []);
              (py "well_maintained", JArr []) ]);
      (py "integration_opportunities", JArr []);
      (py "error", error_msg) ].

(** [DependencyAnalyzerAgent.analyze] *)
Definition analyze (repo_data : json) (conversation_id : option pystr) : M json :=
  do! prompt_text := lift (dependency_prompt repo_data) in
  do! response := run (py "dependency_analyzer") (Text prompt_text) in
  do! analysis := lift (extract_json_from_response response) in
  do! ok := lift (decoded_ok analysis) in
  if ok then
    let frameworks :=
      let! tech_stack := py_get analysis (py "tech_stack") (JObj []) in
      py_get tech_stack (py "frameworks") (JArr []) in
    do! _ := lift (let! f := frameworks in py_len f) in
    do! _ := lift (if has_conversation conversation_id then
                     let! _ := frameworks in
                     let! opportunities :=
                       py_get analysis (py "integration_opportunities") (JArr []) in
                     py_len opportunities
                   else Ok 0%nat) in
    sret analysis
  else
    do! error_msg := lift (error_message analysis) in
    sret (dependency_default error_msg).

(** *** Problem creator ([problem_creator_agent.py]) *)

Definition refinement_prompt (improvement_context : json) : result prompt :=
  let! original_problem :=
    py_get improvement_context (py "original_problem") (JObj []) in
  let! validation_feedback :=
    py_get improvement_context (py "validation_feedback") (JObj []) in
  let! issues := py_get validation_feedback (py "issues") (JArr []) in
  let! suggestions := py_get validation_feedback (py "suggestions") (JArr []) in
  let! score := py_get validation_feedback (py "overall_score") (JInt 0) in
  let! feedback := py_get validation_feedback (py "feedback") (JObj []) in
  let! strengths := py_get feedback (py "strengths") (JArr []) in
  Ok (Template RefinementTemplate
        [ dumps (Some 2%nat) original_problem;
          str score;
          if py_truthy issues then dumps (Some 2%nat) issues
          else py "None - problem is generally good";
          if py_truthy suggestions then dumps (Some 2%nat) suggestions
          else py "None - minor polish only";
          dumps (Some 2%nat) strengths ]).

Definition creation_prompt (repository_report difficulty problem_type focus_area : json)
  : result prompt :=
  let! repo_profile := py_get repository_report (py "repository_profile") (JObj []) in
  let! dependency_analysis :=
    py_get repository_report (py "dependency_analysis") (JObj []) in
  let! tech_stack := py_get dependency_analysis (py "tech_stack") (JObj []) in
  let! name := py_get repo_profile (py "name") (JStr (py "Unknown")) in
  let! description := py_get repo_profile (py "description") (JStr (py "N/A")) in
  let! description := py_slice_to 200 description in
  let! language := py_get repo_profile (py "language") (JStr (py "Unknown")) in
  let! readme_summary := py_get repository_report (py "readme_summary") (JStr (py "N/A")) in
  let! readme_summary := py_slice_to 400 readme_summary in
  let! frameworks := py_get tech_stack (py "frameworks") (JArr []) in
  let! libraries := py_get tech_stack (py "libraries") (JArr []) in
  let! libraries8 := py_slice_to 8 libraries in
  let! runtime := py_get tech_stack (py "runtime") (JStr (py "Unknown")) in
  let! code_analysis := py_get repository_report (py "code_analysis") (JObj []) in
  let! architecture := py_get code_analysis (py "architecture") (JObj []) in
  let! pattern := py_get architecture (py "pattern") (JStr (py "Unknown")) in
  let! complexity := py_get architecture (py "complexity") (JStr (py "unknown")) in
  let! code_quality := py_get code_analysis (py "code_quality") (JObj []) in
  let! quality_score := py_get code_quality (py "score") (JInt 0) in
  let! weaknesses := py_get code_quality (py "weaknesses") (JArr []) in
  let! weaknesses3 := py_slice_to 3 weaknesses in
  let! opportunities := py_get repository_report (py "opportunities") (JObj []) in
  let! features := py_get opportunities (py "features") (JArr []) in
  let! features3 := py_slice_to 3 features in
  let! libraries5 := py_slice_to 5 libraries in
  let! stack_list := py_join_sum (py ", ") frameworks libraries5 in
  Ok (Template CreationTemplate
        [ str difficulty; str problem_type;
          str name; str description; str language;
          str readme_summary;
          dumps None frameworks; dumps None libraries8; str runtime;
          str pattern; str complexity;
          str quality_score; dumps None weaknesses3;
          dumps (Some 2%nat) features3;
          stack_list;
          if py_truthy focus_area then str focus_area else py "240 minutes";
          str name;
          str difficulty; str problem_type ]).

Definition creation_default (error_msg : json) (response : pystr) : json :=
  JObj
    [ (py "title", JStr (py "Error Creating Problem"));
      (py "description", JStr (py "Failed to generate valid problem"));
      (py "error", error_msg);
      (py "raw_response", JStr (take 1000 response)) ].

(** The mode switch of [create_problem]: refinement when the report
    carries a (truthy) improvement context, creation otherwise. *)
Definition creator_prompt (repository_report difficulty problem_type focus_area : json)
  : result prompt :=
  let! improvement_context :=
    py_get repository_report (py "improvement_context") JNull in
  if py_truthy improvement_context
  then refinement_prompt improvement_context
  else creation_prompt repository_report difficulty problem_type focus_area.

(** [ProblemCreatorAgent.create_problem] *)
Definition create_problem
    (repository_report difficulty problem_type focus_area : json)
    (conversation_id : option pystr) : M json :=
  do! request :=
    lift (creator_prompt repository_report difficulty problem_type focus_area) in
  do! response := run (py "problem_creator") request in
  do! problem := lift (extract_json_from_response response) in
  do! ok := lift (decoded_ok problem) in
  if ok then sret problem
  else
    do! error_msg := lift (error_message problem) in
    sret (creation_default error_msg response).

(** *** QA validator ([qa_validator_agent.py]) *)

Definition validation_prompt (problem repository_report : json) : result prompt :=
  let! _ := py_get problem (py "title") (JStr (py "Unknown")) in
  let! repository_profile :=
    py_get repository_report (py "repository_profile") (JObj []) in
  let! problem_stack := py_get problem (py "tech_stack") (JArr []) in
  let! _ := py_get repository_profile (py "tech_stack") problem_stack in
  let! title := py_get problem (py "title") (JStr (py "N/A")) in
  let! description := py_get problem (py "description") (JStr (py "N/A")) in
  let! description := py_slice_to 300 description in
  let! tech_stack := py_get problem (py "tech_stack") (JArr []) in
  let! difficulty := py_get problem (py "difficulty") (JStr (py "N/A")) in
  let! requirements := py_get problem (py "requirements") (JArr []) in
  let! n_requirements := py_len requirements in
  let! criteria := py_get problem (py "acceptance_criteria") (JArr []) in
  let! n_criteria := py_len criteria in
  let! starter_code := py_get problem (py "starter_code") (JArr []) in
  let! n_starter := py_len starter_code in
  Ok (Template ValidationTemplate
        [ str title; str description; str tech_stack; str difficulty;
          py_int (Z.of_nat n_requirements); py_int (Z.of_nat n_criteria);
          py_int (Z.of_nat n_starter) ]).

Definition validation_default (error_msg : json) : json :=
  JObj
    [ (py "is_approved", JBool false);
      (py "overall_score", JInt 0);
      (py "scores",
       JObj [ (py "feasibility", JInt 0); (py "quality", JInt 0);
              (py "technical", JInt 0); (py "educational", JInt 0) ]);
      (py "issues", JArr [JStr (py "Failed to parse validation response")]);
      (py "suggestions", JArr []);
      (py "feedback",
       JObj [ (py "strengths", JArr []);
              (py "weaknesses", JArr [JStr (py "Validation error")]);
              (py "improvements", JArr []) ]);
      (py "error", error_msg) ].

(** [QAValidatorAgent.validate_problem]; the result is the tuple
    [(is_approved, validation_result)]. *)
Definition validate_problem (quality_threshold : Z)
    (problem repository_report : json) (conversation_id : option pystr)
  : M (bool * json) :=
  do! request := lift (validation_prompt problem repository_report) in
  do! response := run (py "qa_validator") request in
  do! validation_result := lift (extract_json_from_response response) in
  do! ok := lift (decoded_ok validation_result) in
  if ok then
    do! overall_score :=
      lift (py_get validation_result (py "overall_score") (JInt 0)) in
    do! is_approved := lift (py_ge_int overall_score quality_threshold) in
    do! validation_result :=
      lift (py_dict_with validation_result (py "is_approved") (JBool is_approved)) in
    sret (is_approved, validation_result)
  else
    do! error_msg := lift (error_message validation_result) in
    sret (false, validation_default error_msg).

(** *** Orchestrator ([orchestrator.py]) *)

(** [title.lower()]: only strings have the method. *)
Definition py_lower (v : json) : result pystr :=
  match v with
  | JStr s => Ok (str_lower s)
  | _ => Raise AttributeError
  end.

(** The loop of [_rank_suggestions], with its two accumulators. *)
Fixpoint rank_loop (suggestions : list json) (seen_titles : gset (list N))
    (unique_suggestions : list json) : result (list json) :=
  match suggestions with
  | [] => Ok unique_suggestions
  | suggestion :: rest =>
      let! title := py_get suggestion (py "title") (JStr []) in
      let! title := py_lower title in
      if py_truthy (JStr title) && negb (bool_decide (title ∈ seen_titles))
      then rank_loop rest ({[title]} ∪ seen_titles) (unique_suggestions ++ [suggestion])
      else rank_loop rest seen_titles unique_suggestions
  end.

Definition _rank_suggestions (suggestions : list json) : result (list json) :=
  rank_loop suggestions ∅ [].

Definition _synthesize_single_report (analysis_data repo_data : json) : result json :=
  let! pr_analysis := py_index analysis_data (py "pr_analysis") in
  let! pr_suggested := py_get pr_analysis (py "suggested_problems") (JArr []) in
  let! pr_items := py_iter pr_suggested in
  let! issue_analysis := py_index analysis_data (py "issue_analysis") in
  let! issue_suggested := py_get issue_analysis (py "suggested_problems") (JArr []) in
  let! issue_items := py_iter issue_suggested in
  let all_suggestions := pr_items ++ issue_items in
  let! ranked_suggestions := _rank_suggestions all_suggestions in
  let! repository := py_get repo_data (py "repository") (JObj []) in
  let! name := py_get repository (py "name") (JStr (py "Unknown")) in
  let! description := py_get repository (py "description") (JStr []) in
  let! language := py_get repository (py "language") (JStr (py "Unknown")) in
  let! code_analysis := py_index analysis_data (py "code_analysis") in
  let! architecture := py_get code_analysis (py "architecture") (JObj []) in
  let! quality := py_get code_analysis (py "code_quality") (JObj []) in
  let! dependency_analysis := py_index analysis_data (py "dependency_analysis") in
  let! tech_stack := py_get dependency_analysis (py "tech_stack") (JObj []) in
  let! patterns := py_get pr_analysis (py "patterns") (JObj []) in
  let! categories := py_get issue_analysis (py "categories") (JObj []) in
  let! opportunities := py_get code_analysis (py "opportunities") (JObj []) in
  let! readme := py_get repo_data (py "readme") (JStr []) in
  let! readme_summary := py_slice_to 500 readme in
  Ok (JObj
        [ (py "repository_profile",
           JObj [ (py "name", name); (py "description", description);
                  (py "language", language); (py "architecture", architecture);
                  (py "quality", quality); (py "tech_stack", tech_stack);
                  (py "development_patterns", patterns);
                  (py "issue_patterns", categories) ]);
          (py "code_analysis", code_analysis);
          (py "pr_analysis", pr_analysis);
          (py "issue_analysis", issue_analysis);
          (py "dependency_analysis", dependency_analysis);
          (py "opportunities", opportunities);
          (py "ranked_suggestions", JArr (take 10 ranked_suggestions));
          (py "readme_summary", readme_summary) ]).

(** The lines [f"{i}. {item}\n"] of an enumerated list, numbered from 1. *)
Definition numbered (items : list json) : pystr :=
  concat (imap (fun i item =>
                  py_int (Z.of_nat (S i)) ++ py ". " ++ str item ++ [10]) items).

Definition _create_improvement_instructions (validation : json) : result pystr :=
  let! issues := py_get validation (py "issues") (JArr []) in
  let! suggestions := py_get validation (py "suggestions") (JArr []) in
  let! feedback := py_get validation (py "feedback") (JObj []) in
  let instructions := py "REFINEMENT INSTRUCTIONS:" ++ [10; 10] in
  let instructions :=
    instructions ++ py "Based on QA validation, refine the problem by addressing:"
    ++ [10; 10] in
  let! instructions :=
    if py_truthy issues then
      let! items := py_iter issues in
      Ok (instructions ++ py "CRITICAL ISSUES TO FIX:" ++ [10] ++ numbered items ++ [10])
    else Ok instructions in
  let! instructions :=
    if py_truthy suggestions then
      let! items := py_iter suggestions in
      Ok (instructions ++ py "IMPROVEMENTS TO IMPLEMENT:" ++ [10] ++ numbered items
          ++ [10])
    else Ok instructions in
  let! weaknesses := py_get feedback (py "weaknesses") JNull in
  let! instructions :=
    if py_truthy weaknesses then
      let! weaknesses := py_index feedback (py "weaknesses") in
      let! items := py_iter weaknesses in
      Ok (instructions ++ py "WEAKNESSES TO ADDRESS:" ++ [10] ++ numbered items ++ [10])
    else Ok instructions in
  let instructions := instructions ++ py "MAINTAIN STRENGTHS:" ++ [10] in
  let! strengths := py_get feedback (py "strengths") (JArr []) in
  let! strengths := py_slice_to 3 strengths in
  let! items := py_iter strengths in
  let instructions := instructions ++ numbered items in
  Ok (instructions
      ++ [10]
      ++ py "IMPORTANT: Keep the same difficulty level and problem type, but refine all aspects based on the feedback above.").

(** The module-level instance [QAValidatorAgent(quality_threshold=85)]. *)
Definition qa_validator := validate_problem 85.

(** The loops that print the first entries of a feedback list:
    [for i, x in enumerate(v[:3], 1): print(f"... {x[:100]}...")]. *)
Definition print_first (v : json) : result unit :=
  let! head := py_slice_to 3 v in
  let! items := py_iter head in
  let! _ := rmap (py_slice_to 100) items in
  Ok tt.

Section Orchestrator.

(** [self.conversation_id] is [f"orchestrator_{now:%Y%m%d_%H%M%S}"]. *)
Variable started_at : pystr.
Definition self_conversation_id : pystr := py "orchestrator_" ++ started_at.

(** [_validate_and_improve], first half: the single validation pass, the
    report printed from it, and the improvement context built from the
    feedback. *)
Definition validate_and_collect_feedback (problem analysis_report : json)
  : M (json * json) :=
  do! _ := lift (let! title := py_get problem (py "title") (JStr (py "N/A")) in
                 py_slice_to 60 title) in
  do! (is_approved, validation_result) :=
    qa_validator problem analysis_report (Some self_conversation_id) in
  do! score := lift (py_get validation_result (py "overall_score") (JInt 0)) in
  do! issues := lift (let! l := py_get validation_result (py "issues") (JArr []) in
                      py_len l) in
  do! suggestions :=
    lift (let! l := py_get validation_result (py "suggestions") (JArr []) in
          py_len l) in
  do! scores := lift (py_get validation_result (py "scores") (JObj [])) in
  do! _ := lift (let! _ := py_get scores (py "feasibility") (JInt 0) in
                 let! _ := py_get scores (py "quality") (JInt 0) in
                 let! _ := py_get scores (py "technical") (JInt 0) in
                 py_get scores (py "educational") (JInt 0)) in
  do! _ := lift (if bool_decide (0 < issues)%nat then
                   let! l := py_get validation_result (py "issues") (JArr []) in
                   print_first l
                 else Ok tt) in
  do! _ := lift (if bool_decide (0 < suggestions)%nat then
                   let! l := py_get validation_result (py "suggestions") (JArr []) in
                   print_first l
                 else Ok tt) in
  do! instructions := lift (_create_improvement_instructions validation_result) in
  sret (validation_result,
        JObj [ (py "original_problem", problem);
               (py "validation_feedback", validation_result);
               (py "improvement_instructions", JStr instructions);
               (py "target_score", JInt 100);
               (py "current_score", score) ]).

(** [_validate_and_improve], second half: the refinement call, made
    whatever the validation decided, and the returned pair. *)
Definition refine (problem analysis_report validation_result improvement_context : json)
  : M (json * json) :=
  do! repository_report :=
    lift (py_dict_with analysis_report (py "improvement_context") improvement_context) in
  do! difficulty := lift (py_get problem (py "difficulty") (JStr (py "medium"))) in
  do! estimated_time := lift (py_get problem (py "estimated_time") (JInt 240)) in
  let focus_area :=
    py "Refined version incorporating QA feedback - " ++ str estimated_time
    ++ py " minutes" in
  do! improved_problem :=
    create_problem repository_report difficulty (JStr (py "improvement"))
      (JStr focus_area) (Some self_conversation_id) in
  do! _ := lift (py_get problem (py "title") (JStr (py "N/A"))) in
  do! _ := lift (py_get improved_problem (py "title") (JStr (py "N/A"))) in
  sret (improved_problem, validation_result).

Definition _validate_and_improve (problem analysis_report : json) : M (json * json) :=
  do! (validation_result, improvement_context) :=
    validate_and_collect_feedback problem analysis_report in
  refine problem analysis_report validation_result improvement_context.

(** [_compile_final_result]; [performance] is
    [self.performance.get_all_metrics()] and [generated_at] the current
    time in ISO format. *)
Definition _compile_final_result
    (repo_data analysis_report problem validation performance : json)
    (generated_at : pystr) : result json :=
  let! repository := py_get repo_data (py "repository") (JObj []) in
  let! ranked := py_get analysis_report (py "ranked_suggestions") (JArr []) in
  let! suggestions_evaluated := py_len ranked in
  Ok (JObj
        [ (py "success", JBool true);
          (py "assessment",
           JObj [ (py "problem", problem);
                  (py "validation", validation);
                  (py "metadata",
                   JObj [ (py "repository", repository);
                          (py "analysis_summary",
                           JObj [ (py "suggestions_evaluated",
                                   JInt (Z.of_nat suggestions_evaluated)) ]);
                          (py "performance", performance);
                          (py "conversation_id", JStr self_conversation_id);
                          (py "generated_at", JStr generated_at) ]) ]);
          (py "debug",
           JObj [ (py "repo_data", repo_data);
                  (py "analysis_report", analysis_report) ]) ]).

End Orchestrator.

End Pipeline.

(** ** The notification channel ([a2a_protocol.py]) *)

Record A2AMessage := {
  protocol_version : pystr;
  message_id : pystr;
  sender_id : pystr;
  sender_type : pystr;
  recipient_id : pystr;
  message_type : pystr;
  timestamp : pyfloat;
  payload : pydict;
  conversation_id : pystr
}.

Record A2AProtocol := {
  message_history : list A2AMessage;
  conversation_index : gmap (list N) (list A2AMessage)
}.

(** [A2AProtocol()] *)
Definition a2a_init : A2AProtocol :=
  {| message_history := []; conversation_index := ∅ |}.

(** What the environment supplies to a new message: the [uuid4]-derived
    identifier and the clock reading [time.time()]. *)
Record stamp := { fresh_id : pystr; now : pyfloat }.

Definition _log_message (message : A2AMessage) (self : A2AProtocol) : A2AProtocol :=
  let cid := conversation_id message in
  let index :=
    match conversation_index self !! cid with
    | None => <[cid := []]> (conversation_index self)
    | Some _ => conversation_index self
    end in
  {| message_history := message_history self ++ [message];
     conversation_index := alter (fun l => l ++ [message]) cid index |}.

Definition send_message (env : stamp)
    (sender_id sender_type recipient_id : pystr) (data : pydict)
    (conversation_id message_type : pystr) (self : A2AProtocol)
  : A2AMessage * A2AProtocol :=
  let message :=
    {| protocol_version := py "1.0";
       message_id := fresh_id env;
       sender_id := sender_id;
       sender_type := sender_type;
       recipient_id := recipient_id;
       message_type := message_type;
       timestamp := now env;
       payload := [(py "data", JObj data)];
       conversation_id := conversation_id |} in
  (message, _log_message message self).

Definition broadcast_message (env : stamp)
    (sender_id sender_type : pystr) (data : pydict) (conversation_id : pystr)
    (self : A2AProtocol) : A2AMessage * A2AProtocol :=
  send_message env sender_id sender_type (py "all_agents") data conversation_id
    (py "broadcast") self.

Definition send_response (env : stamp)
    (sender_id sender_type recipient_id : pystr) (data : pydict)
    (conversation_id original_message_id : pystr) (self : A2AProtocol)
  : A2AMessage * A2AProtocol :=
  let response_data := dict_set data (py "in_response_to") (JStr original_message_id) in
  send_message env sender_id sender_type recipient_id response_data conversation_id
    (py "response") self.

(** [if x:] for an optional string argument. *)
Definition given (x : option pystr) : bool := has_conversation x.

Definition get_message_history
    (conversation_id' sender_id' recipient_id' : option pystr) (self : A2AProtocol)
  : list A2AMessage :=
  let messages :=
    if given conversation_id'
    then default [] (conversation_index self !! default [] conversation_id')
    else message_history self in
  let messages :=
    if given sender_id'
    then filter (fun msg => sender_id msg = default [] sender_id') messages
    else messages in
  if given recipient_id'
  then filter (fun msg => recipient_id msg = default [] recipient_id') messages
  else messages.

Definition clear_history (conversation_id' : option pystr) (self : A2AProtocol)
  : A2AProtocol :=
  if given conversation_id' then
    let cid := default [] conversation_id' in
    match conversation_index self !! cid with
    | Some _ =>
        {| message_history :=
             filter (fun msg => conversation_id msg ≠ cid) (message_history self);
           conversation_index := delete cid (conversation_index self) |}
    | None => self
    end
  else a2a_init.

(** One call on the channel, with the environment's stamp where a message is
    created. *)
Inductive a2a_call :=
| SendMessage (env : stamp) (sender_id sender_type recipient_id : pystr)
    (data : pydict) (conversation_id message_type : pystr)
| BroadcastMessage (env : stamp) (sender_id sender_type : pystr)
    (data : pydict) (conversation_id : pystr)
| SendResponse (env : stamp) (sender_id sender_type recipient_id : pystr)
    (data : pydict) (conversation_id original_message_id : pystr)
| ClearHistory (conversation_id : option pystr).

Definition a2a_step (self : A2AProtocol) (c : a2a_call) : A2AProtocol :=
  match c with
  | SendMessage env s t r d cid mt => (send_message env s t r d cid mt self).2
  | BroadcastMessage env s t d cid => (broadcast_message env s t d cid self).2
  | SendResponse env s t r d cid orig => (send_response env s t r d cid orig self).2
  | ClearHistory cid => clear_history cid self
  end.

(** The channel after a sequence of calls on a fresh instance. *)
Definition a2a_run (calls : list a2a_call) : A2AProtocol :=
  fold_left a2a_step calls a2a_init.

(** [self.conversation_index.get(cid, [])] *)
Definition indexed (self : A2AProtocol) (cid : pystr) : list A2AMessage :=
  default [] (conversation_index self !! cid).

(** ** Definitions that follow the specification's wording *)

(** Brace-nesting depth after reading [s]. *)
Definition depth_step (d : Z) (c : N) : Z :=
  if c =? 123 then (d + 1)%Z else if c =? 125 then (d - 1)%Z else d.

Definition depth (s : pystr) : Z := fold_left depth_step s 0%Z.

(** A closing brace at index [i] brings the depth of [s] back to zero. *)
Definition closes_at (s : pystr) (i : nat) : Prop :=
  s !! i = Some 125 /\ depth (take (S i) s) = 0%Z.

(** The specification's step 4: "truncate at the index where depth returns
    to zero for the first time". *)
Fixpoint first_balanced (s : pystr) (i : nat) (brace_count : Z) : option nat :=
  match s with
  | [] => None
  | c :: r =>
      if c =? 123 then first_balanced r (S i) (brace_count + 1)%Z
      else if c =? 125 then
        if (brace_count - 1 =? 0)%Z then Some (S i)
        else first_balanced r (S i) (brace_count - 1)%Z
      else first_balanced r (S i) brace_count
  end.

Definition first_balanced_pos (s : pystr) : option nat := first_balanced s 0 0.

(** The specification's synthesis rule: "union dedup of suggested problems by
    lower-cased title, first-seen-wins", for entries paired with their key. *)
Fixpoint dedup_first_seen {K A} `{EqDecision K} (l : list (K * A)) : list (K * A) :=
  match l with
  | [] => []
  | x :: r => x :: filter (fun y => y.1 ≠ x.1) (dedup_first_seen r)
  end.

(** The dedup key of a suggestion: [suggestion.get('title', '').lower()]. *)
Definition title_key (unicode_lower : pystr -> pystr) (suggestion : json) : result pystr :=
  let! title := py_get suggestion (py "title") (JStr []) in
  py_lower unicode_lower title.

(** A stand-in for [repr] and for the non-ASCII case mapping in the sample
    runs below, whose outcome does not depend on either. *)
Definition sample_repr (v : json) : pystr := py "<repr>".
Definition sample_lower (s : pystr) : pystr := s.

(** A stamp for the sample runs: identifier [msg_n], clock reading [n]. *)
Definition sample_stamp (n : N) : stamp :=
  {| fresh_id := py "msg_" ++ [48 + n]; now := PyFinite false n 0 |}.

(** History and index agree: the entry of every conversation id (empty when
    absent) is the history restricted to that id, in history order. *)
Definition index_consistent (self : A2AProtocol) : Prop :=
  forall cid,
    indexed self cid = filter (fun m => conversation_id m = cid) (message_history self).

(** The suggestion list one analyzer contributes to synthesis:
    [analysis_data[analyzer].get('suggested_problems', [])], as [extend]
    iterates it. *)
Definition suggested_problems (analysis_data : json) (analyzer : pystr)
  : result (list json) :=
  let! analysis := py_index analysis_data analyzer in
  let! suggested := py_get analysis (py "suggested_problems") (JArr []) in
  py_iter suggested.

(** Sample data: a suggestion that has only a title, and the four analysis
    records with the given PR and issue suggestions. *)
Definition titled (title : string) : json := JObj [(py "title", JStr (py title))].

Definition sample_analysis (pr_suggestions issue_suggestions : list json) : json :=
  JObj
    [ (py "code_analysis", JObj []);
      (py "pr_analysis", JObj [(py "suggested_problems", JArr pr_suggestions)]);
      (py "issue_analysis", JObj [(py "suggested_problems", JArr issue_suggestions)]);
      (py "dependency_analysis", JObj []) ].

(** A computation that makes no text-completion call. *)
Definition quiet {A} (m : M A) : Prop := forall w, world_of (m w) = w.

(** Sample data: a repository whose only dependency file has 2100
    characters of content. *)
Definition sample_repo_data : pydict :=
  [ (py "repository",
     JObj [(py "name", JStr (py "demo")); (py "language", JStr (py "Python"))]);
    (py "readme", JStr (py "# Demo"));
    (py "dependencies",
     JArr [JObj [ (py "file", JStr (py "requirements.txt"));
                  (py "content", JStr (repeat 97 2100)) ]]) ].

(** Sample model outputs: a problem with every field of the creator's
    output format, and a validation that asserts its own approval with a
    score of 84. *)
Definition sample_problem_text : pystr :=
  js "{'title': 'T', 'description': 'D', 'business_context': 'B', 'requirements': ['r'], 'acceptance_criteria': ['c'], 'starter_code': [], 'hints': [], 'estimated_time': 180, 'difficulty': 'medium', 'tech_stack': ['python'], 'evaluation_rubric': []}".

Definition sample_validation_text : pystr :=
  js "{'is_approved': true, 'overall_score': 84, 'scores': {'feasibility': 80, 'quality': 90, 'technical': 85, 'educational': 81}, 'issues': ['Too vague'], 'suggestions': [], 'feedback': {'strengths': ['Realistic'], 'weaknesses': [], 'improvements': []}}".

(** A text-completion client for the sample runs: the validator gets
    [sample_validation_text], every other agent [sample_problem_text]. *)
Definition sample_generate (name : pystr) (p : prompt) (calls : nat) : result pystr :=
  if bool_decide (name = py "qa_validator")
  then Ok sample_validation_text
  else Ok sample_problem_text.

(** ** Further parts of the pipeline *)

(** *** Code analyzer and PR analyzer ([code_analyzer_agent.py],
    [pr_analyzer_agent.py]); the methods are both called [analyze]. *)

Section Analyzers.

Variable py_repr : json -> pystr.
Variable generate : pystr -> prompt -> nat -> result pystr.

(** The prompt wording of [CodeAnalyzerAgent.analyze], around its six
    substitutions. *)
Definition code_prompt_text (name language description file_tree readme deps : pystr)
  : pystr :=
  join_lines
    [ py "Analyze this codebase:";
      [];
      py "Repository: " ++ name;
      py "Language: " ++ language;
      py "Description: " ++ description;
      [];
      py "File Structure:";
      file_tree;
      [];
      py "README:";
      readme;
      [];
      py "Dependencies:";
      deps;
      [];
      py "Analyze the architecture, code quality, and identify opportunities for coding challenges.";
      py "Return ONLY valid JSON matching the specified format." ].

Definition code_prompt (repo_data : json) : result pystr :=
  let! repository := py_get repo_data (py "repository") (JObj []) in
  let! name := py_get repository (py "name") (JStr (py "Unknown")) in
  let! repository := py_get repo_data (py "repository") (JObj []) in
  let! language := py_get repository (py "language") (JStr (py "Unknown")) in
  let! repository := py_get repo_data (py "repository") (JObj []) in
  let! description :=
    py_get repository (py "description") (JStr (py "No description")) in
  let! codebase := py_get repo_data (py "codebase") (JObj []) in
  let! file_tree := py_get codebase (py "file_tree") (JArr []) in
  let! readme := py_get repo_data (py "readme") (JStr (py "No README")) in
  let! readme_excerpt := py_slice_to 1000 readme in
  let! dependencies := py_get repo_data (py "dependencies") (JArr []) in
  Ok (code_prompt_text (py_str py_repr name) (py_str py_repr language)
        (py_str py_repr description)
        (take 500 (json_dumps py_repr (Some 2%nat) file_tree))
        (py_str py_repr readme_excerpt)
        (take 500 (json_dumps py_repr (Some 2%nat) dependencies))).

Definition code_default (error_msg : json) (response : pystr) : json :=
  JObj
    [ (py "architecture",
       JObj [ (py "pattern", JStr (py "Unknown")); (py "layers", JArr []);
              (py "complexity", JStr (py "medium")) ]);
      (py "code_quality",
       JObj [ (py "score", JInt 50); (py "strengths", JArr []);
              (py "weaknesses", JArr [JStr (py "Unable to analyze")]) ]);
      (py "opportunities",
       JObj [ (py "features", JArr []); (py "improvements", JArr []);
              (py "extensions", JArr []) ]);
      (py "error", error_msg);
      (py "raw_response", JStr (take 500 response)) ].

(** [CodeAnalyzerAgent.analyze] *)
Definition code_analyze (repo_data : json) (conversation_id : option pystr) : M json :=
  do! prompt_text := lift (code_prompt repo_data) in
  do! response := run generate (py "code_analyzer") (Text prompt_text) in
  do! analysis := lift (extract_json_from_response response) in
  do! ok := lift (decoded_ok analysis) in
  if ok then
    let complexity :=
      let! architecture := py_get analysis (py "architecture") (JObj []) in
      py_get architecture (py "complexity") JNull in
    let quality_score :=
      let! code_quality := py_get analysis (py "code_quality") (JObj []) in
      py_get code_quality (py "score") JNull in
    do! _ := lift (let! _ := complexity in quality_score) in
    do! _ := lift (if has_conversation conversation_id then
                     let! architecture := py_get analysis (py "architecture") (JObj []) in
                     let! _ := py_get architecture (py "pattern") JNull in
                     let! _ := complexity in
                     quality_score
                   else Ok JNull) in
    sret analysis
  else
    do! error_msg := lift (error_message analysis) in
    sret (code_default error_msg response).

(** The prompt wording of [PRAnalyzerAgent.analyze], around its two
    substitutions. *)
Definition pr_prompt_text (name prs_summary : pystr) : pystr :=
  join_lines
    [ py "Analyze these pull requests:";
      [];
      py "Repository: " ++ name;
      [];
      py "Recent Pull Requests:";
      prs_summary;
      [];
      py "Analyze the PR patterns, development workflows, and identify opportunities for coding challenges.";
      py "Return ONLY valid JSON matching the specified format." ].

Definition pr_prompt (repo_data : json) : result pystr :=
  let! prs := py_get repo_data (py "pullRequests") (JArr []) in
  let! prs := py_slice_to 10 prs in
  let prs_summary := take 2000 (json_dumps py_repr (Some 2%nat) prs) in
  let! repository := py_get repo_data (py "repository") (JObj []) in
  let! name := py_get repository (py "name") (JStr (py "Unknown")) in
  Ok (pr_prompt_text (py_str py_repr name) prs_summary).

Definition pr_default (error_msg : json) : json :=
  JObj
    [ (py "patterns",
       JObj [ (py "common_change_types", JArr []); (py "frequent_files", JArr []);
              (py "workflow_patterns", JArr []) ]);
      (py "insights",
       JObj [ (py "recent_features", JArr []); (py "common_bugs", JArr []);
              (py "performance_improvements", JArr []) ]);
      (py "suggested_problems", JArr []);
      (py "error", error_msg) ].

(** [PRAnalyzerAgent.analyze] *)
Definition pr_analyze (repo_data : json) (conversation_id : option pystr) : M json :=
  do! prompt_text := lift (pr_prompt repo_data) in
  do! response := run generate (py "pr_analyzer") (Text prompt_text) in
  do! analysis := lift (extract_json_from_response response) in
  do! ok := lift (decoded_ok analysis) in
  if ok then
    let patterns_found :=
      let! patterns := py_get analysis (py "patterns") (JObj []) in
      let! change_types := py_get patterns (py "common_change_types") (JArr []) in
      py_len change_types in
    do! _ := lift patterns_found in
    do! _ := lift (if has_conversation conversation_id then
                     let! _ := patterns_found in
                     let! suggested :=
                       py_get analysis (py "suggested_problems") (JArr []) in
                     py_len suggested
                   else Ok 0%nat) in
    sret analysis
  else
    do! error_msg := lift (error_message analysis) in
    sret (pr_default error_msg).

End Analyzers.

(** The record [IssueAnalyzerAgent.analyze] returns when the model's output
    cannot be used ([issue_analyzer_agent.py]). *)
Definition issue_default (error_msg : json) : json :=
  JObj
    [ (py "categories",
       JObj [ (py "bugs", JObj [(py "count", JInt 0); (py "examples", JArr [])]);
              (py "features", JObj [(py "count", JInt 0); (py "examples", JArr [])]);
              (py "enhancements",
               JObj [(py "count", JInt 0); (py "examples", JArr [])]) ]);
      (py "priority_issues", JArr []);
      (py "problem_patterns", JArr []);
      (py "suggested_problems", JArr []);
      (py "error", error_msg) ].

(** *** Orchestrator, step 6 ([orchestrator.py]) *)

Section ProblemCreation.

Variable py_repr : json -> pystr.
Variable generate : pystr -> prompt -> nat -> result pystr.
Variable started_at : pystr.

(** [_create_problem]: the report of its input, the creator call with the
    time limit as focus area, and the report of the created problem. *)
Definition _create_problem (analysis_report difficulty time_limit problem_type : json)
  : M json :=
  do! _ := lift (let! l := py_get analysis_report (py "ranked_suggestions") (JArr []) in
                 py_len l) in
  do! suggestions :=
    lift (py_get analysis_report (py "ranked_suggestions") (JArr [])) in
  do! _ := lift (if py_truthy suggestions then
                   let! head := py_slice_to 3 suggestions in
                   let! items := py_iter head in
                   let! _ :=
                     rmap (fun sugg =>
                             let! title := py_get sugg (py "title") (JStr (py "N/A")) in
                             py_slice_to 70 title) items in
                   Ok tt
                 else Ok tt) in
  do! problem :=
    create_problem py_repr generate analysis_report difficulty problem_type
      (JStr (py_str py_repr time_limit ++ py " minutes"))
      (Some (self_conversation_id started_at)) in
  do! _ := lift (py_get problem (py "title") (JStr (py "N/A"))) in
  do! description := lift (py_get problem (py "description") (JStr (py "N/A"))) in
  do! _ := lift (let! n := py_len description in
                 if bool_decide (100 < n)%nat then py_slice_to 100 description
                 else Ok description) in
  do! _ := lift (let! l := py_get problem (py "requirements") (JArr []) in py_len l) in
  do! _ := lift (let! l := py_get problem (py "requirements") (JArr []) in
                 let! head := py_slice_to 3 l in
                 let! items := py_iter head in
                 let! _ := rmap (py_slice_to 70) items in
                 Ok tt) in
  do! _ := lift (let! l := py_get problem (py "acceptance_criteria") (JArr []) in
                 py_len l) in
  do! _ := lift (let! l := py_get problem (py "starter_code") (JArr []) in py_len l) in
  do! starter_code := lift (py_get problem (py "starter_code") JNull) in
  do! _ := lift (if py_truthy starter_code then
                   let! files := py_index problem (py "starter_code") in
                   let! items := py_iter files in
                   let! _ :=
                     rmap (fun sf => py_get sf (py "filename") (JStr (py "N/A"))) items in
                   Ok tt
                 else Ok tt) in
  sret problem.

End ProblemCreation.

(** *** Messages as dicts ([a2a_protocol.py]) *)

(** [A2AMessage.to_dict]; [utcnow] is [datetime.utcnow().isoformat()]. *)
Definition to_dict (utcnow : pystr) (self : A2AMessage) : pydict :=
  [ (py "protocol_version", JStr (protocol_version self));
    (py "message_id", JStr (message_id self));
    (py "sender",
     JObj [ (py "agent_id", JStr (sender_id self));
            (py "agent_type", JStr (sender_type self)) ]);
    (py "recipient", JObj [(py "agent_id", JStr (recipient_id self))]);
    (py "message_type", JStr (message_type self));
    (py "timestamp", JFloat (timestamp self));
    (py "payload",
     JObj [ (py "data", default (JObj []) (dict_get (payload self) (py "data")));
            (py "metadata",
             JObj [ (py "conversation_id", JStr (conversation_id self));
                    (py "timestamp", JStr utcnow) ]) ]) ].

(** The arguments [from_dict] hands to the constructor: a dataclass stores
    them as they are, whatever their type. *)
Record A2AMessageArgs := {
  arg_protocol_version : json;
  arg_message_id : json;
  arg_sender_id : json;
  arg_sender_type : json;
  arg_recipient_id : json;
  arg_message_type : json;
  arg_timestamp : json;
  arg_payload : json;
  arg_conversation_id : json
}.

(** The arguments that rebuild a message of the channel. *)
Definition message_args (m : A2AMessage) : A2AMessageArgs :=
  {| arg_protocol_version := JStr (protocol_version m);
     arg_message_id := JStr (message_id m);
     arg_sender_id := JStr (sender_id m);
     arg_sender_type := JStr (sender_type m);
     arg_recipient_id := JStr (recipient_id m);
     arg_message_type := JStr (message_type m);
     arg_timestamp := JFloat (timestamp m);
     arg_payload := JObj (payload m);
     arg_conversation_id := JStr (conversation_id m) |}.

(** [A2AMessage.from_dict]; the defaults for the identifier and the
    timestamp are computed from the environment's stamp before the lookup. *)
Definition from_dict (env : stamp) (data : json) : result A2AMessageArgs :=
  let! protocol_version := py_get data (py "protocol_version") (JStr (py "1.0")) in
  let! message_id := py_get data (py "message_id") (JStr (fresh_id env)) in
  let! sender := py_get data (py "sender") (JObj []) in
  let! sender_id := py_get sender (py "agent_id") (JStr []) in
  let! sender := py_get data (py "sender") (JObj []) in
  let! sender_type := py_get sender (py "agent_type") (JStr []) in
  let! recipient := py_get data (py "recipient") (JObj []) in
  let! recipient_id := py_get recipient (py "agent_id") (JStr []) in
  let! message_type := py_get data (py "message_type") (JStr (py "request")) in
  let! timestamp := py_get data (py "timestamp") (JFloat (now env)) in
  let! payload := py_get data (py "payload") (JObj []) in
  let! payload' := py_get data (py "payload") (JObj []) in
  let! metadata := py_get payload' (py "metadata") (JObj []) in
  let! conversation_id := py_get metadata (py "conversation_id") (JStr []) in
  Ok {| arg_protocol_version := protocol_version;
        arg_message_id := message_id;
        arg_sender_id := sender_id;
        arg_sender_type := sender_type;
        arg_recipient_id := recipient_id;
        arg_message_type := message_type;
        arg_timestamp := timestamp;
        arg_payload := payload;
        arg_conversation_id := conversation_id |}.

(** What an optional filter argument of [get_message_history] lets through:
    [None] and the empty string let every value through. *)
Definition accepts (x : option pystr) (v : pystr) : bool :=
  if given x then bool_decide (v = default [] x) else true.

(** *** Repository URLs ([github_mcp.py]) *)

(** [s.rstrip('/')] *)
Fixpoint lstrip_slash (s : pystr) : pystr :=
  match s with
  | c :: r => if c =? 47 then lstrip_slash r else s
  | [] => []
  end.

Definition rstrip_slash (s : pystr) : pystr := rev (lstrip_slash (rev s)).

(** [s.split(sep)] for a non-empty separator: [skip] counts the characters
    of a separator still to pass over, [cur] holds the current piece,
    reversed. *)
Fixpoint split_from (sep s : pystr) (skip : nat) (cur : pystr) : list pystr :=
  match s with
  | [] => [rev cur]
  | c :: r =>
      match skip with
      | S k => split_from sep r k cur
      | O =>
          if startswith sep s
          then rev cur :: split_from sep r (length sep - 1) []
          else split_from sep r 0 (c :: cur)
      end
  end.

Definition split (sep s : pystr) : list pystr := split_from sep s 0 [].

(** [GitHubMCP._parse_repo_url]; [None] stands for the ValueError. *)
Definition _parse_repo_url (repo_url : pystr) : option (pystr * pystr) :=
  let url := rstrip_slash (strip repo_url) in
  let parts :=
    if startswith (py "http") url
    then split (py "/") (default [] (last (split (py "github.com/") url)))
    else if contains (py "github.com/") url
    then split (py "/") (default [] (last (split (py "github.com/") url)))
    else split (py "/") url in
  match parts with
  | owner :: repo :: _ => Some (owner, repo)
  | _ => None
  end.

(** A name of an owner or a repository in an address: no slash and no
    whitespace. *)
Definition url_name (s : pystr) : Prop :=
  Forall (fun c => c <> 47 /\ isspace c = false) s.

(** * Properties *)

(** ** Response extractor *)

Lemma try_except_cases {A} (m h : result A) :
  (exists a, m = Ok a /\ try_except_JSONDecodeError m h = Ok a)
  \/ (m = Raise JSONDecodeError /\ try_except_JSONDecodeError m h = h)
  \/ (exists e, e <> JSONDecodeError /\ m = Raise e).
Proof.
  destruct m as [a | []]; simpl; eauto; right; right; eexists; split; eauto; discriminate.
Qed.

Lemma json_loads_cases (s : pystr) :
  (exists v, json_loads s = Ok v) \/ json_loads s = Raise JSONDecodeError.
Proof. unfold json_loads. destruct (json_decode s); eauto. Qed.



Lemma depth_snoc (pre : pystr) (c : N) :
  depth (pre ++ [c]) = depth_step (depth pre) c.
Proof. unfold depth. rewrite fold_left_app. reflexivity. Qed.

Lemma closes_at_here (pre r : pystr) (c : N) :
  closes_at (pre ++ c :: r) (length pre) <-> c = 125 /\ depth (pre ++ [c]) = 0%Z.
Proof.
  unfold closes_at.
  rewrite list_lookup_middle by reflexivity.
  replace (take (S (length pre)) (pre ++ c :: r)) with (pre ++ [c]).
  - split; intros [H1 H2]; split; congruence.
  - rewrite (cons_middle c pre r), app_assoc.
    rewrite take_app_length'; [reflexivity | rewrite length_app; simpl; lia].
Qed.

(** The brace-counting loop, started after the prefix [pre]: no closing brace
    that balances lies at or beyond the result, and the result is either the
    incoming position or one past such a brace. *)
Lemma brace_loop_spec (s : pystr) :
  forall (pre : pystr) (lvp : nat),
    let p := brace_loop s (length pre) (depth pre) lvp in
    (forall j, (length pre <= j)%nat -> closes_at (pre ++ s) j -> (j < p)%nat)
    /\ (p = lvp \/ ((length pre < p)%nat /\ closes_at (pre ++ s) (p - 1))).
Proof.
  induction s as [| c r IH]; intros pre lvp; simpl.
  - split; [| left; reflexivity].
    intros j Hj [Hl _]. rewrite app_nil_r in Hl.
    apply lookup_lt_Some in Hl. lia.
  - assert (Hstep :
      forall lvp',
        (closes_at (pre ++ c :: r) (length pre) -> lvp' = (length pre + 1)%nat) ->
        (lvp' = lvp
         \/ (lvp' = (length pre + 1)%nat /\ closes_at (pre ++ c :: r) (length pre))) ->
        let p := brace_loop r (S (length pre)) (depth_step (depth pre) c) lvp' in
        (forall j, (length pre <= j)%nat -> closes_at (pre ++ c :: r) j -> (j < p)%nat)
        /\ (p = lvp \/ ((length pre < p)%nat /\ closes_at (pre ++ c :: r) (p - 1)))).
    { intros lvp' Hhere Hlvp. specialize (IH (pre ++ [c]) lvp'). simpl in IH.
      rewrite length_app, depth_snoc, <- app_assoc in IH. simpl in IH.
      replace (length pre + 1)%nat with (S (length pre)) in IH by lia.
      destruct IH as [IHa IHb].
      split.
      - intros j Hj Hc.
        destruct (decide (j = length pre)) as [-> | Hne].
        + specialize (Hhere Hc). destruct IHb as [-> | [Hlt _]]; lia.
        + apply IHa; [lia | exact Hc].
      - destruct IHb as [-> | [Hlt Hc]].
        + destruct Hlvp as [-> | [-> Hc]]; [left; reflexivity |].
          right. split; [lia |]. replace (length pre + 1 - 1)%nat with (length pre) by lia.
          exact Hc.
        + right. split; [lia | exact Hc]. }
    unfold depth_step in Hstep.
    destruct (c =? 123) eqn:E1; [| destruct (c =? 125) eqn:E2].
    + apply Hstep; [| left; reflexivity].
      intros Hc. apply closes_at_here in Hc as [-> _]. discriminate.
    + apply N.eqb_eq in E2. subst c.
      destruct ((depth pre - 1 =? 0)%Z) eqn:E3.
      * apply Hstep; [reflexivity |].
        right. split; [reflexivity |]. apply closes_at_here. split; [reflexivity |].
        rewrite depth_snoc. simpl. apply Z.eqb_eq in E3. exact E3.
      * apply Hstep; [| left; reflexivity].
        intros Hc. apply closes_at_here in Hc as [_ Hd].
        rewrite depth_snoc in Hd. simpl in Hd. apply Z.eqb_neq in E3. contradiction.
    + apply Hstep; [| left; reflexivity].
      intros Hc. apply closes_at_here in Hc as [-> _]. discriminate.
Qed.

(** C6 as stated fails: with two top-level objects the first balanced brace
    is at index 7 and the text before it decodes to the first object, yet the
    extractor returns [None]. *)
Lemma second_object_defeats_first_object_recovery :
  first_balanced_pos (from_first_brace (strip_code_block (js "{'a':1} {'b':2}")))
    = Some 7%nat
  /\ json_loads (take 7 (js "{'a':1} {'b':2}")) = Ok (JObj [(py "a", JInt 1)])
  /\ extract_json_from_response (js "{'a':1} {'b':2}") = Ok JNull.
Proof. vm_compute. repeat split; reflexivity. Qed.

(** C6, amended: when the first parse fails, the extractor parses the text
    from the first opening brace up to the LAST index at which the nesting
    depth returns to zero (the whole remainder when there is no such index or
    it is the end of the text), and returns [None] when that fails too. *)
Theorem recovery_truncates_at_last_balanced_brace (response : pystr) :
  json_loads (strip_code_block response) = Raise JSONDecodeError ->
  let t := from_first_brace (strip_code_block response) in
  let p := last_valid_pos t in
  extract_json_from_response response
    = try_except_JSONDecodeError
        (json_loads (if bool_decide (0 < p < length t)%nat then take p t else t))
        (Ok JNull)
  /\ (forall i, closes_at t i -> (i < p)%nat)
  /\ (p = 0%nat \/ closes_at t (p - 1)).
Proof.
  intros Hfail t p. split; [| split].
  - unfold extract_json_from_response. rewrite Hfail. simpl.
    unfold truncate_at_last_valid. fold t. fold p.
    repeat case_bool_decide; simpl; try reflexivity; lia.
  - intros i Hc.
    destruct (brace_loop_spec t [] 0%nat) as [Ha _]. apply Ha; [simpl; lia | exact Hc].
  - destruct (brace_loop_spec t [] 0%nat) as [_ [Hb | [_ Hb]]]; [left | right]; exact Hb.
Qed.

Lemma recovery_truncates_at_last_balanced_brace_witness :
  json_loads (strip_code_block (js "noise {'a':{'b':2}} trailing"))
    = Raise JSONDecodeError
  /\ extract_json_from_response (js "noise {'a':{'b':2}} trailing")
     = Ok (JObj [(py "a", JObj [(py "b", JInt 2)])]).
Proof.
  split; [vm_compute; reflexivity |].
  destruct (recovery_truncates_at_last_balanced_brace
              (js "noise {'a':{'b':2}} trailing")) as [H _];
    [vm_compute; reflexivity |].
  rewrite H. vm_compute. reflexivity.
Defined.

(** ** Notification channel *)

(** C8 as stated fails: the recipient of a broadcast is not "all". *)
Lemma broadcast_recipient_is_not_all :
  recipient_id
    (broadcast_message (sample_stamp 1) (py "orchestrator") (py "coordinator")
       [(py "iteration", JInt 1)] (py "conv_test_001") a2a_init).1
  <> py "all".
Proof. vm_compute. discriminate. Qed.

(** C8, amended: a broadcast is a [send_message] call with recipient
    "all_agents" and type "broadcast"; the message it returns carries these
    two fields and is the last entry of the history. *)
Theorem broadcast_is_send_to_all_agents
    (env : stamp) (sender sender_kind : pystr) (data : pydict) (cid : pystr)
    (self : A2AProtocol) :
  broadcast_message env sender sender_kind data cid self
    = send_message env sender sender_kind (py "all_agents") data cid (py "broadcast") self
  /\ message_type (broadcast_message env sender sender_kind data cid self).1
     = py "broadcast"
  /\ recipient_id (broadcast_message env sender sender_kind data cid self).1
     = py "all_agents"
  /\ last (message_history (broadcast_message env sender sender_kind data cid self).2)
     = Some (broadcast_message env sender sender_kind data cid self).1.
Proof.
  repeat split. simpl. apply last_snoc.
Qed.

Lemma index_consistent_init : index_consistent a2a_init.
Proof. intros cid. unfold indexed. simpl. rewrite lookup_empty. reflexivity. Qed.

Lemma index_consistent_log (message : A2AMessage) (self : A2AProtocol) :
  index_consistent self -> index_consistent (_log_message message self).
Proof.
  intros Hinv cid. unfold indexed, _log_message. simpl.
  rewrite filter_app. rewrite <- (Hinv cid). unfold indexed.
  rewrite lookup_alter.
  destruct (decide (conversation_id message = cid)) as [<- | Hne].
  - rewrite filter_cons_True by reflexivity. rewrite filter_nil.
    destruct (conversation_index self !! conversation_id message) eqn:E; simpl.
    + rewrite E. reflexivity.
    + rewrite lookup_insert_eq. reflexivity.
  - rewrite filter_cons_False by exact Hne. rewrite filter_nil, app_nil_r.
    destruct (conversation_index self !! conversation_id message) eqn:E; simpl.
    + reflexivity.
    + rewrite lookup_insert_ne by exact Hne. reflexivity.
Qed.

Lemma filter_none {A} (P : A -> Prop) `{forall x, Decision (P x)} (l : list A) :
  (forall x, ~ P x) -> filter P l = [].
Proof.
  intros HP. induction l as [| x l IH]; [reflexivity |].
  rewrite filter_cons_False by apply HP. exact IH.
Qed.

Lemma index_consistent_clear (cid' : option (list N)) (self : A2AProtocol) :
  index_consistent self -> index_consistent (clear_history cid' self).
Proof.
  intros Hinv. unfold clear_history.
  destruct (given cid'); [| apply index_consistent_init].
  set (c := default [] cid').
  destruct (conversation_index self !! c) eqn:E; [| exact Hinv].
  intros cid. unfold indexed. simpl. rewrite list_filter_filter.
  rewrite lookup_delete.
  destruct (decide (c = cid)) as [<- | Hne]; simpl.
  - symmetry. apply filter_none. intros x [H1 H2]. contradiction.
  - fold (indexed self cid). rewrite (Hinv cid). apply list_filter_iff. intros x. split.
    + intros Hx. split; [exact Hx | congruence].
    + intros [Hx _]. exact Hx.
Qed.

Lemma index_consistent_step (self : A2AProtocol) (c : a2a_call) :
  index_consistent self -> index_consistent (a2a_step self c).
Proof.
  intros Hinv. destruct c; simpl;
    try (apply index_consistent_log; exact Hinv).
  apply index_consistent_clear; exact Hinv.
Qed.

Lemma index_consistent_run_from (calls : list a2a_call) :
  forall self, index_consistent self -> index_consistent (fold_left a2a_step calls self).
Proof.
  induction calls as [| c calls IH]; intros self Hinv; simpl; [exact Hinv |].
  apply IH, index_consistent_step, Hinv.
Qed.

(** C9 as stated fails for the empty conversation id, which the channel
    accepts on messages but reads as "no filter" in queries: after one message
    in conversation "" and one in "c1", the query for "" returns both. *)
Lemma empty_conversation_id_returns_whole_history :
  let self :=
    a2a_run
      [ SendMessage (sample_stamp 1) (py "a") (py "agent") (py "b") [] [] (py "request");
        SendMessage (sample_stamp 2) (py "a") (py "agent") (py "b") [] (py "c1")
          (py "request") ] in
  length (get_message_history (Some []) None None self) = 2%nat
  /\ length (filter (fun m => conversation_id m = []) (message_history self)) = 1%nat.
Proof. vm_compute. split; reflexivity. Qed.

(** C9, amended: after any sequence of [send_message], [broadcast_message],
    [send_response] and [clear_history] calls on a fresh channel, a message
    is in the history exactly when it is in the index under its own
    conversation id, every index entry is the history restricted to that id
    in append order, and for every NON-EMPTY conversation id
    [get_message_history] returns exactly that entry. *)
Theorem history_and_index_stay_consistent (calls : list a2a_call) :
  let self := a2a_run calls in
  (forall m, m ∈ message_history self <-> m ∈ indexed self (conversation_id m))
  /\ (forall cid,
         indexed self cid
         = filter (fun m => conversation_id m = cid) (message_history self))
  /\ (forall cid,
         cid <> [] ->
         get_message_history (Some cid) None None self
         = filter (fun m => conversation_id m = cid) (message_history self)).
Proof.
  intros self.
  assert (Hinv : index_consistent self)
    by (apply index_consistent_run_from, index_consistent_init).
  split; [| split].
  - intros m. rewrite (Hinv (conversation_id m)), list_elem_of_filter. tauto.
  - exact Hinv.
  - intros cid Hcid. unfold get_message_history.
    destruct cid as [| c cid]; [contradiction |]. simpl. apply Hinv.
Qed.

Lemma history_and_index_stay_consistent_witness :
  py "conv_test_001" <> []
  /\ length
       (get_message_history (Some (py "conv_test_001")) None None
          (a2a_run
             [ SendMessage (sample_stamp 1) (py "github_scanner") (py "scanner")
                 (py "orchestrator") [(py "status", JStr (py "scanned"))]
                 (py "conv_test_001") (py "request");
               BroadcastMessage (sample_stamp 2) (py "orchestrator") (py "coordinator")
                 [(py "iteration", JInt 1)] (py "other");
               SendResponse (sample_stamp 3) (py "code_analyzer") (py "analyzer")
                 (py "orchestrator") [(py "architecture", JStr (py "MVC"))]
                 (py "conv_test_001") (py "msg_2");
               ClearHistory (Some (py "other")) ])) = 2%nat.
Proof.
  split; [discriminate |].
  destruct (history_and_index_stay_consistent
              [ SendMessage (sample_stamp 1) (py "github_scanner") (py "scanner")
                  (py "orchestrator") [(py "status", JStr (py "scanned"))]
                  (py "conv_test_001") (py "request");
                BroadcastMessage (sample_stamp 2) (py "orchestrator") (py "coordinator")
                  [(py "iteration", JInt 1)] (py "other");
                SendResponse (sample_stamp 3) (py "code_analyzer") (py "analyzer")
                  (py "orchestrator") [(py "architecture", JStr (py "MVC"))]
                  (py "conv_test_001") (py "msg_2");
                ClearHistory (Some (py "other")) ]) as (_ & _ & H).
  rewrite (H (py "conv_test_001")) by discriminate.
  vm_compute. reflexivity.
Defined.

(** ** Synthesis *)

(** Filtering on the key commutes with first-seen dedup. *)
Lemma dedup_filter_key {K A} `{EqDecision K} (Q : K -> Prop) `{forall k, Decision (Q k)}
    (l : list (K * A)) :
  filter (fun y => Q y.1) (dedup_first_seen l)
  = dedup_first_seen (filter (fun y => Q y.1) l).
Proof.
  induction l as [| x r IH]; [reflexivity |]. simpl.
  rewrite !filter_cons. destruct (decide (Q x.1)) as [Hq | Hq]; simpl.
  - f_equal. rewrite <- IH, !list_filter_filter.
    apply list_filter_iff. intros y. tauto.
  - rewrite <- IH, list_filter_filter.
    apply list_filter_iff. intros y. split; [tauto |].
    intros Hy. split; [exact Hy |]. intros Heq. apply Hq. rewrite <- Heq. exact Hy.
Qed.

(** The loop of [_rank_suggestions] with its accumulators, against the
    declarative rule. *)
Lemma rank_loop_spec (unicode_lower : list N -> list N) (suggestions : list json) :
  forall (keys : list (list N)) (seen : gset (list N)) (unique : list json),
    rmap (title_key unicode_lower) suggestions = Ok keys ->
    rank_loop unicode_lower suggestions seen unique
    = Ok (unique
          ++ (dedup_first_seen
                (filter (fun p => p.1 <> [] /\ p.1 ∉ seen) (zip keys suggestions))).*2).
Proof.
  induction suggestions as [| x rest IH]; intros keys seen unique Hkeys; simpl in *.
  - rewrite zip_with_nil_r. simpl. rewrite app_nil_r. reflexivity.
  - unfold title_key in Hkeys at 1.
    destruct (py_get x (py "title") (JStr [])) as [title | e]; simpl in *; [| discriminate].
    destruct (py_lower unicode_lower title) as [k | e]; simpl in *; [| discriminate].
    destruct (rmap (title_key unicode_lower) rest) as [keys' | e] eqn:Hrest;
      simpl in *; [| discriminate].
    injection Hkeys as <-. simpl. rewrite filter_cons.
    assert (Htest :
      negb (bool_decide (k = [])) && negb (bool_decide (k ∈ seen))
      = bool_decide (k <> [] /\ k ∉ seen)).
    { repeat case_bool_decide; simpl; try reflexivity; tauto. }
    rewrite Htest. clear Htest. simpl.
    destruct (decide (k <> [] /\ k ∉ seen)) as [Hk | Hk].
    + rewrite bool_decide_eq_true_2 by exact Hk. simpl.
      rewrite (IH keys' _ _ eq_refl). rewrite <- app_assoc. simpl.
      do 3 f_equal. unfold fmap. f_equal. symmetry.
      pose proof (dedup_filter_key (A := json) (fun k' : list N => k' <> k)) as Hc.
      etrans; [exact (Hc _) |].
      rewrite list_filter_filter.
      f_equal. apply list_filter_iff. intros y.
      rewrite not_elem_of_union, not_elem_of_singleton. tauto.
    + rewrite bool_decide_eq_false_2 by exact Hk. apply (IH keys' _ _ eq_refl).
Qed.

Lemma rbind_ok {A B} (m : result A) (k : A -> result B) (b : B) :
  rbind m k = Ok b -> exists a, m = Ok a /\ k a = Ok b.
Proof. destruct m as [a | e]; simpl; [eauto | discriminate]. Qed.

(** Splits a chain of [let!] known to end in [Ok] into its steps. *)
Ltac rinv H :=
  repeat (let a := fresh "v" in
          let Ha := fresh "E" in
          apply rbind_ok in H as (a & Ha & H); cbv beta in H).

(** C5 as stated fails: a suggestion without a title is no duplicate of
    anything, and the stated rule keeps it, but synthesis drops it. *)
Lemma untitled_suggestion_is_dropped :
  let untitled := JObj [(py "description", JStr (py "no title"))] in
  let union := [titled "A"; untitled] in
  rmap (title_key sample_lower) union = Ok [py "a"; []]
  /\ (dedup_first_seen (zip [py "a"; []] union)).*2 = union
  /\ (let! report :=
        _synthesize_single_report sample_lower (sample_analysis union []) (JObj []) in
      py_index report (py "ranked_suggestions"))
     = Ok (JArr [titled "A"]).
Proof. vm_compute. repeat split; reflexivity. Qed.

(** C5, amended: synthesis takes the PR analyzer's suggestions followed by
    the issue analyzer's, drops every entry whose title is missing or empty,
    deduplicates the rest by lower-cased title with first-seen-wins, keeps
    their order, and reports at most the first 10 of them; on
    [[A, b, A]] and [[C]] it yields the three entries [A, b, C]. *)
Theorem synthesis_dedups_titled_suggestions (unicode_lower : list N -> list N) :
  (forall suggestions keys,
      rmap (title_key unicode_lower) suggestions = Ok keys ->
      _rank_suggestions unicode_lower suggestions
      = Ok (dedup_first_seen (filter (fun p => p.1 <> []) (zip keys suggestions))).*2)
  /\ (forall analysis_data repo_data report,
         _synthesize_single_report unicode_lower analysis_data repo_data = Ok report ->
         exists pr_items issue_items ranked,
           suggested_problems analysis_data (py "pr_analysis") = Ok pr_items
           /\ suggested_problems analysis_data (py "issue_analysis") = Ok issue_items
           /\ _rank_suggestions unicode_lower (pr_items ++ issue_items) = Ok ranked
           /\ py_index report (py "ranked_suggestions") = Ok (JArr (take 10 ranked)))
  /\ (let! report :=
        _synthesize_single_report unicode_lower
          (sample_analysis [titled "A"; titled "b"; titled "A"] [titled "C"]) (JObj []) in
      py_index report (py "ranked_suggestions"))
     = Ok (JArr [titled "A"; titled "b"; titled "C"]).
Proof.
  split; [| split].
  - intros suggestions keys Hkeys. unfold _rank_suggestions.
    rewrite (rank_loop_spec unicode_lower suggestions keys ∅ [] Hkeys). simpl.
    do 3 f_equal. apply list_filter_iff. intros p.
    split; [tauto |]. intros Hp. split; [exact Hp | apply not_elem_of_empty].
  - intros analysis_data repo_data report H.
    unfold _synthesize_single_report in H. rinv H.
    injection H as <-.
    exists v1, v4, v5. unfold suggested_problems.
    rewrite E, E2. cbn [rbind]. rewrite E0, E3. cbn [rbind].
    repeat split; [exact E1 | exact E4 | exact E5].
  - vm_compute. reflexivity.
Qed.

Lemma synthesis_dedups_titled_suggestions_witness :
  rmap (title_key sample_lower)
    [ JObj [(py "title", JStr (py "Add Cache")); (py "source", JStr (py "pr"))];
      titled "b";
      JObj [(py "title", JStr (py "ADD cache")); (py "source", JStr (py "issue"))] ]
  = Ok [py "add cache"; py "b"; py "add cache"]
  /\ _rank_suggestions sample_lower
       [ JObj [(py "title", JStr (py "Add Cache")); (py "source", JStr (py "pr"))];
         titled "b";
         JObj [(py "title", JStr (py "ADD cache")); (py "source", JStr (py "issue"))] ]
     = Ok [ JObj [(py "title", JStr (py "Add Cache")); (py "source", JStr (py "pr"))];
            titled "b" ].
Proof.
  split; [vm_compute; reflexivity |].
  destruct (synthesis_dedups_titled_suggestions sample_lower) as (H & _ & _).
  rewrite (H _ [py "add cache"; py "b"; py "add cache"]) by (vm_compute; reflexivity).
  vm_compute. reflexivity.
Defined.

(** ** Agents: calls made and values returned *)

Lemma quiet_lift {A} (r : result A) : quiet (lift r).
Proof. intros w. unfold lift. destruct r; reflexivity. Qed.

Lemma quiet_sret {A} (a : A) : quiet (sret a).
Proof. intros w. reflexivity. Qed.

Lemma quiet_sbind {A B} (m : M A) (k : A -> M B) :
  quiet m -> (forall a, quiet (k a)) -> quiet (sbind m k).
Proof.
  intros Hm Hk w. unfold sbind. specialize (Hm w).
  destruct (m w) as [a w' | e w']; simpl in *; subst; [apply Hk | reflexivity].
Qed.

(** Proves [quiet] for code built from [lift], [sret], binds and tests. *)
Ltac quiet_tac :=
  repeat first
    [ apply quiet_lift
    | apply quiet_sret
    | apply quiet_sbind; [| intros ?]
    | match goal with
      | |- quiet (if ?b then _ else _) => destruct b
      | |- quiet (match ?x with _ => _ end) => destruct x
      end ].

(** One call followed by quiet code leaves exactly that call. *)
Lemma world_of_run_then {A}
    (generate : list N -> prompt -> nat -> result (list N))
    (name : list N) (p : prompt) (k : list N -> M A) (w : list call) :
  (forall text, quiet (k text)) ->
  world_of (sbind (run generate name p) k w) = w ++ [Call name p].
Proof.
  intros Hk. unfold sbind, run.
  destruct (generate name p (length w)); simpl; [apply Hk | reflexivity].
Qed.

Lemma sbind_lift_ok {A B} (a : A) (k : A -> M B) (w : list call) :
  sbind (lift (Ok a)) k w = k a w.
Proof. reflexivity. Qed.

Lemma sbind_run_ok {A}
    (generate : list N -> prompt -> nat -> result (list N))
    (name : list N) (p : prompt) (text : list N) (k : list N -> M A) (w : list call) :
  generate name p (length w) = Ok text ->
  sbind (run generate name p) k w = k text (w ++ [Call name p]).
Proof. intros H. unfold sbind, run. rewrite H. reflexivity. Qed.

(** C7: for a repository dataset (a dict whose repository entry, if any, is
    a dict and whose README, if any, is text) with a serialized dependency
    listing of more than 2000 characters, building the Dependency-Analyzer
    prompt raises nothing; the prompt, which is the one sent to the model,
    embeds exactly the first 2000 characters of the listing and the first
    500 characters at most of the README. *)
Theorem dependency_prompt_embeds_bounded_prefixes
    (py_repr : json -> list N)
    (generate : list N -> prompt -> nat -> result (list N))
    (fields repo : list (list N * json)) (readme : list N)
    (cid : option (list N)) (w : list call) :
  let listing :=
    json_dumps py_repr (Some 2%nat)
      (default (JArr []) (dict_get fields (py "dependencies"))) in
  let text :=
    dependency_prompt_text
      (py_str py_repr (default (JStr (py "Unknown")) (dict_get repo (py "name"))))
      (py_str py_repr (default (JStr (py "Unknown")) (dict_get repo (py "language"))))
      (take 2000 listing) (take 500 readme) in
  default (JObj []) (dict_get fields (py "repository")) = JObj repo ->
  default (JStr (py "No README")) (dict_get fields (py "readme")) = JStr readme ->
  (2000 < length listing)%nat ->
  dependency_prompt py_repr (JObj fields) = Ok text
  /\ world_of (analyze py_repr generate (JObj fields) cid w)
     = w ++ [Call (py "dependency_analyzer") (Text text)]
  /\ length (take 2000 listing) = 2000%nat
  /\ take 2000 listing `prefix_of` listing
  /\ (length (take 500 readme) <= 500)%nat
  /\ take 500 readme `prefix_of` readme.
Proof.
  intros listing text Hrepo Hreadme Hlong.
  assert (Hprompt : dependency_prompt py_repr (JObj fields) = Ok text).
  { unfold dependency_prompt. cbn [py_get rbind].
    rewrite Hrepo. cbn [py_get rbind]. rewrite Hreadme. reflexivity. }
  split; [exact Hprompt |]. split; [| repeat split].
  - unfold analyze. rewrite Hprompt, sbind_lift_ok.
    apply world_of_run_then. intros response. quiet_tac.
  - apply length_take_le. lia.
  - apply prefix_take.
  - rewrite length_take. lia.
  - apply prefix_take.
Qed.

Lemma dependency_prompt_embeds_bounded_prefixes_witness :
  (2000 < length (json_dumps sample_repr (Some 2%nat)
                    (default (JArr []) (dict_get sample_repo_data (py "dependencies")))))%nat
  /\ dependency_prompt sample_repr (JObj sample_repo_data)
     = Ok (dependency_prompt_text (py "demo") (py "Python")
             (take 2000 (json_dumps sample_repr (Some 2%nat)
                           (default (JArr [])
                              (dict_get sample_repo_data (py "dependencies")))))
             (py "# Demo")).
Proof.
  split; [vm_compute; lia |].
  destruct (dependency_prompt_embeds_bounded_prefixes sample_repr
              (fun _ _ _ => Raise InvocationError) sample_repo_data
              [(py "name", JStr (py "demo")); (py "language", JStr (py "Python"))]
              (py "# Demo") None []) as [H _];
    [reflexivity | reflexivity | vm_compute; lia |].
  exact H.
Defined.

Lemma py_get_ok_dict (v : json) (k : list N) (d x : json) :
  py_get v k d = Ok x -> exists fields, v = JObj fields.
Proof. destruct v; simpl; try discriminate. eauto. Qed.

Lemma dict_get_set_eq (d : list (list N * json)) (k : list N) (v : json) :
  dict_get (dict_set d k v) k = Some v.
Proof.
  induction d as [| [k' v'] d IH]; simpl.
  - rewrite bool_decide_eq_true_2 by reflexivity. reflexivity.
  - destruct (decide (k' = k)) as [-> | Hne].
    + rewrite bool_decide_eq_true_2 by reflexivity. simpl.
      rewrite bool_decide_eq_true_2 by reflexivity. reflexivity.
    + rewrite bool_decide_eq_false_2 by exact Hne. simpl.
      rewrite bool_decide_eq_false_2 by exact Hne. exact IH.
Qed.

(** A failed decode always has an error message to report. *)
Lemma error_message_of_failed (v : json) :
  decoded_ok v = Ok false -> exists error_msg, error_message v = Ok error_msg.
Proof.
  unfold decoded_ok, error_message. destruct (py_truthy v); [| eauto].
  intros H. apply rbind_ok in H as (pf & Hpf & _).
  apply py_get_ok_dict in Hpf as [fields ->]. simpl. eauto.
Qed.





(** C4 as stated fails: the Problem-Creator's record after a decode
    failure has four keys, two of them markers ([error], [raw_response]),
    while a decoded problem has the eleven keys of the output format. *)
Lemma creator_failure_record_lacks_schema_keys :
  py_keys <$>
    returned
      (create_problem sample_repr (fun _ _ _ => Ok (py "Sorry, no JSON today."))
         (JObj []) (JStr (py "medium")) (JStr (py "feature")) JNull None [])
  = Some [py "title"; py "description"; py "error"; py "raw_response"]
  /\ py_keys <$>
       returned
         (create_problem sample_repr (fun _ _ _ => Ok sample_problem_text)
            (JObj []) (JStr (py "medium")) (JStr (py "feature")) JNull None [])
     = Some [ py "title"; py "description"; py "business_context"; py "requirements";
              py "acceptance_criteria"; py "starter_code"; py "hints";
              py "estimated_time"; py "difficulty"; py "tech_stack";
              py "evaluation_rubric" ].
Proof. vm_compute. split; reflexivity. Qed.

(** C4, amended: on a decode failure the Dependency-Analyzer returns a fixed
    record with exactly the three top-level keys of its output format plus
    [error], and the Problem-Creator returns a record with exactly [title],
    [description], [error] and [raw_response] (the first 1000 characters of
    the response); no [parse_failed] marker is added.  On a decode success
    the Problem-Creator returns the decoded object unchanged, whatever keys
    it has. *)
Theorem failure_records_of_analyzer_and_creator
    (py_repr : json -> list N)
    (generate : list N -> prompt -> nat -> result (list N))
    (response : list N) (v : json) (cid : option (list N)) (w : list call) :
  extract_json_from_response response = Ok v ->
  (decoded_ok v = Ok false ->
   exists error_msg,
     error_message v = Ok error_msg
     /\ (forall repo_data text,
            dependency_prompt py_repr repo_data = Ok text ->
            generate (py "dependency_analyzer") (Text text) (length w) = Ok response ->
            analyze py_repr generate repo_data cid w
            = Returns (dependency_default error_msg)
                (w ++ [Call (py "dependency_analyzer") (Text text)]))
     /\ (forall report difficulty problem_type focus_area request,
            creator_prompt py_repr report difficulty problem_type focus_area = Ok request ->
            generate (py "problem_creator") request (length w) = Ok response ->
            create_problem py_repr generate report difficulty problem_type focus_area cid w
            = Returns (creation_default error_msg response)
                (w ++ [Call (py "problem_creator") request]))
     /\ py_keys (dependency_default error_msg)
        = [ py "tech_stack"; py "dependency_health"; py "integration_opportunities";
            py "error" ]
     /\ py_keys (creation_default error_msg response)
        = [py "title"; py "description"; py "error"; py "raw_response"]
     /\ py_index (creation_default error_msg response) (py "raw_response")
        = Ok (JStr (take 1000 response)))
  /\ (decoded_ok v = Ok true ->
      forall report difficulty problem_type focus_area request,
        creator_prompt py_repr report difficulty problem_type focus_area = Ok request ->
        generate (py "problem_creator") request (length w) = Ok response ->
        create_problem py_repr generate report difficulty problem_type focus_area cid w
        = Returns v (w ++ [Call (py "problem_creator") request])).
Proof.
  intros Hextract. split.
  - intros Hfail.
    destruct (error_message_of_failed v Hfail) as [error_msg Hmsg].
    exists error_msg. split; [exact Hmsg |]. split; [| split; [| repeat split]].
    + intros repo_data text Hprompt Hgen. unfold analyze.
      rewrite Hprompt, sbind_lift_ok, (sbind_run_ok _ _ _ response) by exact Hgen.
      rewrite Hextract, sbind_lift_ok, Hfail, sbind_lift_ok.
      rewrite Hmsg, sbind_lift_ok. reflexivity.
    + intros report difficulty problem_type focus_area request Hprompt Hgen.
      unfold create_problem.
      rewrite Hprompt, sbind_lift_ok, (sbind_run_ok _ _ _ response) by exact Hgen.
      rewrite Hextract, sbind_lift_ok, Hfail, sbind_lift_ok.
      rewrite Hmsg, sbind_lift_ok. reflexivity.
  - intros Hok report difficulty problem_type focus_area request Hprompt Hgen.
    unfold create_problem.
    rewrite Hprompt, sbind_lift_ok, (sbind_run_ok _ _ _ response) by exact Hgen.
    rewrite Hextract, sbind_lift_ok, Hok, sbind_lift_ok. reflexivity.
Qed.

Lemma failure_records_of_analyzer_and_creator_witness :
  extract_json_from_response (py "Sorry, no JSON today.") = Ok JNull
  /\ analyze sample_repr (fun _ _ _ => Ok (py "Sorry, no JSON today."))
       (JObj []) None []
     = Returns (dependency_default (JStr (py "Failed to extract JSON")))
         [Call (py "dependency_analyzer")
            (Text (dependency_prompt_text (py "Unknown") (py "Unknown") (py "[]")
                     (py "No README")))].
Proof.
  split; [vm_compute; reflexivity |].
  destruct (failure_records_of_analyzer_and_creator sample_repr
              (fun _ _ _ => Ok (py "Sorry, no JSON today."))
              (py "Sorry, no JSON today.") JNull None [])
    as [Hfail _]; [vm_compute; reflexivity |].
  destruct (Hfail eq_refl) as (error_msg & Hmsg & Hanalyze & _).
  injection Hmsg as <-.
  apply Hanalyze; [vm_compute; reflexivity | reflexivity].
Defined.

(** ** Validate and improve *)

Lemma sbind_returns {A B} (m : M A) (k : A -> M B) (w w' : list call) (b : B) :
  sbind m k w = Returns b w' ->
  exists a w1, m w = Returns a w1 /\ k a w1 = Returns b w'.
Proof.
  unfold sbind. destruct (m w) as [a w1 | e w1]; [eauto | discriminate].
Qed.

Lemma lift_returns {A} (r : result A) (w w' : list call) (a : A) :
  lift r w = Returns a w' -> r = Ok a /\ w' = w.
Proof. unfold lift. destruct r; intros H; inversion H; auto. Qed.

Lemma run_returns
    (generate : list N -> prompt -> nat -> result (list N))
    (name : list N) (p : prompt) (w w' : list call) (text : list N) :
  run generate name p w = Returns text w' -> w' = w ++ [Call name p].
Proof. unfold run. destruct (generate name p (length w)); intros H; inversion H; auto. Qed.

(** Splits a chain of [do!] known to return into its steps; steps made with
    [lift] are turned into equations on [result]. *)
Ltac sinv H :=
  repeat (let a := fresh "x" in
          let w1 := fresh "w" in
          let Ha := fresh "S" in
          apply sbind_returns in H as (a & w1 & Ha & H);
          cbv beta in H;
          try (apply lift_returns in Ha as [Ha ->])).

(** What a returning [validate_problem] did: its prompt was built, one call
    was made, and the validation result is a dict. *)
Lemma validate_problem_returns
    (py_repr : json -> list N)
    (generate : list N -> prompt -> nat -> result (list N))
    (threshold : Z) (problem report : json) (cid : option (list N))
    (w w1 : list call) (approved : bool) (validation : json) :
  validate_problem py_repr generate threshold problem report cid w
  = Returns (approved, validation) w1 ->
  exists request fields,
    validation_prompt py_repr problem report = Ok request
    /\ w1 = w ++ [Call (py "qa_validator") request]
    /\ validation = JObj fields.
Proof.
  unfold validate_problem. intros H.
  apply sbind_returns in H as (request & w0 & Hp & H).
  apply lift_returns in Hp as [Hp ->].
  apply sbind_returns in H as (response & w2 & Hr & H).
  apply run_returns in Hr as ->.
  sinv H. exists request.
  destruct x0.
  - sinv H. inversion H; subst.
    unfold py_dict_with in S3. destruct x; try discriminate.
    injection S3 as <-. eauto.
  - sinv H. inversion H; subst. unfold validation_default. eauto.
Qed.





Lemma world_of_sbind_quiet {A B} (m : M A) (k : A -> M B) (w : list call) :
  (forall a, quiet (k a)) -> world_of (sbind m k w) = world_of (m w).
Proof.
  intros Hk. unfold sbind. destruct (m w) as [a w' | e w']; [apply Hk | reflexivity].
Qed.




(** * Further properties *)

(** ** Ranking *)


(** ** More on ranking and synthesis *)

Lemma rmap_length {A B} (f : A -> result B) (l : list A) (l' : list B) :
  rmap f l = Ok l' -> length l' = length l.
Proof.
  revert l'. induction l as [| x l IH]; intros l' H; simpl in H.
  - injection H as <-. reflexivity.
  - rinv H. injection H as <-. simpl. f_equal. apply IH. assumption.
Qed.

Lemma rmap_Forall2 {A B} (f : A -> result B) (l : list A) (l' : list B) :
  rmap f l = Ok l' -> Forall2 (fun x y => f x = Ok y) l l'.
Proof.
  revert l'. induction l as [| x l IH]; intros l' H; simpl in H.
  - injection H as <-. constructor.
  - rinv H. injection H as <-. constructor; [assumption | apply IH; assumption].
Qed.

Lemma Forall2_rmap {A B} (f : A -> result B) (l : list A) (l' : list B) :
  Forall2 (fun x y => f x = Ok y) l l' -> rmap f l = Ok l'.
Proof.
  induction 1 as [| x y l l' Hxy _ IH]; simpl; [reflexivity |].
  rewrite Hxy. simpl. rewrite IH. reflexivity.
Qed.

(** A ranking that returns has computed the key of every suggestion. *)
Lemma rank_loop_ok_keys (unicode_lower : list N -> list N) (suggestions : list json) :
  forall seen unique ranked,
    rank_loop unicode_lower suggestions seen unique = Ok ranked ->
    exists keys, rmap (title_key unicode_lower) suggestions = Ok keys.
Proof.
  induction suggestions as [| x rest IH]; intros seen unique ranked H; simpl in *.
  - eauto.
  - unfold title_key at 1.
    destruct (py_get x (py "title") (JStr [])) as [title | e]; simpl in *; [| discriminate].
    destruct (py_lower unicode_lower title) as [k | e]; simpl in *; [| discriminate].
    destruct (negb (bool_decide (k = [])) && negb (bool_decide (k ∈ seen)));
      apply IH in H as [keys ->]; simpl; eauto.
Qed.

Lemma dedup_first_seen_sublist {K A} `{EqDecision K} (l : list (K * A)) :
  dedup_first_seen l `sublist_of` l.
Proof.
  induction l as [| x l IH]; simpl; [constructor |].
  constructor. etrans; [apply sublist_filter | exact IH].
Qed.

Lemma dedup_first_seen_NoDup {K A} `{EqDecision K} (l : list (K * A)) :
  NoDup (dedup_first_seen l).*1.
Proof.
  induction l as [| x l IH]; [constructor |].
  change (dedup_first_seen (x :: l))
    with (x :: filter (fun y => y.1 <> x.1) (dedup_first_seen l)).
  rewrite fmap_cons. constructor.
  - intros Hin. apply list_elem_of_fmap in Hin as (y & Hy & Hin).
    apply list_elem_of_filter in Hin as [Hne _]. congruence.
  - eapply sublist_NoDup; [exact IH |].
    apply fmap_sublist, sublist_filter.
Qed.

Lemma filter_all {A} (P : A -> Prop) `{forall x, Decision (P x)} (l : list A) :
  Forall P l -> filter P l = l.
Proof.
  induction 1 as [| x l Hx _ IH]; [reflexivity |].
  rewrite filter_cons_True by exact Hx. f_equal. exact IH.
Qed.

(** First-seen dedup leaves a list with distinct keys alone. *)
Lemma dedup_first_seen_id {K A} `{EqDecision K} (l : list (K * A)) :
  NoDup l.*1 -> dedup_first_seen l = l.
Proof.
  induction l as [| x l IH]; intros Hnd; [reflexivity |].
  rewrite fmap_cons in Hnd. apply NoDup_cons in Hnd as [Hnotin Hnd].
  change (dedup_first_seen (x :: l))
    with (x :: filter (fun y => y.1 <> x.1) (dedup_first_seen l)).
  rewrite IH by exact Hnd. f_equal.
  apply filter_all. apply Forall_forall. intros y Hy Heq.
  apply Hnotin. rewrite <- Heq. apply list_elem_of_fmap. eauto.
Qed.

(** What a returning [_rank_suggestions] kept, paired with the keys. *)
Lemma rank_suggestions_ok_kept
    (unicode_lower : list N -> list N) (suggestions ranked : list json) :
  _rank_suggestions unicode_lower suggestions = Ok ranked ->
  exists (keys : list (list N)) (kept : list (list N * json)),
    ranked = kept.*2
    /\ length keys = length suggestions
    /\ kept `sublist_of` zip keys suggestions
    /\ Forall (fun p => title_key unicode_lower p.2 = Ok p.1) kept
    /\ NoDup kept.*1
    /\ Forall (fun p => p.1 <> []) kept.
Proof.
  intros H. unfold _rank_suggestions in H.
  destruct (rank_loop_ok_keys _ _ _ _ _ H) as [keys Hkeys].
  rewrite (rank_loop_spec _ _ _ _ _ Hkeys) in H. injection H as <-.
  simpl app.
  set (kept := dedup_first_seen
                 (filter (fun p : list N * json => p.1 <> [] /\ p.1 ∉ (∅ : gset (list N)))
                    (zip keys suggestions))).
  assert (Hsub : kept `sublist_of` zip keys suggestions).
  { etrans; [apply dedup_first_seen_sublist | apply sublist_filter]. }
  exists keys, kept. split; [reflexivity |].
  split; [apply rmap_length in Hkeys; exact Hkeys |].
  split; [exact Hsub |]. split; [| split].
  - assert (Hall : Forall (fun p : list N * json => title_key unicode_lower p.2 = Ok p.1)
                     (zip keys suggestions)).
    { apply rmap_Forall2 in Hkeys. clear -Hkeys.
      induction Hkeys; simpl; constructor; auto. }
    rewrite Forall_forall in Hall. apply Forall_forall. intros p Hp. apply Hall.
    eapply elem_of_sublist; [exact Hp | exact Hsub].
  - apply dedup_first_seen_NoDup.
  - apply Forall_forall. intros p Hp.
    eapply elem_of_sublist in Hp; [| apply dedup_first_seen_sublist].
    apply list_elem_of_filter in Hp as [[Hne _] _]. exact Hne.
Qed.

(** X1: what [_rank_suggestions] returns is a subsequence of its input in
    which every entry has a non-empty lower-cased title and no two entries
    share one. *)
Theorem ranked_suggestions_are_distinct_titled_subsequence
    (unicode_lower : list N -> list N) (suggestions ranked : list json) :
  _rank_suggestions unicode_lower suggestions = Ok ranked ->
  ranked `sublist_of` suggestions
  /\ exists keys,
       rmap (title_key unicode_lower) ranked = Ok keys
       /\ NoDup keys
       /\ Forall (fun k => k <> []) keys.
Proof.
  intros H.
  destruct (rank_suggestions_ok_kept _ _ _ H)
    as (keys & kept & -> & Hlen & Hsub & Hkeys & Hnodup & Hne).
  split.
  - rewrite <- (snd_zip keys suggestions) by lia.
    apply fmap_sublist. exact Hsub.
  - exists kept.*1. split; [| split; [exact Hnodup |]].
    + apply Forall2_rmap, Forall2_fmap.
      clear -Hkeys. induction Hkeys; constructor; auto.
    + apply Forall_fmap. exact Hne.
Qed.

Lemma ranked_suggestions_are_distinct_titled_subsequence_witness :
  _rank_suggestions sample_lower [titled "A"; titled "b"; titled "a"; JObj []]
  = Ok [titled "A"; titled "b"]
  /\ [titled "A"; titled "b"] `sublist_of` [titled "A"; titled "b"; titled "a"; JObj []].
Proof.
  split; [vm_compute; reflexivity |].
  apply (ranked_suggestions_are_distinct_titled_subsequence sample_lower
           [titled "A"; titled "b"; titled "a"; JObj []] [titled "A"; titled "b"]).
  vm_compute. reflexivity.
Defined.

(** X2: ranking is idempotent: ranking a list that [_rank_suggestions]
    returned gives that list back. *)
Theorem ranking_is_idempotent
    (unicode_lower : list N -> list N) (suggestions ranked : list json) :
  _rank_suggestions unicode_lower suggestions = Ok ranked ->
  _rank_suggestions unicode_lower ranked = Ok ranked.
Proof.
  intros H.
  destruct (rank_suggestions_ok_kept _ _ _ H)
    as (keys & kept & -> & _ & _ & Hkeys & Hnodup & Hne).
  assert (Hrmap : rmap (title_key unicode_lower) kept.*2 = Ok kept.*1).
  { apply Forall2_rmap, Forall2_fmap.
    clear -Hkeys. induction Hkeys; constructor; auto. }
  unfold _rank_suggestions. rewrite (rank_loop_spec _ _ _ _ _ Hrmap).
  rewrite zip_fst_snd. simpl app. do 2 f_equal.
  rewrite filter_all.
  - apply dedup_first_seen_id. exact Hnodup.
  - eapply Forall_impl; [exact Hne |].
    intros p Hp. split; [exact Hp | apply not_elem_of_empty].
Qed.

Lemma ranking_is_idempotent_witness :
  _rank_suggestions sample_lower [titled "A"; titled "b"; titled "a"; JObj []]
  = Ok [titled "A"; titled "b"]
  /\ _rank_suggestions sample_lower [titled "A"; titled "b"]
     = Ok [titled "A"; titled "b"].
Proof.
  split; [vm_compute; reflexivity |].
  apply (ranking_is_idempotent sample_lower
           [titled "A"; titled "b"; titled "a"; JObj []]).
  vm_compute. reflexivity.
Defined.

(** ** Synthesis and the final result *)

(** What a returning [_synthesize_single_report] read and built. *)
Lemma synthesize_single_report_ok
    (unicode_lower : list N -> list N) (analysis_data repo_data report : json) :
  _synthesize_single_report unicode_lower analysis_data repo_data = Ok report ->
  exists (code pr issue dep repository : list (list N * json))
         (pr_items issue_items ranked : list json) (readme summary : json),
    py_index analysis_data (py "code_analysis") = Ok (JObj code)
    /\ py_index analysis_data (py "pr_analysis") = Ok (JObj pr)
    /\ py_index analysis_data (py "issue_analysis") = Ok (JObj issue)
    /\ py_index analysis_data (py "dependency_analysis") = Ok (JObj dep)
    /\ py_get repo_data (py "repository") (JObj []) = Ok (JObj repository)
    /\ suggested_problems analysis_data (py "pr_analysis") = Ok pr_items
    /\ suggested_problems analysis_data (py "issue_analysis") = Ok issue_items
    /\ _rank_suggestions unicode_lower (pr_items ++ issue_items) = Ok ranked
    /\ py_get repo_data (py "readme") (JStr []) = Ok readme
    /\ py_slice_to 500 readme = Ok summary
    /\ report
       = JObj
           [ (py "repository_profile",
              JObj [ (py "name",
                      default (JStr (py "Unknown")) (dict_get repository (py "name")));
                     (py "description",
                      default (JStr []) (dict_get repository (py "description")));
                     (py "language",
                      default (JStr (py "Unknown")) (dict_get repository (py "language")));
                     (py "architecture",
                      default (JObj []) (dict_get code (py "architecture")));
                     (py "quality",
                      default (JObj []) (dict_get code (py "code_quality")));
                     (py "tech_stack",
                      default (JObj []) (dict_get dep (py "tech_stack")));
                     (py "development_patterns",
                      default (JObj []) (dict_get pr (py "patterns")));
                     (py "issue_patterns",
                      default (JObj []) (dict_get issue (py "categories"))) ]);
             (py "code_analysis", JObj code);
             (py "pr_analysis", JObj pr);
             (py "issue_analysis", JObj issue);
             (py "dependency_analysis", JObj dep);
             (py "opportunities", default (JObj []) (dict_get code (py "opportunities")));
             (py "ranked_suggestions", JArr (take 10 ranked));
             (py "readme_summary", summary) ].
Proof.
  intros H. unfold _synthesize_single_report in H. rinv H.
  destruct (py_get_ok_dict _ _ _ _ E0) as [pr ->].
  destruct (py_get_ok_dict _ _ _ _ E3) as [issue ->].
  destruct (py_get_ok_dict _ _ _ _ E7) as [repository ->].
  destruct (py_get_ok_dict _ _ _ _ E11) as [code ->].
  destruct (py_get_ok_dict _ _ _ _ E14) as [dep ->].
  exists code, pr, issue, dep, repository, v1, v4, v5, v18, v19.
  unfold suggested_problems. rewrite E, E2. cbn [rbind]. rewrite E0, E3. cbn [rbind].
  cbn [py_get] in E7, E8, E9, E11, E12, E14, E15, E16, E17.
  injection E7 as <-. injection E8 as <-. injection E9 as <-.
  injection E11 as <-. injection E12 as <-. injection E14 as <-.
  injection E15 as <-. injection E16 as <-. injection E17 as <-.
  injection H as <-.
  repeat split; assumption || reflexivity.
Qed.

(** X3: a synthesized report has exactly eight entries; the four analyses
    are stored unchanged; the ranked suggestions are at most ten and a
    subsequence of the PR suggestions followed by the issue suggestions; the
    README summary has at most 500 items. *)
Theorem synthesized_report_is_bounded
    (unicode_lower : list N -> list N) (analysis_data repo_data report : json) :
  _synthesize_single_report unicode_lower analysis_data repo_data = Ok report ->
  py_keys report
  = [ py "repository_profile"; py "code_analysis"; py "pr_analysis";
      py "issue_analysis"; py "dependency_analysis"; py "opportunities";
      py "ranked_suggestions"; py "readme_summary" ]
  /\ py_index report (py "code_analysis") = py_index analysis_data (py "code_analysis")
  /\ py_index report (py "pr_analysis") = py_index analysis_data (py "pr_analysis")
  /\ py_index report (py "issue_analysis") = py_index analysis_data (py "issue_analysis")
  /\ py_index report (py "dependency_analysis")
     = py_index analysis_data (py "dependency_analysis")
  /\ exists pr_items issue_items ranked summary n,
       suggested_problems analysis_data (py "pr_analysis") = Ok pr_items
       /\ suggested_problems analysis_data (py "issue_analysis") = Ok issue_items
       /\ py_index report (py "ranked_suggestions") = Ok (JArr ranked)
       /\ ranked `sublist_of` pr_items ++ issue_items
       /\ (length ranked <= 10)%nat
       /\ py_index report (py "readme_summary") = Ok summary
       /\ py_len summary = Ok n
       /\ (n <= 500)%nat.
Proof.
  intros H.
  destruct (synthesize_single_report_ok _ _ _ _ H)
    as (code & pr & issue & dep & repository & pr_items & issue_items & ranked
        & readme & summary & Hcode & Hpr & Hissue & Hdep & _ & Hprs & Hissues
        & Hrank & _ & Hsummary & ->).
  rewrite Hcode, Hpr, Hissue, Hdep.
  split; [reflexivity |]. do 4 (split; [reflexivity |]).
  destruct (rank_suggestions_ok_kept _ _ _ Hrank)
    as (keys & kept & -> & Hlen & Hsub & _).
  assert (Hn : exists n, py_len summary = Ok n /\ (n <= 500)%nat).
  { destruct readme; try discriminate; cbn in Hsummary;
      injection Hsummary as <-; eexists; (split; [reflexivity |]);
      rewrite length_take; lia. }
  destruct Hn as (n & Hn & Hbound).
  exists pr_items, issue_items, (take 10 kept.*2), summary, n.
  split; [exact Hprs |]. split; [exact Hissues |]. split; [reflexivity |].
  split.
  - etrans; [apply sublist_take |].
    rewrite <- (snd_zip keys (pr_items ++ issue_items)) by lia.
    apply fmap_sublist. exact Hsub.
  - split; [rewrite length_take; lia |].
    split; [reflexivity |]. split; assumption.
Qed.

Lemma synthesized_report_is_bounded_witness :
  exists report ranked,
    _synthesize_single_report sample_lower
      (sample_analysis (map (fun n => JObj [(py "title", JStr [65 + n])])
                          [0; 1; 2; 3; 4; 5; 6])
                       (map (fun n => JObj [(py "title", JStr [65 + n])])
                          [7; 8; 9; 10; 11; 12; 13]))
      (JObj [(py "readme", JStr (repeat 97 700))])
    = Ok report
    /\ py_index report (py "ranked_suggestions") = Ok (JArr ranked)
    /\ length ranked = 10%nat.
Proof.
  destruct (_synthesize_single_report sample_lower
              (sample_analysis (map (fun n => JObj [(py "title", JStr [65 + n])])
                                  [0; 1; 2; 3; 4; 5; 6])
                               (map (fun n => JObj [(py "title", JStr [65 + n])])
                                  [7; 8; 9; 10; 11; 12; 13]))
              (JObj [(py "readme", JStr (repeat 97 700))])) as [report | e] eqn:E;
    [| vm_compute in E; discriminate].
  destruct (synthesized_report_is_bounded _ _ _ _ E)
    as (_ & _ & _ & _ & _ & pr_items & issue_items & ranked & summary & n
        & _ & _ & Hranked & _ & _ & _ & _ & _).
  exists report, ranked. split; [reflexivity |]. split; [exact Hranked |].
  revert Hranked. vm_compute in E. injection E as <-.
  vm_compute. intros [= <-]. reflexivity.
Defined.

(** X4: synthesis returns only when each of the four analyses is present and
    is a dict and the repository data is a dict; in particular a missing
    PR analysis is a KeyError. *)
Theorem synthesis_needs_four_dict_analyses
    (unicode_lower : list N -> list N) (analysis_data repo_data : json) :
  (forall report,
      _synthesize_single_report unicode_lower analysis_data repo_data = Ok report ->
      (exists code pr issue dep,
          py_index analysis_data (py "code_analysis") = Ok (JObj code)
          /\ py_index analysis_data (py "pr_analysis") = Ok (JObj pr)
          /\ py_index analysis_data (py "issue_analysis") = Ok (JObj issue)
          /\ py_index analysis_data (py "dependency_analysis") = Ok (JObj dep))
      /\ exists fields, repo_data = JObj fields)
  /\ (forall fields,
         analysis_data = JObj fields ->
         dict_get fields (py "pr_analysis") = None ->
         _synthesize_single_report unicode_lower analysis_data repo_data
         = Raise KeyError).
Proof.
  split.
  - intros report H.
    destruct (synthesize_single_report_ok _ _ _ _ H)
      as (code & pr & issue & dep & repository & _ & _ & _ & _ & _
          & Hcode & Hpr & Hissue & Hdep & Hrepo & _).
    split; [exists code, pr, issue, dep; auto |].
    exact (py_get_ok_dict _ _ _ _ Hrepo).
  - intros fields -> Hmissing. unfold _synthesize_single_report.
    cbn [py_index]. rewrite Hmissing. reflexivity.
Qed.

Lemma synthesis_needs_four_dict_analyses_witness :
  _synthesize_single_report sample_lower
    (JObj [ (py "code_analysis", JObj []); (py "issue_analysis", JObj []);
            (py "dependency_analysis", JObj []) ])
    (JObj [])
  = Raise KeyError.
Proof.
  apply (proj2 (synthesis_needs_four_dict_analyses sample_lower
                  (JObj [ (py "code_analysis", JObj []); (py "issue_analysis", JObj []);
                          (py "dependency_analysis", JObj []) ])
                  (JObj []))
           [ (py "code_analysis", JObj []); (py "issue_analysis", JObj []);
             (py "dependency_analysis", JObj []) ]).
  - reflexivity.
  - reflexivity.
Defined.

(** X5: on a synthesized report [_compile_final_result] does not raise; the
    count it stores under [suggestions_evaluated] is the number of ranked
    suggestions, at most ten, and the report is kept under
    [debug.analysis_report]. *)
Theorem final_result_counts_ranked_suggestions
    (started_at : list N) (unicode_lower : list N -> list N)
    (analysis_data repo_data report problem validation performance : json)
    (generated_at : list N) :
  _synthesize_single_report unicode_lower analysis_data repo_data = Ok report ->
  exists result ranked,
    _compile_final_result started_at repo_data report problem validation performance
      generated_at = Ok result
    /\ py_index report (py "ranked_suggestions") = Ok (JArr ranked)
    /\ (length ranked <= 10)%nat
    /\ (let! assessment := py_index result (py "assessment") in
        let! metadata := py_index assessment (py "metadata") in
        let! summary := py_index metadata (py "analysis_summary") in
        py_index summary (py "suggestions_evaluated"))
       = Ok (JInt (Z.of_nat (length ranked)))
    /\ (let! assessment := py_index result (py "assessment") in
        let! metadata := py_index assessment (py "metadata") in
        py_index metadata (py "conversation_id"))
       = Ok (JStr (py "orchestrator_" ++ started_at))
    /\ (let! debug := py_index result (py "debug") in
        py_index debug (py "analysis_report")) = Ok report.
Proof.
  intros H.
  destruct (synthesize_single_report_ok _ _ _ _ H)
    as (code & pr & issue & dep & repository & pr_items & issue_items & ranked
        & readme & summary & _ & _ & _ & _ & Hrepo & _ & _ & _ & _ & _ & ->).
  destruct (py_get_ok_dict _ _ _ _ Hrepo) as [fields ->].
  eexists. exists (take 10 ranked).
  split; [unfold _compile_final_result; rewrite Hrepo; reflexivity |].
  split; [reflexivity |]. split; [rewrite length_take; lia |].
  split; [reflexivity |]. split; reflexivity.
Qed.

Lemma final_result_counts_ranked_suggestions_witness :
  exists result,
    (let! report :=
       _synthesize_single_report sample_lower
         (sample_analysis [titled "A"; titled "a"] [titled "B"]) (JObj []) in
     _compile_final_result (py "20250101_000000") (JObj []) report (titled "T")
       (JObj []) (JObj []) (py "2025-01-01T00:00:00"))
    = Ok result
    /\ (let! assessment := py_index result (py "assessment") in
        let! metadata := py_index assessment (py "metadata") in
        let! summary := py_index metadata (py "analysis_summary") in
        py_index summary (py "suggestions_evaluated"))
       = Ok (JInt 2).
Proof.
  destruct (_synthesize_single_report sample_lower
              (sample_analysis [titled "A"; titled "a"] [titled "B"]) (JObj []))
    as [report | e] eqn:E; [| vm_compute in E; discriminate].
  destruct (final_result_counts_ranked_suggestions (py "20250101_000000") sample_lower
              _ (JObj []) report (titled "T") (JObj []) (JObj [])
              (py "2025-01-01T00:00:00") E)
    as (result & ranked & Hresult & Hranked & _ & Hcount & _).
  exists result. cbn [rbind]. split; [exact Hresult |].
  rewrite Hcount. vm_compute in E. injection E as <-.
  vm_compute in Hranked. injection Hranked as <-. reflexivity.
Defined.

(** ** The agents' calls and failures *)

Lemma world_of_analyze
    (py_repr : json -> list N)
    (generate : list N -> prompt -> nat -> result (list N))
    (repo_data : json) (cid : option (list N)) (w : list call) :
  world_of (analyze py_repr generate repo_data cid w)
  = match dependency_prompt py_repr repo_data with
    | Ok text => w ++ [Call (py "dependency_analyzer") (Text text)]
    | Raise _ => w
    end.
Proof.
  unfold analyze. destruct (dependency_prompt py_repr repo_data) as [text | e].
  - rewrite sbind_lift_ok. apply world_of_run_then. intros response. quiet_tac.
  - reflexivity.
Qed.

Lemma world_of_create_problem
    (py_repr : json -> list N)
    (generate : list N -> prompt -> nat -> result (list N))
    (report difficulty problem_type focus_area : json)
    (cid : option (list N)) (w : list call) :
  world_of (create_problem py_repr generate report difficulty problem_type focus_area
              cid w)
  = match creator_prompt py_repr report difficulty problem_type focus_area with
    | Ok request => w ++ [Call (py "problem_creator") request]
    | Raise _ => w
    end.
Proof.
  unfold create_problem.
  destruct (creator_prompt py_repr report difficulty problem_type focus_area)
    as [request | e].
  - rewrite sbind_lift_ok. apply world_of_run_then. intros response. quiet_tac.
  - reflexivity.
Qed.

Lemma world_of_validate_problem
    (py_repr : json -> list N)
    (generate : list N -> prompt -> nat -> result (list N))
    (threshold : Z) (problem report : json) (cid : option (list N)) (w : list call) :
  world_of (validate_problem py_repr generate threshold problem report cid w)
  = match validation_prompt py_repr problem report with
    | Ok request => w ++ [Call (py "qa_validator") request]
    | Raise _ => w
    end.
Proof.
  unfold validate_problem.
  destruct (validation_prompt py_repr problem report) as [request | e].
  - rewrite sbind_lift_ok. apply world_of_run_then. intros response. quiet_tac.
  - reflexivity.
Qed.

(** X6: each agent makes exactly one text-completion call, under its own
    name and with the prompt it built, whatever happens afterwards; when
    building the prompt raises, it makes none. *)
Theorem agents_make_one_call_or_none
    (py_repr : json -> list N)
    (generate : list N -> prompt -> nat -> result (list N))
    (cid : option (list N)) (w : list call) :
  (forall repo_data,
      world_of (analyze py_repr generate repo_data cid w)
      = match dependency_prompt py_repr repo_data with
        | Ok text => w ++ [Call (py "dependency_analyzer") (Text text)]
        | Raise _ => w
        end)
  /\ (forall report difficulty problem_type focus_area,
         world_of (create_problem py_repr generate report difficulty problem_type
                     focus_area cid w)
         = match creator_prompt py_repr report difficulty problem_type focus_area with
           | Ok request => w ++ [Call (py "problem_creator") request]
           | Raise _ => w
           end)
  /\ (forall threshold problem report,
         world_of (validate_problem py_repr generate threshold problem report cid w)
         = match validation_prompt py_repr problem report with
           | Ok request => w ++ [Call (py "qa_validator") request]
           | Raise _ => w
           end).
Proof.
  split; [| split].
  - intros repo_data. apply world_of_analyze.
  - intros report difficulty problem_type focus_area. apply world_of_create_problem.
  - intros threshold problem report. apply world_of_validate_problem.
Qed.

Lemma decoded_ok_non_dict (v : json) :
  py_truthy v = true -> (forall d, v <> JObj d) -> decoded_ok v = Raise AttributeError.
Proof.
  intros Htruthy Hnot. unfold decoded_ok. rewrite Htruthy.
  destruct v; try reflexivity. exfalso. eapply Hnot. reflexivity.
Qed.

(** X7: when the model's output decodes to a truthy value that is not a
    dict (a non-empty list, a non-zero number, a non-empty string, [true]),
    each agent raises AttributeError right after its call: neither the
    decoded value nor a failure record is returned. *)
Theorem truthy_non_dict_output_raises
    (py_repr : json -> list N)
    (generate : list N -> prompt -> nat -> result (list N))
    (response : list N) (v : json) (cid : option (list N)) (w : list call) :
  extract_json_from_response response = Ok v ->
  py_truthy v = true ->
  (forall d, v <> JObj d) ->
  (forall repo_data text,
      dependency_prompt py_repr repo_data = Ok text ->
      generate (py "dependency_analyzer") (Text text) (length w) = Ok response ->
      analyze py_repr generate repo_data cid w
      = Raises AttributeError (w ++ [Call (py "dependency_analyzer") (Text text)]))
  /\ (forall report difficulty problem_type focus_area request,
         creator_prompt py_repr report difficulty problem_type focus_area = Ok request ->
         generate (py "problem_creator") request (length w) = Ok response ->
         create_problem py_repr generate report difficulty problem_type focus_area cid w
         = Raises AttributeError (w ++ [Call (py "problem_creator") request]))
  /\ (forall threshold problem report request,
         validation_prompt py_repr problem report = Ok request ->
         generate (py "qa_validator") request (length w) = Ok response ->
         validate_problem py_repr generate threshold problem report cid w
         = Raises AttributeError (w ++ [Call (py "qa_validator") request])).
Proof.
  intros Hextract Htruthy Hnot.
  pose proof (decoded_ok_non_dict v Htruthy Hnot) as Hdecoded.
  split; [| split].
  - intros repo_data text Hprompt Hgen. unfold analyze.
    rewrite Hprompt, sbind_lift_ok, (sbind_run_ok _ _ _ _ _ _ Hgen).
    rewrite Hextract, sbind_lift_ok, Hdecoded. reflexivity.
  - intros report difficulty problem_type focus_area request Hprompt Hgen.
    unfold create_problem.
    rewrite Hprompt, sbind_lift_ok, (sbind_run_ok _ _ _ _ _ _ Hgen).
    rewrite Hextract, sbind_lift_ok, Hdecoded. reflexivity.
  - intros threshold problem report request Hprompt Hgen. unfold validate_problem.
    rewrite Hprompt, sbind_lift_ok, (sbind_run_ok _ _ _ _ _ _ Hgen).
    rewrite Hextract, sbind_lift_ok, Hdecoded. reflexivity.
Qed.

Lemma truthy_non_dict_output_raises_witness :
  extract_json_from_response (js "['not', 'an', 'object']")
  = Ok (JArr [JStr (py "not"); JStr (py "an"); JStr (py "object")])
  /\ create_problem sample_repr (fun _ _ _ => Ok (js "['not', 'an', 'object']"))
       (JObj [(py "improvement_context", JObj [(py "original_problem", JObj [])])])
       (JStr (py "medium")) (JStr (py "feature")) JNull None []
     = Raises AttributeError
         [Call (py "problem_creator")
            (Template RefinementTemplate
               [ py "{}"; py "0"; py "None - problem is generally good";
                 py "None - minor polish only"; py "[]" ])].
Proof.
  split; [vm_compute; reflexivity |].
  refine (proj1 (proj2 (truthy_non_dict_output_raises sample_repr
                          (fun _ _ _ => Ok (js "['not', 'an', 'object']"))
                          (js "['not', 'an', 'object']")
                          (JArr [JStr (py "not"); JStr (py "an"); JStr (py "object")])
                          None [] _ _ _)) _ _ _ _ _ _ _).
  - vm_compute. reflexivity.
  - reflexivity.
  - intros d. discriminate.
  - vm_compute. reflexivity.
  - reflexivity.
Defined.

(** X8: when the decoded validation carries a score that is not a number
    (a string such as "90", a list, a dict, or null), the validator raises
    TypeError right after its call; no approval is computed and no fallback
    validation is returned. *)
Theorem non_numeric_score_raises_type_error
    (py_repr : json -> list N)
    (generate : list N -> prompt -> nat -> result (list N))
    (threshold : Z) (problem report : json) (cid : option (list N)) (w : list call)
    (request : prompt) (response : list N) (d : list (list N * json)) (score : json) :
  validation_prompt py_repr problem report = Ok request ->
  generate (py "qa_validator") request (length w) = Ok response ->
  extract_json_from_response response = Ok (JObj d) ->
  decoded_ok (JObj d) = Ok true ->
  dict_get d (py "overall_score") = Some score ->
  match score with
  | JNull | JStr _ | JArr _ | JObj _ => True
  | JBool _ | JInt _ | JFloat _ => False
  end ->
  validate_problem py_repr generate threshold problem report cid w
  = Raises TypeError (w ++ [Call (py "qa_validator") request]).
Proof.
  intros Hprompt Hgen Hextract Hdecoded Hscore Hkind. unfold validate_problem.
  rewrite Hprompt, sbind_lift_ok, (sbind_run_ok _ _ _ _ _ _ Hgen).
  rewrite Hextract, sbind_lift_ok, Hdecoded, sbind_lift_ok.
  cbn [py_get]. rewrite Hscore. cbn [default from_option id]. rewrite sbind_lift_ok.
  destruct score; try contradiction; reflexivity.
Qed.

Lemma non_numeric_score_raises_type_error_witness :
  exists request,
    validate_problem sample_repr
      (fun _ _ _ => Ok (js "{'overall_score': '90', 'issues': []}")) 85
      (titled "T") (JObj []) None []
    = Raises TypeError [Call (py "qa_validator") request].
Proof.
  destruct (validation_prompt sample_repr (titled "T") (JObj [])) as [request | e] eqn:E;
    [| vm_compute in E; discriminate].
  exists request.
  apply (non_numeric_score_raises_type_error sample_repr
           (fun _ _ _ => Ok (js "{'overall_score': '90', 'issues': []}")) 85
           (titled "T") (JObj []) None [] request
           (js "{'overall_score': '90', 'issues': []}")
           [(py "overall_score", JStr (py "90")); (py "issues", JArr [])]
           (JStr (py "90"))).
  - exact E.
  - reflexivity.
  - vm_compute. reflexivity.
  - vm_compute. reflexivity.
  - vm_compute. reflexivity.
  - exact I.
Defined.

(** X9: the dependency analyzer returns a decoded dict unchanged when the
    values it logs can be measured; a [tech_stack] entry that is not a dict
    makes it raise AttributeError after the call instead, although the
    output was decoded. *)
Theorem analyzer_returns_decoded_dict_when_loggable
    (py_repr : json -> list N)
    (generate : list N -> prompt -> nat -> result (list N))
    (repo_data : json) (cid : option (list N)) (w : list call)
    (text response : list N) (d : list (list N * json)) :
  dependency_prompt py_repr repo_data = Ok text ->
  generate (py "dependency_analyzer") (Text text) (length w) = Ok response ->
  extract_json_from_response response = Ok (JObj d) ->
  decoded_ok (JObj d) = Ok true ->
  (forall tech_stack n m,
      default (JObj []) (dict_get d (py "tech_stack")) = JObj tech_stack ->
      py_len (default (JArr []) (dict_get tech_stack (py "frameworks"))) = Ok n ->
      py_len (default (JArr []) (dict_get d (py "integration_opportunities"))) = Ok m ->
      analyze py_repr generate repo_data cid w
      = Returns (JObj d) (w ++ [Call (py "dependency_analyzer") (Text text)]))
  /\ (forall x,
         dict_get d (py "tech_stack") = Some x ->
         (forall fields, x <> JObj fields) ->
         analyze py_repr generate repo_data cid w
         = Raises AttributeError (w ++ [Call (py "dependency_analyzer") (Text text)])).
Proof.
  intros Hprompt Hgen Hextract Hdecoded.
  assert (Hrun :
             analyze py_repr generate repo_data cid w
             = (do! ok := lift (decoded_ok (JObj d)) in
                if ok then
                  let frameworks :=
                    let! tech_stack := py_get (JObj d) (py "tech_stack") (JObj []) in
                    py_get tech_stack (py "frameworks") (JArr []) in
                  do! _ := lift (let! f := frameworks in py_len f) in
                  do! _ := lift (if has_conversation cid then
                                   let! _ := frameworks in
                                   let! opportunities :=
                                     py_get (JObj d) (py "integration_opportunities")
                                       (JArr []) in
                                   py_len opportunities
                                 else Ok 0%nat) in
                  sret (JObj d)
                else
                  do! error_msg := lift (error_message (JObj d)) in
                  sret (dependency_default error_msg))
                 (w ++ [Call (py "dependency_analyzer") (Text text)])).
  { unfold analyze.
    rewrite Hprompt, sbind_lift_ok, (sbind_run_ok _ _ _ _ _ _ Hgen).
    rewrite Hextract, sbind_lift_ok. reflexivity. }
  rewrite Hrun, Hdecoded, sbind_lift_ok.
  cbv zeta. cbn [py_get rbind]. split.
  - intros tech_stack n m Hstack Hframeworks Hopportunities.
    rewrite Hstack. cbn [rbind py_get]. rewrite Hframeworks, sbind_lift_ok.
    destruct (has_conversation cid).
    + rewrite Hopportunities, sbind_lift_ok. reflexivity.
    + rewrite sbind_lift_ok. reflexivity.
  - intros x Hx Hnot. rewrite Hx. cbn [default from_option id].
    destruct x; try reflexivity. exfalso. eapply Hnot. reflexivity.
Qed.

Lemma analyzer_returns_decoded_dict_when_loggable_witness :
  analyze sample_repr (fun _ _ _ => Ok (js "{'tech_stack': 'python'}")) (JObj []) None []
  = Raises AttributeError
      [Call (py "dependency_analyzer")
         (Text (dependency_prompt_text (py "Unknown") (py "Unknown") (py "[]")
                  (py "No README")))].
Proof.
  refine (proj2 (analyzer_returns_decoded_dict_when_loggable sample_repr
                   (fun _ _ _ => Ok (js "{'tech_stack': 'python'}")) (JObj []) None []
                   (dependency_prompt_text (py "Unknown") (py "Unknown") (py "[]")
                      (py "No README"))
                   (js "{'tech_stack': 'python'}")
                   [(py "tech_stack", JStr (py "python"))] _ _ _ _)
            (JStr (py "python")) _ _).
  - vm_compute. reflexivity.
  - reflexivity.
  - vm_compute. reflexivity.
  - vm_compute. reflexivity.
  - vm_compute. reflexivity.
  - intros fields. discriminate.
Defined.

(** ** Refinement mode and the order of calls *)

(** X10: in refinement mode the creator's prompt is built from the original
    problem and the validation feedback alone: the improvement instructions
    and the scores stored in the context, and the difficulty, problem type
    and focus area passed to [create_problem], do not reach it. *)
Theorem refinement_prompt_reads_only_problem_and_feedback
    (py_repr : json -> list N) :
  (forall context context' : list (list N * json),
      dict_get context (py "original_problem")
      = dict_get context' (py "original_problem") ->
      dict_get context (py "validation_feedback")
      = dict_get context' (py "validation_feedback") ->
      refinement_prompt py_repr (JObj context)
      = refinement_prompt py_repr (JObj context'))
  /\ (forall report context difficulty problem_type focus_area
             difficulty' problem_type' focus_area',
         py_get report (py "improvement_context") JNull = Ok context ->
         py_truthy context = true ->
         creator_prompt py_repr report difficulty problem_type focus_area
         = refinement_prompt py_repr context
         /\ creator_prompt py_repr report difficulty' problem_type' focus_area'
            = refinement_prompt py_repr context).
Proof.
  split.
  - intros context context' Hproblem Hfeedback. unfold refinement_prompt.
    cbn [py_get]. rewrite Hproblem, Hfeedback. reflexivity.
  - intros report context d p f d' p' f' Hcontext Htruthy.
    unfold creator_prompt. rewrite Hcontext. cbn [rbind]. rewrite Htruthy.
    split; reflexivity.
Qed.

Lemma refinement_prompt_reads_only_problem_and_feedback_witness :
  refinement_prompt sample_repr
    (JObj [ (py "original_problem", titled "T");
            (py "validation_feedback", JObj [(py "overall_score", JInt 70)]);
            (py "improvement_instructions", JStr (py "Fix the title."));
            (py "target_score", JInt 100);
            (py "current_score", JInt 70) ])
  = refinement_prompt sample_repr
      (JObj [ (py "original_problem", titled "T");
              (py "validation_feedback", JObj [(py "overall_score", JInt 70)]) ]).
Proof.
  apply (proj1 (refinement_prompt_reads_only_problem_and_feedback sample_repr)).
  - vm_compute. reflexivity.
  - vm_compute. reflexivity.
Defined.

(** X11: a repository whose description is [None] (as stored for a
    repository without one) passes synthesis, and then makes
    [create_problem] raise TypeError while it builds its prompt, before any
    text-completion call. *)
Theorem null_description_breaks_creation
    (unicode_lower : list N -> list N) (py_repr : json -> list N)
    (generate : list N -> prompt -> nat -> result (list N))
    (analysis_data repo_data report : json) (repository : list (list N * json))
    (difficulty problem_type focus_area : json) (cid : option (list N))
    (w : list call) :
  _synthesize_single_report unicode_lower analysis_data repo_data = Ok report ->
  py_get repo_data (py "repository") (JObj []) = Ok (JObj repository) ->
  dict_get repository (py "description") = Some JNull ->
  (let! profile := py_index report (py "repository_profile") in
   py_index profile (py "description")) = Ok JNull
  /\ create_problem py_repr generate report difficulty problem_type focus_area cid w
     = Raises TypeError w.
Proof.
  intros H Hrepo Hdescription.
  destruct (synthesize_single_report_ok _ _ _ _ H)
    as (code & pr & issue & dep & repository' & pr_items & issue_items & ranked
        & readme & summary & _ & _ & _ & _ & Hrepo' & _ & _ & _ & _ & _ & ->).
  rewrite Hrepo in Hrepo'. injection Hrepo' as <-.
  rewrite Hdescription. split; reflexivity.
Qed.

Lemma null_description_breaks_creation_witness :
  exists report,
    _synthesize_single_report sample_lower (sample_analysis [] [])
      (JObj [(py "repository",
              JObj [(py "name", JStr (py "demo")); (py "description", JNull)])])
    = Ok report
    /\ create_problem sample_repr sample_generate report (JStr (py "medium"))
         (JStr (py "feature")) (JStr (py "240 minutes")) None []
       = Raises TypeError [].
Proof.
  destruct (_synthesize_single_report sample_lower (sample_analysis [] [])
              (JObj [(py "repository",
                      JObj [(py "name", JStr (py "demo"));
                            (py "description", JNull)])])) as [report | e] eqn:E;
    [| vm_compute in E; discriminate].
  exists report. split; [reflexivity |].
  apply (null_description_breaks_creation sample_lower sample_repr sample_generate
           _ _ report
           [(py "name", JStr (py "demo")); (py "description", JNull)]
           (JStr (py "medium")) (JStr (py "feature")) (JStr (py "240 minutes"))
           None [] E).
  - reflexivity.
  - vm_compute. reflexivity.
Defined.

Lemma world_of_validate_and_collect_feedback
    (py_repr : json -> list N)
    (generate : list N -> prompt -> nat -> result (list N))
    (started_at : list N)
    (problem report : json) (w : list call) :
  match validate_and_collect_feedback py_repr generate started_at problem report w with
  | Returns _ w1 => exists request, w1 = w ++ [Call (py "qa_validator") request]
  | Raises _ w1 =>
      w1 = w \/ exists request, w1 = w ++ [Call (py "qa_validator") request]
  end.
Proof.
  destruct (validate_and_collect_feedback py_repr generate started_at problem report w)
    as [[validation context] w1 | e w1] eqn:E.
  - unfold validate_and_collect_feedback in E. sinv E.
    destruct x0 as [approved validation_result]. sinv E.
    unfold qa_validator in *.
    match goal with
    | Hv : validate_problem _ _ _ _ _ _ _ = Returns _ _ |- _ =>
        apply validate_problem_returns in Hv as (request & fields & _ & -> & _)
    end.
    inversion E; subst. exists request. reflexivity.
  - assert (Hw : world_of (validate_and_collect_feedback py_repr generate started_at
                             problem report w) = w1) by (rewrite E; reflexivity).
    clear E. unfold validate_and_collect_feedback in Hw.
    match type of Hw with
    | world_of (sbind (lift ?r) _ _) = _ => destruct r as [t | e']
    end; [| left; symmetry; exact Hw].
    rewrite sbind_lift_ok in Hw.
    rewrite world_of_sbind_quiet in Hw by (intros [approved validation]; quiet_tac).
    unfold qa_validator in Hw. rewrite world_of_validate_problem in Hw.
    destruct (validation_prompt py_repr problem report) as [request | e'].
    + right. exists request. symmetry. exact Hw.
    + left. symmetry. exact Hw.
Qed.

Lemma world_of_refine
    (py_repr : json -> list N)
    (generate : list N -> prompt -> nat -> result (list N))
    (started_at : list N)
    (problem report validation context : json) (w : list call) :
  world_of (refine py_repr generate started_at problem report validation context w) = w
  \/ exists request,
       world_of (refine py_repr generate started_at problem report validation context w)
       = w ++ [Call (py "problem_creator") request].
Proof.
  unfold refine.
  match goal with
  | |- world_of (sbind (lift ?r) _ _) = _ \/ _ => destruct r as [report' | e]
  end; [| left; reflexivity].
  rewrite sbind_lift_ok.
  match goal with
  | |- world_of (sbind (lift ?r) _ _) = _ \/ _ => destruct r as [difficulty | e]
  end; [| left; reflexivity].
  rewrite sbind_lift_ok.
  match goal with
  | |- world_of (sbind (lift ?r) _ _) = _ \/ _ => destruct r as [estimated_time | e]
  end; [| left; reflexivity].
  rewrite sbind_lift_ok.
  rewrite world_of_sbind_quiet by (intros improved; quiet_tac).
  rewrite world_of_create_problem.
  match goal with
  | |- match ?r with _ => _ end = _ \/ _ => destruct r as [request | e]
  end; [right; exists request; reflexivity | left; reflexivity].
Qed.

(** X12: in every run of [_validate_and_improve], returning or raising, the
    text-completion calls it adds are a prefix of: one validator call, then
    one creator call.  The problem is never validated a second time and
    the creator is never called before the validator. *)
Theorem validate_and_improve_calls_in_order
    (py_repr : json -> list N)
    (generate : list N -> prompt -> nat -> result (list N))
    (started_at : list N)
    (problem report : json) (w : list call) :
  exists calls,
    world_of (_validate_and_improve py_repr generate started_at problem report w)
    = w ++ calls
    /\ map agent calls `prefix_of` [py "qa_validator"; py "problem_creator"].
Proof.
  unfold _validate_and_improve. unfold sbind at 1.
  pose proof (world_of_validate_and_collect_feedback py_repr generate started_at
                problem report w) as Hfirst.
  destruct (validate_and_collect_feedback py_repr generate started_at problem report w)
    as [[validation context] w1 | e w1].
  - destruct Hfirst as [request ->].
    destruct (world_of_refine py_repr generate started_at problem report validation
                context
                (w ++ [Call (py "qa_validator") request])) as [-> | [request' ->]].
    + exists [Call (py "qa_validator") request]. split; [reflexivity |].
      exists [py "problem_creator"]. reflexivity.
    + exists [Call (py "qa_validator") request; Call (py "problem_creator") request'].
      rewrite <- app_assoc. split; [reflexivity |]. exists []. reflexivity.
  - destruct Hfirst as [-> | [request ->]].
    + exists []. rewrite app_nil_r. split; [reflexivity |].
      exists [py "qa_validator"; py "problem_creator"]. reflexivity.
    + exists [Call (py "qa_validator") request]. split; [reflexivity |].
      exists [py "problem_creator"]. reflexivity.
Qed.

(** ** The notification channel: queries, clearing, responses, dicts *)

Lemma index_consistent_run (calls : list a2a_call) : index_consistent (a2a_run calls).
Proof. apply index_consistent_run_from, index_consistent_init. Qed.

Lemma accepts_filter {A} (x : option (list N)) (f : A -> list N) (l : list A) :
  (if given x then filter (fun m => f m = default [] x) l else l)
  = filter (fun m => accepts x (f m) = true) l.
Proof.
  unfold accepts. destruct (given x).
  - apply list_filter_iff. intros m. rewrite bool_decide_eq_true. reflexivity.
  - symmetry. apply filter_all. apply Forall_forall. intros m _. reflexivity.
Qed.

(** X13: after any sequence of calls, [get_message_history] returns the
    history, in order, restricted to the messages that pass all three
    filters; a filter argument that is [None] or the empty string lets every
    message through. *)
Theorem message_history_is_filtered_by_all_arguments
    (calls : list a2a_call) (c s r : option (list N)) :
  get_message_history c s r (a2a_run calls)
  = filter (fun m => accepts r (recipient_id m) = true
                     /\ accepts s (sender_id m) = true
                     /\ accepts c (conversation_id m) = true)
      (message_history (a2a_run calls)).
Proof.
  pose proof (index_consistent_run calls) as Hinv.
  unfold get_message_history.
  set (self := a2a_run calls) in *.
  assert (Hconv : (if given c
                   then default [] (conversation_index self !! default [] c)
                   else message_history self)
                  = filter (fun m => accepts c (conversation_id m) = true)
                      (message_history self)).
  { rewrite <- accepts_filter. destruct (given c); [| reflexivity].
    apply (Hinv (default [] c)). }
  rewrite Hconv.
  rewrite (accepts_filter s sender_id), (accepts_filter r recipient_id).
  rewrite !list_filter_filter. apply list_filter_iff. intros m. tauto.
Qed.

Lemma dict_get_set_ne (d : list (list N * json)) (k k' : list N) (v : json) :
  k <> k' -> dict_get (dict_set d k v) k' = dict_get d k'.
Proof.
  intros Hne. induction d as [| [k0 v0] d IH]; simpl.
  - rewrite bool_decide_eq_false_2 by exact Hne. reflexivity.
  - destruct (decide (k0 = k)) as [-> | Hk].
    + rewrite bool_decide_eq_true_2 by reflexivity. simpl.
      rewrite bool_decide_eq_false_2 by exact Hne. reflexivity.
    + rewrite bool_decide_eq_false_2 by exact Hk. simpl.
      destruct (bool_decide (k0 = k')); [reflexivity | exact IH].
Qed.

Lemma dict_keys_set_new (d : list (list N * json)) (k : list N) (v : json) :
  dict_get d k = None -> dict_keys (dict_set d k v) = dict_keys d ++ [k].
Proof.
  induction d as [| [k0 v0] d IH]; simpl; [reflexivity |].
  destruct (decide (k0 = k)) as [-> | Hk].
  - rewrite bool_decide_eq_true_2 by reflexivity. discriminate.
  - rewrite bool_decide_eq_false_2 by exact Hk. intros Hnone. simpl.
    f_equal. apply IH, Hnone.
Qed.

Lemma indexed_log_message (message : A2AMessage) (self : A2AProtocol) (cid : list N) :
  indexed (_log_message message self) cid
  = if decide (conversation_id message = cid)
    then indexed self cid ++ [message]
    else indexed self cid.
Proof.
  unfold indexed, _log_message. simpl. rewrite lookup_alter.
  destruct (decide (conversation_id message = cid)) as [<- | Hne].
  - destruct (conversation_index self !! conversation_id message) eqn:E; simpl.
    + rewrite E. reflexivity.
    + rewrite lookup_insert_eq. reflexivity.
  - destruct (conversation_index self !! conversation_id message) eqn:E; simpl.
    + reflexivity.
    + rewrite lookup_insert_ne by exact Hne. reflexivity.
Qed.

(** X14: sending a message appends it to the history and to the entry of its
    conversation in the index, and leaves the entry of every other
    conversation as it was; a query for a non-empty conversation id sees the
    new message last. *)
Theorem sent_message_is_last_in_its_conversation
    (env : stamp) (sender sender_kind recipient : list N)
    (data : list (list N * json)) (cid kind : list N) (self : A2AProtocol) :
  let message := (send_message env sender sender_kind recipient data cid kind self).1 in
  let self' := (send_message env sender sender_kind recipient data cid kind self).2 in
  conversation_id message = cid
  /\ payload message = [(py "data", JObj data)]
  /\ message_history self' = message_history self ++ [message]
  /\ indexed self' cid = indexed self cid ++ [message]
  /\ (forall cid', cid' <> cid -> indexed self' cid' = indexed self cid')
  /\ (cid <> [] ->
      get_message_history (Some cid) None None self'
      = get_message_history (Some cid) None None self ++ [message]).
Proof.
  cbv zeta. unfold send_message. cbn [fst snd].
  split; [reflexivity |]. split; [reflexivity |]. split; [reflexivity |].
  split; [| split].
  - rewrite indexed_log_message. cbn [conversation_id].
    rewrite decide_True by reflexivity. reflexivity.
  - intros cid' Hne. rewrite indexed_log_message. cbn [conversation_id].
    rewrite decide_False by congruence. reflexivity.
  - intros Hcid. unfold get_message_history.
    assert (Hgiven : given (Some cid) = true) by (destruct cid; [contradiction | reflexivity]).
    rewrite Hgiven. cbn [given has_conversation default from_option id].
    match goal with
    | |- default [] (conversation_index (_log_message ?m self) !! cid) = _ =>
        change (indexed (_log_message m self) cid = indexed self cid ++ [m])
    end.
    rewrite indexed_log_message. cbn [conversation_id].
    rewrite decide_True by reflexivity. reflexivity.
Qed.

Lemma sent_message_is_last_in_its_conversation_witness :
  py "c1" <> []
  /\ get_message_history (Some (py "c1")) None None
       (send_message (sample_stamp 2) (py "a") (py "agent") (py "b") [] (py "c1")
          (py "request")
          (a2a_run [SendMessage (sample_stamp 1) (py "b") (py "agent") (py "a") []
                      (py "c1") (py "request")])).2
     = get_message_history (Some (py "c1")) None None
         (a2a_run [SendMessage (sample_stamp 1) (py "b") (py "agent") (py "a") []
                     (py "c1") (py "request")])
       ++ [(send_message (sample_stamp 2) (py "a") (py "agent") (py "b") [] (py "c1")
              (py "request")
              (a2a_run [SendMessage (sample_stamp 1) (py "b") (py "agent") (py "a") []
                          (py "c1") (py "request")])).1].
Proof.
  assert (Hne : py "c1" <> []) by discriminate.
  split; [exact Hne |].
  exact (proj2 (proj2 (proj2 (proj2 (proj2
           (sent_message_is_last_in_its_conversation (sample_stamp 2) (py "a")
              (py "agent") (py "b") [] (py "c1") (py "request")
              (a2a_run [SendMessage (sample_stamp 1) (py "b") (py "agent") (py "a") []
                          (py "c1") (py "request")])))))) Hne).
Defined.

(** X15: after any sequence of calls, clearing a non-empty conversation id
    removes exactly the messages of that conversation: the history keeps the
    others in order, a query for the cleared id returns nothing and a query
    for any other id returns what it did.  Clearing with [None] or with the
    empty string resets the whole channel. *)
Theorem clearing_removes_exactly_one_conversation
    (calls : list a2a_call) (cid : list N) :
  let self := a2a_run calls in
  (cid <> [] ->
   message_history (clear_history (Some cid) self)
   = filter (fun m => conversation_id m <> cid) (message_history self)
   /\ get_message_history (Some cid) None None (clear_history (Some cid) self) = []
   /\ (forall cid',
          cid' <> cid ->
          cid' <> [] ->
          get_message_history (Some cid') None None (clear_history (Some cid) self)
          = get_message_history (Some cid') None None self))
  /\ clear_history None self = a2a_init
  /\ clear_history (Some []) self = a2a_init.
Proof.
  cbv zeta. pose proof (index_consistent_run calls) as Hinv.
  set (self := a2a_run calls) in *.
  split; [| split; reflexivity].
  intros Hcid.
  assert (Hgiven : given (Some cid) = true)
    by (destruct cid; [contradiction | reflexivity]).
  assert (Hhistory : message_history (clear_history (Some cid) self)
                     = filter (fun m => conversation_id m <> cid) (message_history self)).
  { unfold clear_history. rewrite Hgiven. cbn [default from_option id].
    destruct (conversation_index self !! cid) as [l |] eqn:E; [reflexivity |].
    symmetry. apply filter_all. apply Forall_forall. intros m Hm Heq.
    pose proof (Hinv cid) as Hc. unfold indexed in Hc. rewrite E in Hc. simpl in Hc.
    assert (Hin : m ∈ filter (fun m => conversation_id m = cid) (message_history self))
      by (apply list_elem_of_filter; split; assumption).
    rewrite <- Hc in Hin. inversion Hin. }
  pose proof (index_consistent_clear (Some cid) self Hinv) as Hinv'.
  split; [exact Hhistory |]. split.
  - unfold get_message_history. rewrite Hgiven. cbn [given has_conversation].
    cbn [default from_option id].
    change (indexed (clear_history (Some cid) self) cid = []).
    rewrite (Hinv' cid), Hhistory, list_filter_filter.
    apply filter_none. intros m [H1 H2]. contradiction.
  - intros cid' Hne Hcid'. unfold get_message_history.
    assert (Hg : given (Some cid') = true)
      by (destruct cid'; [contradiction | reflexivity]).
    rewrite Hg. cbn [given has_conversation default from_option id].
    change (indexed (clear_history (Some cid) self) cid' = indexed self cid').
    rewrite (Hinv' cid'), (Hinv cid'), Hhistory, list_filter_filter.
    apply list_filter_iff. intros m. split; [tauto |].
    intros Hm. split; [exact Hm | congruence].
Qed.

Lemma clearing_removes_exactly_one_conversation_witness :
  py "c1" <> []
  /\ map message_id
       (message_history
          (clear_history (Some (py "c1"))
             (a2a_run
                [ SendMessage (sample_stamp 1) (py "a") (py "agent") (py "b") []
                    (py "c1") (py "request");
                  SendMessage (sample_stamp 2) (py "a") (py "agent") (py "b") []
                    (py "c2") (py "request");
                  SendMessage (sample_stamp 3) (py "b") (py "agent") (py "a") []
                    (py "c1") (py "response") ])))
     = [py "msg_2"].
Proof.
  assert (Hne : py "c1" <> []) by discriminate.
  split; [exact Hne |].
  rewrite (proj1 (proj1 (clearing_removes_exactly_one_conversation
                           [ SendMessage (sample_stamp 1) (py "a") (py "agent") (py "b")
                               [] (py "c1") (py "request");
                             SendMessage (sample_stamp 2) (py "a") (py "agent") (py "b")
                               [] (py "c2") (py "request");
                             SendMessage (sample_stamp 3) (py "b") (py "agent") (py "a")
                               [] (py "c1") (py "response") ]
                           (py "c1")) Hne)).
  vm_compute. reflexivity.
Defined.

(** X16: a response carries the identifier of the message it answers under
    [in_response_to], replacing any entry of that name in the data given;
    every other entry of the data is kept, and a new key goes last.  The
    message has type [response] and is logged like any other. *)
Theorem response_refers_to_original_message
    (env : stamp) (sender sender_kind recipient : list N)
    (data : list (list N * json)) (cid original : list N) (self : A2AProtocol) :
  let message :=
    (send_response env sender sender_kind recipient data cid original self).1 in
  exists response_data,
    payload message = [(py "data", JObj response_data)]
    /\ dict_get response_data (py "in_response_to") = Some (JStr original)
    /\ (forall k, k <> py "in_response_to" ->
                  dict_get response_data k = dict_get data k)
    /\ (dict_get data (py "in_response_to") = None ->
        dict_keys response_data = dict_keys data ++ [py "in_response_to"])
    /\ message_type message = py "response"
    /\ last (message_history
               (send_response env sender sender_kind recipient data cid original self).2)
       = Some message.
Proof.
  cbv zeta. unfold send_response, send_message. cbn [fst snd].
  exists (dict_set data (py "in_response_to") (JStr original)).
  split; [reflexivity |]. split; [apply dict_get_set_eq |].
  split; [intros k Hk; apply dict_get_set_ne; congruence |].
  split; [apply dict_keys_set_new |]. split; [reflexivity |].
  unfold _log_message. cbn [message_history]. apply last_snoc.
Qed.

Lemma response_refers_to_original_message_witness :
  dict_get [(py "in_response_to", JStr (py "stale")); (py "ok", JBool true)]
    (py "in_response_to") <> None
  /\ payload
       (send_response (sample_stamp 2) (py "b") (py "agent") (py "a")
          [(py "in_response_to", JStr (py "stale")); (py "ok", JBool true)]
          (py "c1") (py "msg_1") a2a_init).1
     = [(py "data",
         JObj [(py "in_response_to", JStr (py "msg_1")); (py "ok", JBool true)])].
Proof.
  split; [discriminate |].
  destruct (response_refers_to_original_message (sample_stamp 2) (py "b") (py "agent")
              (py "a")
              [(py "in_response_to", JStr (py "stale")); (py "ok", JBool true)]
              (py "c1") (py "msg_1") a2a_init)
    as (response_data & Hpayload & _).
  rewrite Hpayload. vm_compute in Hpayload. injection Hpayload as <-. reflexivity.
Defined.

(** X17: [from_dict] applied to [to_dict] of a message of the channel gives
    back every field of the message except the payload: the payload comes
    back as the dict that [to_dict] built, which holds the payload's [data]
    entry (an empty dict when it has none) and the added metadata, and no
    other entry of the original payload.  Neither default of [from_dict]
    (fresh identifier, current time) is used. *)
Theorem dict_round_trip_keeps_all_but_payload
    (env : stamp) (utcnow : list N) (m : A2AMessage) :
  exists args,
    from_dict env (JObj (to_dict utcnow m)) = Ok args
    /\ arg_protocol_version args = JStr (protocol_version m)
    /\ arg_message_id args = JStr (message_id m)
    /\ arg_sender_id args = JStr (sender_id m)
    /\ arg_sender_type args = JStr (sender_type m)
    /\ arg_recipient_id args = JStr (recipient_id m)
    /\ arg_message_type args = JStr (message_type m)
    /\ arg_timestamp args = JFloat (timestamp m)
    /\ arg_conversation_id args = JStr (conversation_id m)
    /\ arg_payload args
       = JObj [ (py "data", default (JObj []) (dict_get (payload m) (py "data")));
                (py "metadata",
                 JObj [ (py "conversation_id", JStr (conversation_id m));
                        (py "timestamp", JStr utcnow) ]) ]
    /\ (args = message_args m
        <-> payload m
            = [ (py "data", default (JObj []) (dict_get (payload m) (py "data")));
                (py "metadata",
                 JObj [ (py "conversation_id", JStr (conversation_id m));
                        (py "timestamp", JStr utcnow) ]) ]).
Proof.
  eexists. split; [reflexivity |].
  do 9 (split; [reflexivity |]).
  destruct m as [pv mid sid st rid mt ts pl cid]. unfold message_args. cbn.
  split.
  - intros [= Hpl]. symmetry. exact Hpl.
  - intros ->. reflexivity.
Qed.

Lemma dict_round_trip_keeps_all_but_payload_witness :
  exists args,
    from_dict (sample_stamp 9)
      (JObj (to_dict (py "2025-01-01T00:00:00")
               (send_message (sample_stamp 1) (py "a") (py "agent") (py "b")
                  [(py "status", JStr (py "ok"))] (py "c1") (py "request") a2a_init).1))
    = Ok args
    /\ arg_message_id args = JStr (py "msg_1")
    /\ arg_payload args
       = JObj [ (py "data", JObj [(py "status", JStr (py "ok"))]);
                (py "metadata",
                 JObj [ (py "conversation_id", JStr (py "c1"));
                        (py "timestamp", JStr (py "2025-01-01T00:00:00")) ]) ].
Proof.
  destruct (dict_round_trip_keeps_all_but_payload (sample_stamp 9)
              (py "2025-01-01T00:00:00")
              (send_message (sample_stamp 1) (py "a") (py "agent") (py "b")
                 [(py "status", JStr (py "ok"))] (py "c1") (py "request") a2a_init).1)
    as (args & Hargs & _ & Hid & _ & _ & _ & _ & _ & _ & Hpayload & _).
  exists args. split; [exact Hargs |]. split; [exact Hid | exact Hpayload].
Defined.

(** ** Response extractor: what is parsed *)

Lemma lstrip_suffix (s : list N) : exists a, s = a ++ lstrip s.
Proof.
  induction s as [| c s [a IH]]; [exists []; reflexivity |].
  simpl. destruct (isspace c).
  - exists (c :: a). simpl. f_equal. exact IH.
  - exists []. reflexivity.
Qed.

Lemma rstrip_prefix (s : list N) : exists b, s = rstrip s ++ b.
Proof.
  unfold rstrip. destruct (lstrip_suffix (rev s)) as [a Ha].
  exists (rev a). rewrite <- rev_app_distr, <- Ha, rev_involutive. reflexivity.
Qed.

(** One text is a contiguous piece of another. *)
Lemma piece_trans (s t u : list N) :
  (exists a b, t = a ++ s ++ b) -> (exists a b, u = a ++ t ++ b) ->
  exists a b, u = a ++ s ++ b.
Proof.
  intros (a & b & ->) (a' & b' & ->). exists (a' ++ a), (b ++ b').
  rewrite <- !app_assoc. reflexivity.
Qed.

Lemma piece_refl (s : list N) : exists a b, s = a ++ s ++ b.
Proof. exists [], []. rewrite app_nil_r. reflexivity. Qed.

Lemma strip_piece (s : list N) : exists a b, s = a ++ strip s ++ b.
Proof.
  unfold strip. destruct (lstrip_suffix s) as [a Ha].
  destruct (rstrip_prefix (lstrip s)) as [b Hb].
  exists a, b. rewrite <- Hb. exact Ha.
Qed.

Lemma lazy_until_fence_cons (c : N) (s : list N) :
  lazy_until_fence (c :: s)
  = if startswith fence (lstrip (c :: s)) then Some []
    else cons c <$> lazy_until_fence s.
Proof. reflexivity. Qed.

Lemma lazy_until_fence_prefix (s g : list N) :
  lazy_until_fence s = Some g -> exists b, s = g ++ b.
Proof.
  revert g. induction s as [| c s IH]; intros g.
  - discriminate.
  - rewrite lazy_until_fence_cons.
    destruct (startswith fence (lstrip (c :: s))).
    + intros [= <-]. exists (c :: s). reflexivity.
    + destruct (lazy_until_fence s) as [g' |]; [| discriminate].
      intros [= <-]. destruct (IH g' eq_refl) as [b ->]. exists b. reflexivity.
Qed.

Lemma search_fenced_piece (opening s g : list N) :
  search_fenced opening s = Some g -> exists a b, s = a ++ g ++ b.
Proof.
  unfold search_fenced. destruct (find opening s) as [i |]; [| discriminate].
  intros H. apply lazy_until_fence_prefix in H as [b Hb].
  destruct (lstrip_suffix (drop (i + length opening) s)) as [a Ha].
  exists (take (i + length opening) s ++ a), b.
  rewrite <- app_assoc, <- Hb, <- Ha. symmetry. apply take_drop.
Qed.

Lemma strip_code_block_piece (response : list N) :
  exists a b, response = a ++ strip_code_block response ++ b.
Proof.
  unfold strip_code_block.
  destruct (contains json_fence (strip response)).
  - destruct (search_fenced json_fence (strip response)) as [g |] eqn:E;
      [| apply strip_piece].
    eapply piece_trans; [apply strip_piece |].
    eapply piece_trans; [apply (search_fenced_piece _ _ _ E) | apply strip_piece].
  - destruct (contains fence (strip response)); [| apply strip_piece].
    destruct (search_fenced fence (strip response)) as [g |] eqn:E;
      [| apply strip_piece].
    eapply piece_trans; [apply strip_piece |].
    eapply piece_trans; [apply (search_fenced_piece _ _ _ E) | apply strip_piece].
Qed.

Lemma recovered_piece (s : list N) :
  exists a b, s = a ++ truncate_at_last_valid (from_first_brace s) ++ b.
Proof.
  eapply piece_trans with (t := from_first_brace s).
  - unfold truncate_at_last_valid.
    destruct (bool_decide _ && bool_decide _); [| apply piece_refl].
    exists [], (drop (last_valid_pos (from_first_brace s)) (from_first_brace s)).
    simpl. symmetry. apply take_drop.
  - unfold from_first_brace. destruct (find (py "{") s) as [i |]; [| apply piece_refl].
    exists (take i s), []. rewrite app_nil_r. symmetry. apply take_drop.
Qed.

(** X18: the extractor invents nothing: whatever it returns, other than
    [None], is the value [json.loads] gives for some contiguous piece of the
    response. *)
Theorem extracted_value_is_parsed_from_a_piece_of_the_response
    (response : list N) (v : json) :
  extract_json_from_response response = Ok v ->
  v = JNull
  \/ exists before text after,
       response = before ++ text ++ after /\ json_loads text = Ok v.
Proof.
  unfold extract_json_from_response. intros H.
  destruct (try_except_cases (json_loads (strip_code_block response))
              (try_except_JSONDecodeError
                 (json_loads (truncate_at_last_valid
                                (from_first_brace (strip_code_block response))))
                 (Ok JNull)))
    as [(a & Ha & Hr) | [[Ha Hr] | (e & He & Ha)]].
  - rewrite Hr in H. injection H as <-. right.
    destruct (strip_code_block_piece response) as (before & after & Hpiece).
    exists before, (strip_code_block response), after. split; assumption.
  - rewrite Hr in H. clear Hr.
    destruct (try_except_cases
                (json_loads (truncate_at_last_valid
                               (from_first_brace (strip_code_block response))))
                (Ok JNull))
      as [(a & Ha' & Hr) | [[Ha' Hr] | (e & He & Ha')]].
    + rewrite Hr in H. injection H as <-. right.
      destruct (piece_trans _ _ _ (recovered_piece (strip_code_block response))
                  (strip_code_block_piece response)) as (before & after & Hpiece).
      eexists before, _, after. split; [exact Hpiece | exact Ha'].
    + rewrite Hr in H. injection H as <-. left. reflexivity.
    + destruct (json_loads_cases
                  (truncate_at_last_valid
                     (from_first_brace (strip_code_block response))))
        as [[x Hx] | Hx]; congruence.
  - destruct (json_loads_cases (strip_code_block response)) as [[x Hx] | Hx]; congruence.
Qed.

Lemma extracted_value_is_parsed_from_a_piece_of_the_response_witness :
  extract_json_from_response (js "Here you go: {'a': 1} Hope it helps {")
  = Ok (JObj [(py "a", JInt 1)])
  /\ (JObj [(py "a", JInt 1)] = JNull
      \/ exists before text after,
           js "Here you go: {'a': 1} Hope it helps {" = before ++ text ++ after
           /\ json_loads text = Ok (JObj [(py "a", JInt 1)])).
Proof.
  split; [vm_compute; reflexivity |].
  apply (extracted_value_is_parsed_from_a_piece_of_the_response
           (js "Here you go: {'a': 1} Hope it helps {")).
  vm_compute. reflexivity.
Defined.

(** *** Fenced blocks *)

Lemma startswith_app (p r : list N) : startswith p (p ++ r) = true.
Proof.
  induction p as [| c p IH]; [reflexivity |].
  simpl. rewrite N.eqb_refl. exact IH.
Qed.

Lemma startswith_prefix (p q s : list N) :
  startswith (p ++ q) s = true -> startswith p s = true.
Proof.
  revert s. induction p as [| c p IH]; intros s; [reflexivity |].
  destruct s as [| d s]; simpl; [discriminate |].
  intros H. apply andb_true_iff in H as [H1 H2].
  rewrite H1. simpl. apply IH, H2.
Qed.

Lemma find_prefix (p q s : list N) :
  is_Some (find (p ++ q) s) -> is_Some (find p s).
Proof.
  induction s as [| c s IH].
  - destruct p as [| a p]; [intros _; eexists; reflexivity |].
    simpl. intros [x Hx]. discriminate.
  - intros [i Hi].
    destruct (startswith p (c :: s)) eqn:Hp.
    + exists 0%nat. destruct p; simpl in *; rewrite ?Hp; reflexivity.
    + assert (Hpq : startswith (p ++ q) (c :: s) = false).
      { destruct (startswith (p ++ q) (c :: s)) eqn:E; [| reflexivity].
        apply startswith_prefix in E. congruence. }
      assert (Hfind : forall x, find x (c :: s)
                                = if startswith x (c :: s) then Some 0%nat
                                  else S <$> find x s)
        by (intros x; destruct x; reflexivity).
      rewrite Hfind, Hpq in Hi. rewrite Hfind, Hp.
      destruct (find (p ++ q) s) as [j |] eqn:Ej; [| discriminate].
      destruct IH as [k Hk]; [eexists; reflexivity |].
      rewrite Hk. eexists. reflexivity.
Qed.

Lemma no_fence_no_json_fence (s : list N) :
  contains fence s = false -> contains json_fence s = false.
Proof.
  unfold contains. intros H. apply bool_decide_eq_false in H.
  apply bool_decide_eq_false. intros Hjson. apply H.
  apply (find_prefix fence (py "json")). exact Hjson.
Qed.

(** X19: a response without a code fence is parsed as it is, stripped of
    surrounding whitespace: when that text is valid JSON, its value is what
    the extractor returns. *)
Theorem unfenced_json_is_returned_as_parsed (response : list N) (v : json) :
  contains fence (strip response) = false ->
  json_loads (strip response) = Ok v ->
  strip_code_block response = strip response
  /\ extract_json_from_response response = Ok v.
Proof.
  intros Hfence Hloads.
  assert (Hblock : strip_code_block response = strip response).
  { unfold strip_code_block.
    rewrite (no_fence_no_json_fence _ Hfence), Hfence. reflexivity. }
  split; [exact Hblock |].
  unfold extract_json_from_response. rewrite Hblock, Hloads. reflexivity.
Qed.

Lemma unfenced_json_is_returned_as_parsed_witness :
  extract_json_from_response (js "  {'score': 90, 'tags': ['a', 'b']}  ")
  = Ok (JObj [ (py "score", JInt 90);
               (py "tags", JArr [JStr (py "a"); JStr (py "b")]) ]).
Proof.
  apply (unfenced_json_is_returned_as_parsed
           (js "  {'score': 90, 'tags': ['a', 'b']}  ")).
  - vm_compute. reflexivity.
  - vm_compute. reflexivity.
Defined.

Lemma lstrip_app_nonspace (a r : list N) (c : N) :
  isspace c = false -> lstrip (a ++ c :: r) = lstrip a ++ c :: r.
Proof.
  intros Hc. induction a as [| x a IH]; simpl.
  - rewrite Hc. reflexivity.
  - destruct (isspace x); [exact IH | reflexivity].
Qed.

Lemma rstrip_app_nonspace (a b : list N) (c : N) :
  isspace c = false -> rstrip (a ++ c :: b) = a ++ c :: rstrip b.
Proof.
  intros Hc. unfold rstrip.
  rewrite rev_app_distr. simpl rev. rewrite <- app_assoc. simpl app.
  rewrite (lstrip_app_nonspace (rev b) (rev a) c Hc).
  rewrite rev_app_distr. simpl rev. rewrite rev_involutive, <- app_assoc. reflexivity.
Qed.

Lemma lstrip_all_space (a r : list N) :
  forallb isspace a = true -> lstrip (a ++ r) = lstrip r.
Proof.
  induction a as [| x a IH]; [reflexivity |].
  simpl. intros H. apply andb_true_iff in H as [Hx Ha].
  rewrite Hx. apply IH, Ha.
Qed.

Lemma rstrip_all_space (g ws : list N) :
  forallb isspace ws = true -> rstrip (g ++ ws) = rstrip g.
Proof.
  intros H. unfold rstrip. rewrite rev_app_distr. f_equal.
  apply lstrip_all_space. rewrite forallb_forall in *.
  intros x Hx. apply H. apply in_rev. exact Hx.
Qed.

Lemma lstrip_length (s : list N) : (length (lstrip s) <= length s)%nat.
Proof.
  induction s as [| c s IH]; simpl; [lia |].
  destruct (isspace c); simpl; lia.
Qed.

Lemma lstrip_fixed_prefix (g ws : list N) :
  lstrip (g ++ ws) = g ++ ws -> lstrip g = g.
Proof.
  destruct g as [| c g]; [reflexivity |].
  simpl. destruct (isspace c); [| reflexivity].
  intros H. pose proof (lstrip_length (g ++ ws)) as Hlen.
  rewrite H in Hlen. simpl in Hlen. lia.
Qed.

Lemma lstrip_idem (s : list N) : lstrip (lstrip s) = lstrip s.
Proof.
  induction s as [| c s IH]; [reflexivity |].
  simpl. destruct (isspace c) eqn:E; [exact IH |].
  simpl. rewrite E. reflexivity.
Qed.

Lemma lstrip_Forall (P : N -> Prop) (s : list N) : Forall P s -> Forall P (lstrip s).
Proof.
  induction 1 as [| c s Hc Hs IH]; simpl; [constructor |].
  destruct (isspace c); [exact IH | constructor; assumption].
Qed.

Lemma find_after_clean_prefix (a r p : list N) (c : N) :
  Forall (fun x => x <> c) a ->
  find (c :: p) (a ++ (c :: p) ++ r) = Some (length a).
Proof.
  induction 1 as [| x a Hx _ IH].
  - change ([] ++ (c :: p) ++ r) with ((c :: p) ++ r).
    assert (Hs : startswith (c :: p) ((c :: p) ++ r) = true) by apply startswith_app.
    simpl in *. rewrite Hs. reflexivity.
  - simpl. replace (c =? x) with false by (symmetry; apply N.eqb_neq; congruence).
    simpl. simpl in IH. rewrite IH. reflexivity.
Qed.

Lemma startswith_fence_clean (x : N) (r : list N) :
  x <> 96 -> startswith fence (x :: r) = false.
Proof.
  intros Hx. change (startswith fence (x :: r))
    with ((96 =? x) && startswith (py "``") r).
  replace (96 =? x) with false by (symmetry; apply N.eqb_neq; congruence).
  reflexivity.
Qed.

Lemma no_fence_after_lstrip (l t : list N) :
  Forall (fun x => x <> 96) l ->
  forallb isspace l = false ->
  startswith fence (lstrip (l ++ fence ++ t)) = false.
Proof.
  induction 1 as [| x l Hx _ IH]; [discriminate |].
  change ((x :: l) ++ fence ++ t) with (x :: (l ++ fence ++ t)).
  cbn [lstrip forallb]. destruct (isspace x).
  - exact IH.
  - intros _. apply startswith_fence_clean, Hx.
Qed.

(** The lazy group of the fence pattern, on a text whose part before the
    closing fence has no backtick: the group is that part without its
    trailing whitespace. *)
Lemma lazy_until_fence_clean (b t : list N) :
  Forall (fun x => x <> 96) b ->
  exists g ws,
    lazy_until_fence (b ++ fence ++ t) = Some g
    /\ b = g ++ ws
    /\ forallb isspace ws = true.
Proof.
  induction 1 as [| c b Hc Hb IH].
  - exists [], []. split; [reflexivity |]. split; reflexivity.
  - destruct (forallb isspace (c :: b)) eqn:Hspace.
    + exists [], (c :: b). split; [| split; [reflexivity | exact Hspace]].
      change ((c :: b) ++ fence ++ t) with (c :: (b ++ fence ++ t)).
      rewrite lazy_until_fence_cons.
      change (c :: (b ++ fence ++ t)) with ((c :: b) ++ fence ++ t).
      rewrite (lstrip_all_space _ _ Hspace).
      reflexivity.
    + destruct IH as (g & ws & Hg & -> & Hws).
      exists (c :: g), ws. split; [| split; [reflexivity | exact Hws]].
      change ((c :: g ++ ws) ++ fence ++ t) with (c :: ((g ++ ws) ++ fence ++ t)).
      rewrite lazy_until_fence_cons, Hg.
      assert (Hstart : startswith fence (lstrip (c :: (g ++ ws) ++ fence ++ t)) = false).
      { apply (no_fence_after_lstrip (c :: g ++ ws) t); [| exact Hspace].
        constructor; assumption. }
      rewrite Hstart. reflexivity.
Qed.

(** X20: in a response that opens a [```json] fence and closes it, with no
    backtick before the fence or inside the block, the text that goes to
    the parser is the content of the block, stripped of surrounding
    whitespace, whatever precedes or follows the block. *)
Theorem fenced_json_block_is_what_gets_parsed (pre body post : list N) :
  Forall (fun c => c <> 96) pre ->
  Forall (fun c => c <> 96) body ->
  strip_code_block (pre ++ json_fence ++ body ++ fence ++ post) = strip body
  /\ forall v,
       json_loads (strip body) = Ok v ->
       extract_json_from_response (pre ++ json_fence ++ body ++ fence ++ post) = Ok v.
Proof.
  intros Hpre Hbody.
  assert (Hblock : strip_code_block (pre ++ json_fence ++ body ++ fence ++ post)
                   = strip body).
  { unfold strip_code_block.
    assert (Hstrip : strip (pre ++ json_fence ++ body ++ fence ++ post)
                     = lstrip pre ++ json_fence ++ body ++ fence ++ rstrip post).
    { unfold strip.
      change (json_fence ++ body ++ fence ++ post)
        with (96 :: (py "``json" ++ body ++ fence ++ post)).
      rewrite lstrip_app_nonspace by reflexivity.
      change (96 :: (py "``json" ++ body ++ fence ++ post))
        with (json_fence ++ body ++ fence ++ post).
      replace (lstrip pre ++ json_fence ++ body ++ fence ++ post)
        with ((lstrip pre ++ json_fence ++ body ++ py "``") ++ 96 :: post)
        by (rewrite <- !app_assoc; reflexivity).
      rewrite rstrip_app_nonspace by reflexivity.
      rewrite <- !app_assoc. reflexivity. }
    rewrite Hstrip.
    assert (Hfind : find json_fence
                      (lstrip pre ++ json_fence ++ body ++ fence ++ rstrip post)
                    = Some (length (lstrip pre))).
    { apply (find_after_clean_prefix (lstrip pre) (body ++ fence ++ rstrip post)
               (py "``json") 96).
      apply lstrip_Forall, Hpre. }
    unfold contains. rewrite Hfind.
    rewrite bool_decide_eq_true_2 by (eexists; reflexivity).
    unfold search_fenced. rewrite Hfind.
    replace (drop (length (lstrip pre) + length json_fence)
               (lstrip pre ++ json_fence ++ body ++ fence ++ rstrip post))
      with (body ++ fence ++ rstrip post).
    2:{ rewrite <- drop_drop, drop_app_length.
        change (json_fence ++ body ++ fence ++ rstrip post)
          with (json_fence ++ (body ++ fence ++ rstrip post)).
        rewrite drop_app_length. reflexivity. }
    change (fence ++ rstrip post) with (96 :: (py "``" ++ rstrip post)).
    rewrite lstrip_app_nonspace by reflexivity.
    change (96 :: (py "``" ++ rstrip post)) with (fence ++ rstrip post).
    destruct (lazy_until_fence_clean (lstrip body) (rstrip post)
                (lstrip_Forall _ _ Hbody)) as (g & ws & Hg & Hsplit & Hws).
    rewrite Hg. unfold strip.
    assert (Hfixed : lstrip g = g).
    { apply (lstrip_fixed_prefix g ws). rewrite <- Hsplit. apply lstrip_idem. }
    rewrite Hfixed, Hsplit. symmetry. apply rstrip_all_space, Hws. }
  split; [exact Hblock |].
  intros v Hloads. unfold extract_json_from_response. rewrite Hblock, Hloads.
  reflexivity.
Qed.

Lemma fenced_json_block_is_what_gets_parsed_witness :
  extract_json_from_response
    (py "Sure! Here is the JSON:" ++ [10] ++ json_fence ++ [10]
     ++ js "{'title': 'T'}" ++ [10] ++ fence ++ [10] ++ py "Anything else? {")
  = Ok (titled "T").
Proof.
  apply (proj2 (fenced_json_block_is_what_gets_parsed
                  (py "Sure! Here is the JSON:" ++ [10])
                  ([10] ++ js "{'title': 'T'}" ++ [10])
                  ([10] ++ py "Anything else? {")
                  ltac:(vm_compute; repeat constructor; discriminate)
                  ltac:(vm_compute; repeat constructor; discriminate))).
  vm_compute. reflexivity.
Defined.

(** ** Code and PR analyzers *)

(** X21: the PR analyzer reads the pull requests under the key
    [pullRequests] only: the entry [pull_requests], under which the GitHub
    client stores them, never reaches the prompt or changes the run, and
    without a [pullRequests] entry the prompt lists no pull request. *)
Theorem pr_analyzer_never_reads_pull_requests
    (py_repr : json -> list N)
    (generate : list N -> prompt -> nat -> result (list N))
    (fields : list (list N * json)) (prs : json) :
  pr_prompt py_repr (JObj (dict_set fields (py "pull_requests") prs))
  = pr_prompt py_repr (JObj fields)
  /\ (forall cid w,
         pr_analyze py_repr generate (JObj (dict_set fields (py "pull_requests") prs))
           cid w
         = pr_analyze py_repr generate (JObj fields) cid w)
  /\ (dict_get fields (py "pullRequests") = None ->
      forall text,
        pr_prompt py_repr (JObj (dict_set fields (py "pull_requests") prs)) = Ok text ->
        exists name, text = pr_prompt_text name (py "[]")).
Proof.
  assert (Hprompt : pr_prompt py_repr (JObj (dict_set fields (py "pull_requests") prs))
                    = pr_prompt py_repr (JObj fields)).
  { unfold pr_prompt. cbn [py_get].
    rewrite !dict_get_set_ne by discriminate. reflexivity. }
  split; [exact Hprompt |]. split.
  - intros cid w. unfold pr_analyze. rewrite Hprompt. reflexivity.
  - intros Hnone text. rewrite Hprompt. unfold pr_prompt. cbn [py_get].
    rewrite Hnone. cbn [default from_option id rbind py_slice_to take].
    intros H. rinv H. injection H as <-. eexists. reflexivity.
Qed.

Lemma pr_analyzer_never_reads_pull_requests_witness :
  dict_get [(py "repository", JObj [(py "name", JStr (py "demo"))])] (py "pullRequests")
  = None
  /\ pr_prompt sample_repr
       (JObj [ (py "repository", JObj [(py "name", JStr (py "demo"))]);
               (py "pull_requests",
                JArr [JObj [(py "number", JInt 7); (py "title", JStr (py "Fix"))]]) ])
     = Ok (pr_prompt_text (py "demo") (py "[]")).
Proof.
  split; [reflexivity |].
  destruct (pr_prompt sample_repr
              (JObj (dict_set [(py "repository", JObj [(py "name", JStr (py "demo"))])]
                       (py "pull_requests")
                       (JArr [JObj [(py "number", JInt 7);
                                    (py "title", JStr (py "Fix"))]]))))
    as [text | e] eqn:E; [| vm_compute in E; discriminate].
  destruct (proj2 (proj2 (pr_analyzer_never_reads_pull_requests sample_repr
                            sample_generate
                            [(py "repository", JObj [(py "name", JStr (py "demo"))])]
                            (JArr [JObj [(py "number", JInt 7);
                                         (py "title", JStr (py "Fix"))]])))
              eq_refl text E) as [name Hname].
  change (pr_prompt sample_repr
            (JObj (dict_set [(py "repository", JObj [(py "name", JStr (py "demo"))])]
                     (py "pull_requests")
                     (JArr [JObj [(py "number", JInt 7);
                                  (py "title", JStr (py "Fix"))]])))
          = Ok (pr_prompt_text (py "demo") (py "[]"))).
  rewrite E. vm_compute in E. injection E as <-. reflexivity.
Defined.

(** X22: when the model's output cannot be used, the code analyzer and the
    PR analyzer return their failure records, after the one call: the code
    analyzer's record claims a quality score of 50 and keeps the first 500
    characters of the output, the PR analyzer's record has no suggestion. *)
Theorem failure_records_of_code_and_pr_analyzers
    (py_repr : json -> list N)
    (generate : list N -> prompt -> nat -> result (list N))
    (response : list N) (v : json) (cid : option (list N)) (w : list call) :
  extract_json_from_response response = Ok v ->
  decoded_ok v = Ok false ->
  exists error_msg,
    error_message v = Ok error_msg
    /\ (forall repo_data text,
           code_prompt py_repr repo_data = Ok text ->
           generate (py "code_analyzer") (Text text) (length w) = Ok response ->
           code_analyze py_repr generate repo_data cid w
           = Returns (code_default error_msg response)
               (w ++ [Call (py "code_analyzer") (Text text)]))
    /\ (forall repo_data text,
           pr_prompt py_repr repo_data = Ok text ->
           generate (py "pr_analyzer") (Text text) (length w) = Ok response ->
           pr_analyze py_repr generate repo_data cid w
           = Returns (pr_default error_msg)
               (w ++ [Call (py "pr_analyzer") (Text text)]))
    /\ (let! quality := py_index (code_default error_msg response) (py "code_quality") in
        py_index quality (py "score")) = Ok (JInt 50)
    /\ py_index (code_default error_msg response) (py "raw_response")
       = Ok (JStr (take 500 response))
    /\ py_index (pr_default error_msg) (py "suggested_problems") = Ok (JArr []).
Proof.
  intros Hextract Hdecoded.
  destruct (error_message_of_failed v Hdecoded) as [error_msg Herror].
  exists error_msg. split; [exact Herror |]. split; [| split].
  - intros repo_data text Hprompt Hgen. unfold code_analyze.
    rewrite Hprompt, sbind_lift_ok, (sbind_run_ok _ _ _ _ _ _ Hgen).
    rewrite Hextract, sbind_lift_ok, Hdecoded, sbind_lift_ok, Herror, sbind_lift_ok.
    reflexivity.
  - intros repo_data text Hprompt Hgen. unfold pr_analyze.
    rewrite Hprompt, sbind_lift_ok, (sbind_run_ok _ _ _ _ _ _ Hgen).
    rewrite Hextract, sbind_lift_ok, Hdecoded, sbind_lift_ok, Herror, sbind_lift_ok.
    reflexivity.
  - split; [reflexivity |]. split; reflexivity.
Qed.

Lemma failure_records_of_code_and_pr_analyzers_witness :
  pr_analyze sample_repr (fun _ _ _ => Ok (py "No pull requests to analyze."))
    (JObj []) None []
  = Returns (pr_default (JStr (py "Failed to extract JSON")))
      [Call (py "pr_analyzer") (Text (pr_prompt_text (py "Unknown") (py "[]")))].
Proof.
  destruct (failure_records_of_code_and_pr_analyzers sample_repr
              (fun _ _ _ => Ok (py "No pull requests to analyze."))
              (py "No pull requests to analyze.") JNull None []
              ltac:(vm_compute; reflexivity) ltac:(reflexivity))
    as (error_msg & Herror & _ & Hpr & _).
  injection Herror as <-.
  apply Hpr; [vm_compute; reflexivity | reflexivity].
Defined.

(** X23: the failure records of the four analyzers pass synthesis: the
    report has no ranked suggestion, and its profile carries the code
    analyzer's placeholder quality record (score 50) and the dependency
    analyzer's placeholder tech stack. *)
Theorem failure_records_synthesize_without_suggestions
    (unicode_lower : list N -> list N)
    (code_error pr_error issue_error dep_error timestamp : json) (response : list N)
    (repo_data : list (list N * json)) (repository : list (list N * json))
    (readme summary : json) :
  default (JObj []) (dict_get repo_data (py "repository")) = JObj repository ->
  default (JStr []) (dict_get repo_data (py "readme")) = readme ->
  py_slice_to 500 readme = Ok summary ->
  exists report,
    _synthesize_single_report unicode_lower
      (JObj [ (py "code_analysis", code_default code_error response);
              (py "pr_analysis", pr_default pr_error);
              (py "issue_analysis", issue_default issue_error);
              (py "dependency_analysis", dependency_default dep_error);
              (py "timestamp", timestamp) ])
      (JObj repo_data)
    = Ok report
    /\ py_index report (py "ranked_suggestions") = Ok (JArr [])
    /\ (let! profile := py_index report (py "repository_profile") in
        py_index profile (py "quality"))
       = Ok (JObj [ (py "score", JInt 50); (py "strengths", JArr []);
                    (py "weaknesses", JArr [JStr (py "Unable to analyze")]) ])
    /\ (let! profile := py_index report (py "repository_profile") in
        py_index profile (py "tech_stack"))
       = Ok (JObj [ (py "frameworks", JArr []); (py "libraries", JArr []);
                    (py "runtime", JStr (py "Unknown")); (py "build_tools", JArr []) ])
    /\ py_index report (py "readme_summary") = Ok summary.
Proof.
  intros Hrepository Hreadme Hsummary.
  eexists. split.
  - unfold _synthesize_single_report.
    cbn [py_get]. rewrite Hrepository, Hreadme.
    cbn -[py_slice_to]. rewrite Hsummary. cbn. reflexivity.
  - split; [reflexivity |]. split; [reflexivity |]. split; reflexivity.
Qed.

Lemma failure_records_synthesize_without_suggestions_witness :
  exists report,
    _synthesize_single_report sample_lower
      (JObj [ (py "code_analysis",
               code_default (JStr (py "Failed to extract JSON")) (py "Sorry."));
              (py "pr_analysis", pr_default (JStr (py "Failed to extract JSON")));
              (py "issue_analysis", issue_default (JStr (py "Failed to extract JSON")));
              (py "dependency_analysis",
               dependency_default (JStr (py "Failed to extract JSON")));
              (py "timestamp", JStr (py "2025-01-01T00:00:00")) ])
      (JObj sample_repo_data)
    = Ok report
    /\ py_index report (py "ranked_suggestions") = Ok (JArr []).
Proof.
  destruct (failure_records_synthesize_without_suggestions sample_lower
              (JStr (py "Failed to extract JSON")) (JStr (py "Failed to extract JSON"))
              (JStr (py "Failed to extract JSON")) (JStr (py "Failed to extract JSON"))
              (JStr (py "2025-01-01T00:00:00")) (py "Sorry.") sample_repo_data
              [(py "name", JStr (py "demo")); (py "language", JStr (py "Python"))]
              (JStr (py "# Demo")) (JStr (py "# Demo"))
              ltac:(reflexivity) ltac:(reflexivity) ltac:(reflexivity))
    as (report & Hreport & Hranked & _).
  exists report. split; assumption.
Defined.

(** ** Orchestrator, step 6 *)

Lemma rmap_ok {A B} (f : A -> result B) (l : list A) :
  Forall (fun x => exists y, f x = Ok y) l -> exists ys, rmap f l = Ok ys.
Proof.
  induction 1 as [| x l [y Hy] _ [ys IH]]; [exists []; reflexivity |].
  exists (y :: ys). simpl. rewrite Hy. cbn [rbind]. rewrite IH. reflexivity.
Qed.

(** A suggestion that has a dedup key has a title that can be printed. *)
Lemma keyed_suggestion_prints
    (unicode_lower : list N -> list N) (suggestion : json) (key : list N) :
  title_key unicode_lower suggestion = Ok key ->
  exists shown,
    (let! title := py_get suggestion (py "title") (JStr (py "N/A")) in
     py_slice_to 70 title) = Ok shown.
Proof.
  unfold title_key. intros H. rinv H.
  destruct (py_get_ok_dict _ _ _ _ E) as [fields ->]. cbn [py_get] in *.
  injection E as <-.
  destruct (dict_get fields (py "title")) as [title |]; cbn [default from_option id] in *.
  - destruct title; try discriminate. eexists. reflexivity.
  - eexists. reflexivity.
Qed.

(** X24: on a synthesized report, when the creator's output cannot be
    used, [_create_problem] does not raise: it returns the creator's
    failure record as the problem, after the one creator call.  Nothing marks
    the failure for the next step: the validation prompt built from the
    record presents it as a problem titled "Error Creating Problem" with no
    requirement. *)
Theorem failed_creation_is_returned_as_a_problem
    (py_repr : json -> list N)
    (generate : list N -> prompt -> nat -> result (list N))
    (started_at : list N) (unicode_lower : list N -> list N)
    (analysis_data repo_data report difficulty time_limit problem_type : json)
    (request : prompt) (response : list N) (v : json) (w : list call) :
  _synthesize_single_report unicode_lower analysis_data repo_data = Ok report ->
  creator_prompt py_repr report difficulty problem_type
    (JStr (py_str py_repr time_limit ++ py " minutes")) = Ok request ->
  generate (py "problem_creator") request (length w) = Ok response ->
  extract_json_from_response response = Ok v ->
  decoded_ok v = Ok false ->
  exists error_msg,
    error_message v = Ok error_msg
    /\ _create_problem py_repr generate started_at report difficulty time_limit
         problem_type w
       = Returns (creation_default error_msg response)
           (w ++ [Call (py "problem_creator") request])
    /\ validation_prompt py_repr (creation_default error_msg response) report
       = Ok (Template ValidationTemplate
               [ py "Error Creating Problem"; py "Failed to generate valid problem";
                 py_repr (JArr []); py "N/A"; py "0"; py "0"; py "0" ]).
Proof.
  intros Hsynth Hprompt Hgen Hextract Hdecoded.
  destruct (error_message_of_failed v Hdecoded) as [error_msg Herror].
  exists error_msg. split; [exact Herror |].
  destruct (synthesize_single_report_ok _ _ _ _ Hsynth)
    as (code & pr & issue & dep & repository & pr_items & issue_items & ranked
        & readme & summary & _ & _ & _ & _ & _ & _ & _ & Hrank & _ & _ & Hreport).
  destruct (rank_suggestions_ok_kept _ _ _ Hrank)
    as (keys & kept & -> & _ & _ & Hkeys & _ & _).
  assert (Hshown : exists shown,
             rmap (fun sugg =>
                     let! title := py_get sugg (py "title") (JStr (py "N/A")) in
                     py_slice_to 70 title)
               (take 3 (take 10 kept.*2)) = Ok shown).
  { apply rmap_ok. apply Forall_take, Forall_take, Forall_fmap.
    eapply Forall_impl; [exact Hkeys |].
    intros [key suggestion] Hkey. exact (keyed_suggestion_prints _ _ _ Hkey). }
  destruct Hshown as [shown Hshown].
  assert (Hcreate : create_problem py_repr generate report difficulty problem_type
                      (JStr (py_str py_repr time_limit ++ py " minutes"))
                      (Some (self_conversation_id started_at)) w
                    = Returns (creation_default error_msg response)
                        (w ++ [Call (py "problem_creator") request])).
  { unfold create_problem.
    rewrite Hprompt, sbind_lift_ok, (sbind_run_ok _ _ _ _ _ _ Hgen).
    rewrite Hextract, sbind_lift_ok, Hdecoded, sbind_lift_ok, Herror, sbind_lift_ok.
    reflexivity. }
  split.
  - unfold _create_problem.
    assert (Hranked : py_get report (py "ranked_suggestions") (JArr [])
                      = Ok (JArr (take 10 kept.*2)))
      by (rewrite Hreport; reflexivity).
    rewrite Hranked. cbn [rbind py_len]. rewrite !sbind_lift_ok.
    assert (Hprint : (if py_truthy (JArr (take 10 kept.*2))
                      then
                        let! head := py_slice_to 3 (JArr (take 10 kept.*2)) in
                        let! items := py_iter head in
                        let! _ :=
                          rmap (fun sugg =>
                                  let! title :=
                                    py_get sugg (py "title") (JStr (py "N/A")) in
                                  py_slice_to 70 title) items in
                        Ok tt
                      else Ok tt) = Ok tt).
    { destruct (py_truthy (JArr (take 10 kept.*2))); [| reflexivity].
      cbn [py_slice_to py_iter rbind]. rewrite Hshown. reflexivity. }
    rewrite Hprint, sbind_lift_ok.
    unfold sbind at 1. rewrite Hcreate.
    reflexivity.
  - rewrite Hreport. reflexivity.
Qed.

Lemma failed_creation_is_returned_as_a_problem_witness :
  exists report,
    _synthesize_single_report sample_lower (sample_analysis [titled "A"] [])
      (JObj sample_repo_data) = Ok report
    /\ _create_problem sample_repr (fun _ _ _ => Ok (py "I cannot help with that."))
         (py "20250101_000000") report (JStr (py "medium")) (JInt 240)
         (JStr (py "feature")) []
       = Returns (creation_default (JStr (py "Failed to extract JSON"))
                    (py "I cannot help with that."))
           [Call (py "problem_creator")
              (Template CreationTemplate
                 [ py "medium"; py "feature"; py "demo"; []; py "Python"; py "# Demo";
                   py "[]"; py "[]"; py "Unknown"; py "Unknown"; py "unknown"; py "0";
                   py "[]"; py "[]"; []; py "240 minutes"; py "demo"; py "medium";
                   py "feature" ])].
Proof.
  destruct (_synthesize_single_report sample_lower (sample_analysis [titled "A"] [])
              (JObj sample_repo_data)) as [report | e] eqn:E;
    [| vm_compute in E; discriminate].
  exists report. split; [reflexivity |].
  destruct (failed_creation_is_returned_as_a_problem sample_repr
              (fun _ _ _ => Ok (py "I cannot help with that.")) (py "20250101_000000")
              sample_lower _ _ report (JStr (py "medium")) (JInt 240)
              (JStr (py "feature"))
              (Template CreationTemplate
                 [ py "medium"; py "feature"; py "demo"; []; py "Python"; py "# Demo";
                   py "[]"; py "[]"; py "Unknown"; py "Unknown"; py "unknown"; py "0";
                   py "[]"; py "[]"; []; py "240 minutes"; py "demo"; py "medium";
                   py "feature" ])
              (py "I cannot help with that.") JNull [] E)
    as (error_msg & Herror & Hcreate & _).
  - vm_compute in E. injection E as <-. vm_compute. reflexivity.
  - reflexivity.
  - vm_compute. reflexivity.
  - reflexivity.
  - injection Herror as <-. exact Hcreate.
Defined.

(** ** Repository URLs *)

Lemma find_cons (p s : list N) (c : N) :
  find p (c :: s) = if startswith p (c :: s) then Some 0%nat else S <$> find p s.
Proof. destruct p; reflexivity. Qed.

Lemma split_from_no_match (sep s cur : list N) :
  sep <> [] -> find sep s = None -> split_from sep s 0 cur = [rev cur ++ s].
Proof.
  intros Hsep. revert cur. induction s as [| c s IH]; intros cur Hfind.
  - simpl. rewrite app_nil_r. reflexivity.
  - rewrite find_cons in Hfind.
    destruct (startswith sep (c :: s)) eqn:Hstart; [discriminate |].
    destruct (find sep s) eqn:Hs; [discriminate |].
    cbn [split_from]. rewrite Hstart, IH by reflexivity.
    simpl. rewrite <- app_assoc. reflexivity.
Qed.

Lemma split_from_skip (sep x t cur : list N) :
  split_from sep (x ++ t) (length x) cur = split_from sep t 0 cur.
Proof.
  induction x as [| c x IH]; [reflexivity |].
  simpl. exact IH.
Qed.

(** A separator found after a prefix that holds none of its first
    character ends the first piece there. *)
Lemma split_from_clean_prefix (a p t cur : list N) (c : N) :
  Forall (fun x => x <> c) a ->
  split_from (c :: p) (a ++ (c :: p) ++ t) 0 cur
  = (rev cur ++ a) :: split_from (c :: p) t 0 [].
Proof.
  intros Ha. revert cur. induction Ha as [| x a Hx _ IH]; intros cur.
  - rewrite app_nil_r.
    change ([] ++ (c :: p) ++ t) with (c :: (p ++ t)).
    cbn [split_from].
    change (c :: (p ++ t)) with ((c :: p) ++ t).
    rewrite startswith_app. f_equal.
    replace (length (c :: p) - 1)%nat with (length p) by (simpl; lia).
    apply split_from_skip.
  - change ((x :: a) ++ (c :: p) ++ t) with (x :: (a ++ (c :: p) ++ t)).
    cbn [split_from].
    assert (Hstart : startswith (c :: p) (x :: (a ++ (c :: p) ++ t)) = false).
    { cbn [startswith].
      replace (c =? x) with false by (symmetry; apply N.eqb_neq; congruence).
      reflexivity. }
    rewrite Hstart, IH. simpl. rewrite <- app_assoc. reflexivity.
Qed.

Lemma find_clean (a p : list N) (c : N) :
  Forall (fun x => x <> c) a -> find (c :: p) a = None.
Proof.
  induction 1 as [| x a Hx _ IH]; [reflexivity |].
  rewrite find_cons. cbn [startswith].
  replace (c =? x) with false by (symmetry; apply N.eqb_neq; congruence).
  cbn [andb]. rewrite IH. reflexivity.
Qed.

Lemma lstrip_nonspace (s : list N) :
  Forall (fun c => isspace c = false) s -> lstrip s = s.
Proof. destruct 1 as [| c s Hc _]; [reflexivity |]. simpl. rewrite Hc. reflexivity. Qed.

Lemma strip_nonspace (s : list N) :
  Forall (fun c => isspace c = false) s -> strip s = s.
Proof.
  intros H. unfold strip, rstrip. rewrite (lstrip_nonspace s H).
  rewrite lstrip_nonspace by (apply Forall_rev, H).
  apply rev_involutive.
Qed.

Lemma rstrip_slash_snoc (a : list N) (c : N) :
  c <> 47 -> rstrip_slash (a ++ [c]) = a ++ [c].
Proof.
  intros Hc. unfold rstrip_slash. rewrite rev_app_distr. simpl.
  replace (c =? 47) with false by (symmetry; apply N.eqb_neq; exact Hc).
  simpl. rewrite rev_involutive. reflexivity.
Qed.

Lemma contains_false_find (p s : list N) : contains p s = false -> find p s = None.
Proof.
  unfold contains. intros H. apply bool_decide_eq_false in H.
  destruct (find p s) as [i |]; [| reflexivity].
  exfalso. apply H. eexists. reflexivity.
Qed.

(** Without the separator [github.com/] in the text, the three branches of
    [_parse_repo_url] split the same text at its slashes. *)
Lemma parse_repo_url_plain (repo_url : list N) :
  contains (py "github.com/") (rstrip_slash (strip repo_url)) = false ->
  _parse_repo_url repo_url
  = match split (py "/") (rstrip_slash (strip repo_url)) with
    | owner :: repo :: _ => Some (owner, repo)
    | _ => None
    end.
Proof.
  intros Hno. unfold _parse_repo_url. cbv zeta. rewrite Hno.
  unfold split at 2.
  rewrite (split_from_no_match (py "github.com/") _ []
             ltac:(discriminate) (contains_false_find _ _ Hno)).
  cbn [last default from_option id rev app].
  destruct (startswith (py "http") (rstrip_slash (strip repo_url))); reflexivity.
Qed.

Lemma split_owner_repo (owner repo : list N) :
  url_name owner -> url_name repo ->
  split (py "/") (owner ++ py "/" ++ repo) = [owner; repo].
Proof.
  intros Howner Hrepo. unfold split.
  assert (Hfirst : split_from (py "/") (owner ++ py "/" ++ repo) 0 []
                   = owner :: split_from (py "/") repo 0 []).
  { apply (split_from_clean_prefix owner [] repo [] 47).
    eapply Forall_impl; [exact Howner | intros c [Hc _]; exact Hc]. }
  assert (Hrest : split_from (py "/") repo 0 [] = [repo]).
  { apply (split_from_no_match (py "/") repo []); [discriminate |].
    apply (find_clean repo [] 47).
    eapply Forall_impl; [exact Hrepo | intros c [Hc _]; exact Hc]. }
  rewrite Hfirst, Hrest. reflexivity.
Qed.

Lemma normalized_url (prefix owner repo : list N) :
  Forall (fun c => isspace c = false) prefix ->
  url_name owner -> url_name repo -> repo <> [] ->
  rstrip_slash (strip (prefix ++ owner ++ py "/" ++ repo))
  = prefix ++ owner ++ py "/" ++ repo.
Proof.
  intros Hprefix Howner Hrepo Hne.
  rewrite strip_nonspace.
  - destruct (exists_last Hne) as (r & c & ->).
    apply Forall_app in Hrepo as [_ Hc]. apply Forall_singleton in Hc as [Hc _].
    replace (prefix ++ owner ++ py "/" ++ r ++ [c])
      with ((prefix ++ owner ++ py "/" ++ r) ++ [c])
      by (rewrite <- !app_assoc; reflexivity).
    apply rstrip_slash_snoc, Hc.
  - apply Forall_app. split; [exact Hprefix |].
    apply Forall_app. split;
      [eapply Forall_impl; [exact Howner | intros c [_ Hc]; exact Hc] |].
    apply Forall_app. split; [repeat constructor |].
    eapply Forall_impl; [exact Hrepo | intros c [_ Hc]; exact Hc].
Qed.

(** A URL made of a prefix without the letter g, then [github.com/], then
    owner, slash and repository. *)
Lemma parse_repo_url_github (scheme owner repo : list N) :
  Forall (fun c => c <> 103 /\ isspace c = false) scheme ->
  (startswith (py "http") (scheme ++ py "github.com/" ++ owner ++ py "/" ++ repo) = true
   \/ scheme = []) ->
  url_name owner -> url_name repo -> repo <> [] ->
  contains (py "github.com/") (owner ++ py "/" ++ repo) = false ->
  _parse_repo_url (scheme ++ py "github.com/" ++ owner ++ py "/" ++ repo)
  = Some (owner, repo).
Proof.
  intros Hscheme Hhttp Howner Hrepo Hne Hno.
  unfold _parse_repo_url. cbv zeta.
  replace (scheme ++ py "github.com/" ++ owner ++ py "/" ++ repo)
    with ((scheme ++ py "github.com/") ++ owner ++ py "/" ++ repo)
    by (rewrite <- app_assoc; reflexivity).
  rewrite normalized_url; try assumption.
  2:{ apply Forall_app. split; [| repeat constructor].
      eapply Forall_impl; [exact Hscheme | intros c [_ Hc]; exact Hc]. }
  rewrite <- app_assoc.
  assert (Hsplit : split (py "github.com/")
                     (scheme ++ py "github.com/" ++ owner ++ py "/" ++ repo)
                   = [scheme; owner ++ py "/" ++ repo]).
  { unfold split.
    assert (Hfirst : split_from (py "github.com/")
                       (scheme ++ py "github.com/" ++ owner ++ py "/" ++ repo) 0 []
                     = scheme
                       :: split_from (py "github.com/") (owner ++ py "/" ++ repo) 0 []).
    { apply (split_from_clean_prefix scheme (py "ithub.com/")
               (owner ++ py "/" ++ repo) [] 103).
      eapply Forall_impl; [exact Hscheme | intros c [Hc _]; exact Hc]. }
    rewrite Hfirst.
    rewrite (split_from_no_match (py "github.com/") _ []
               ltac:(discriminate) (contains_false_find _ _ Hno)).
    reflexivity. }
  assert (Hcontains : contains (py "github.com/")
                        (scheme ++ py "github.com/" ++ owner ++ py "/" ++ repo) = true).
  { unfold contains. apply bool_decide_eq_true_2.
    exists (length scheme).
    apply (find_after_clean_prefix scheme (owner ++ py "/" ++ repo)
             (py "ithub.com/") 103).
    eapply Forall_impl; [exact Hscheme | intros c [Hc _]; exact Hc]. }
  rewrite Hsplit, Hcontains. cbn [last default from_option id].
  rewrite (split_owner_repo owner repo Howner Hrepo).
  destruct (startswith (py "http")
              (scheme ++ py "github.com/" ++ owner ++ py "/" ++ repo)); reflexivity.
Qed.

(** X25: the three documented forms of a repository address, with an owner
    and a repository name free of slashes and whitespace, all give the pair
    (owner, repository). *)
Theorem documented_url_forms_give_owner_and_repo (owner repo : list N) :
  url_name owner -> url_name repo -> repo <> [] ->
  contains (py "github.com/") (owner ++ py "/" ++ repo) = false ->
  _parse_repo_url (py "https://github.com/" ++ owner ++ py "/" ++ repo)
  = Some (owner, repo)
  /\ _parse_repo_url (py "github.com/" ++ owner ++ py "/" ++ repo) = Some (owner, repo)
  /\ _parse_repo_url (owner ++ py "/" ++ repo) = Some (owner, repo).
Proof.
  intros Howner Hrepo Hne Hno. split; [| split].
  - apply (parse_repo_url_github (py "https://") owner repo); try assumption.
    + repeat constructor; discriminate.
    + left. reflexivity.
  - apply (parse_repo_url_github [] owner repo); try assumption.
    + constructor.
    + right. reflexivity.
  - assert (Hnorm : rstrip_slash (strip (owner ++ py "/" ++ repo))
                    = owner ++ py "/" ++ repo)
      by exact (normalized_url [] owner repo ltac:(constructor) Howner Hrepo Hne).
    rewrite parse_repo_url_plain by (rewrite Hnorm; exact Hno).
    rewrite Hnorm, (split_owner_repo owner repo Howner Hrepo). reflexivity.
Qed.

Lemma documented_url_forms_give_owner_and_repo_witness :
  _parse_repo_url (py "https://github.com/muratcankoylan/actual_code")
  = Some (py "muratcankoylan", py "actual_code").
Proof.
  apply (proj1 (documented_url_forms_give_owner_and_repo
                  (py "muratcankoylan") (py "actual_code")
                  ltac:(repeat constructor; discriminate)
                  ltac:(repeat constructor; discriminate)
                  ltac:(discriminate)
                  ltac:(vm_compute; reflexivity))).
Defined.

(** X26: an address with a scheme that does not mention [github.com/] is
    not rejected: its owner is read as the scheme with its colon and its
    repository as the empty string. *)
Theorem foreign_url_is_accepted_with_empty_repo (repo_url scheme rest : list N) :
  rstrip_slash (strip repo_url) = scheme ++ py "://" ++ rest ->
  Forall (fun c => c <> 47) scheme ->
  contains (py "github.com/") (scheme ++ py "://" ++ rest) = false ->
  _parse_repo_url repo_url = Some (scheme ++ py ":", []).
Proof.
  intros Hnorm Hscheme Hno.
  rewrite parse_repo_url_plain by (rewrite Hnorm; exact Hno).
  rewrite Hnorm. unfold split.
  assert (Hfirst : split_from (py "/") (scheme ++ py "://" ++ rest) 0 []
                   = (scheme ++ py ":") :: split_from (py "/") (py "/" ++ rest) 0 []).
  { replace (scheme ++ py "://" ++ rest)
      with ((scheme ++ py ":") ++ py "/" ++ (py "/" ++ rest))
      by (rewrite <- !app_assoc; reflexivity).
    apply (split_from_clean_prefix (scheme ++ py ":") [] (py "/" ++ rest) [] 47).
    apply Forall_app. split; [exact Hscheme | repeat constructor; discriminate]. }
  assert (Hsecond : split_from (py "/") (py "/" ++ rest) 0 []
                    = [] :: split_from (py "/") rest 0 []).
  { apply (split_from_clean_prefix [] [] rest [] 47). constructor. }
  rewrite Hfirst, Hsecond. reflexivity.
Qed.

Lemma foreign_url_is_accepted_with_empty_repo_witness :
  _parse_repo_url (py " https://gitlab.com/group/project/ ") = Some (py "https:", []).
Proof.
  apply (foreign_url_is_accepted_with_empty_repo
           (py " https://gitlab.com/group/project/ ") (py "https")
           (py "gitlab.com/group/project")).
  - vm_compute. reflexivity.
  - repeat constructor; discriminate.
  - vm_compute. reflexivity.
Defined.
